(** * GAP over a raw HCI link: scanning, connecting, advertising

    A shallow embedding of [gap_hci.go] (package bluetooth).  Bytes and
    machine integers are [Z] with the wrap-around of the Go type written
    out, fixed-size arrays and slices are lists with the bounds checks of
    the Go runtime made explicit, and the adapter together with the
    transport it drives is an explicit state threaded through a small
    state-and-error monad. *)

From stdpp Require Import prelude strings.
From Stdlib Require Import ZArith Lia.

Open Scope Z_scope.

(** ** Machine integers and lengths *)

Definition uint8 (z : Z) : Z := z mod 256.
Definition uint16 (z : Z) : Z := z mod 65536.

(** [len(s)] of a Go slice, array or string. *)
Definition len {A : Type} (l : list A) : Z := Z.of_nat (length l).

(** [[]byte(s)] for a Go string. *)
Definition bytes_of_string (s : string) : list Z :=
  map (fun c => Z.of_N (Ascii.N_of_ascii c)) (String.list_ascii_of_string s).

(** ** Outcomes of Go calls

    A call returns normally (possibly with a non-nil [error] value), or it
    panics in the runtime.  [OutOfFuel] is not a Go outcome: it marks a
    polling loop of the model that was cut off by its step budget. *)

Inductive error : Type :=
  | errScanning
  | errNotScanning
  | ErrConnect
  | errorsNew (msg : string)
  | errTransport (code : nat).

Inductive result (A : Type) : Type :=
  | Ok (a : A)
  | Err (e : error)
  | Panic (why : string)
  | OutOfFuel.

Arguments Ok {A} a.
Arguments Err {A} e.
Arguments Panic {A} why.
Arguments OutOfFuel {A}.

#[global] Instance result_bind : MBind result := fun A B k r =>
  match r with
  | Ok a => k a
  | Err e => Err e
  | Panic why => Panic why
  | OutOfFuel => OutOfFuel
  end.

#[global] Instance result_ret : MRet result := fun A a => Ok a.

(** [for _, x := range l { s = body(s, x) }] where the body may return
    early from the enclosing function. *)
Fixpoint for_range {S E : Type} (body : S -> E -> result S) (l : list E) (s : S)
  : result S :=
  match l with
  | [] => Ok s
  | x :: l' => s' ← body s x; for_range body l' s'
  end.

(** ** AD type codes (the constant block of the source) *)

Definition ADTypeLimitedDiscoverable : Z := 0x01.
Definition ADTypeGeneralDiscoverable : Z := 0x02.
Definition ADTypeFlagsBREDRNotSupported : Z := 0x04.

Definition ADFlags : Z := 0x01.
Definition ADIncompleteAdvertisedService16 : Z := 0x02.
Definition ADCompleteAdvertisedService16 : Z := 0x03.
Definition ADIncompleteAdvertisedService128 : Z := 0x06.
Definition ADCompleteAdvertisedService128 : Z := 0x07.
Definition ADShortLocalName : Z := 0x08.
Definition ADCompleteLocalName : Z := 0x09.
Definition ADServiceData : Z := 0x16.
Definition ADManufacturerData : Z := 0xFF.

Definition defaultMTU : Z := 23.

(** ** Byte arrays with the runtime's bounds checks *)

Definition oob_index : string := "index out of range".
Definition oob_slice : string := "slice bounds out of range".

(** [arr[i] = v] *)
Definition index_set (arr : list Z) (i v : Z) : result (list Z) :=
  if bool_decide (0 <= i < len arr)
  then Ok (<[Z.to_nat i := v]> arr)
  else Panic oob_index.

(** [arr[i]] *)
Definition index_get (arr : list Z) (i : Z) : result Z :=
  if bool_decide (0 <= i) then
    match arr !! Z.to_nat i with
    | Some v => Ok v
    | None => Panic oob_index
    end
  else Panic oob_index.

(** [binary.LittleEndian.PutUint16(arr[off:], v)]: the slice expression
    needs [off <= len(arr)], the early bounds check [_ = b[1]] of
    PutUint16 needs two bytes of room. *)
Definition PutUint16_at (arr : list Z) (off v : Z) : result (list Z) :=
  if bool_decide (0 <= off <= len arr) then
    if bool_decide (2 <= len arr - off) then
      Ok (<[Z.to_nat (off + 1) := (v `div` 256) `mod` 256]>
            (<[Z.to_nat off := v `mod` 256]> arr))
    else Panic oob_index
  else Panic oob_slice.

(** [copy(arr[off:], src)]: copies [min(len(arr)-off, len(src))] bytes. *)
Definition copy_at (arr : list Z) (off : Z) (src : list Z) : result (list Z) :=
  if bool_decide (0 <= off <= len arr) then
    Ok (take (Z.to_nat off) arr
          ++ take (length arr - Z.to_nat off) src
          ++ drop (Z.to_nat off + length src) arr)
  else Panic oob_slice.

(** [arr[:n]] *)
Definition slice_to (arr : list Z) (n : Z) : result (list Z) :=
  if bool_decide (0 <= n <= len arr)
  then Ok (take (Z.to_nat n) arr)
  else Panic oob_slice.

(** [arr[lo:hi]] *)
Definition slice (arr : list Z) (lo hi : Z) : result (list Z) :=
  if bool_decide (0 <= lo <= hi /\ hi <= len arr)
  then Ok (take (Z.to_nat (hi - lo)) (drop (Z.to_nat lo) arr))
  else Panic oob_slice.

(** [var a [31]byte] *)
Definition zero_array31 : list Z := replicate 31 0.

(** ** State threaded through fallible code

    [SR S A] is a Go function body that works on mutable state [S] and
    ends in one of the outcomes above; the state reached when an error is
    returned or a panic is raised is kept. *)

Definition SR (S A : Type) : Type := S -> result A * S.

#[global] Instance SR_bind {S : Type} : MBind (SR S) := fun A B k m s =>
  match m s with
  | (Ok a, s') => k a s'
  | (Err e, s') => (Err e, s')
  | (Panic why, s') => (Panic why, s')
  | (OutOfFuel, s') => (OutOfFuel, s')
  end.

#[global] Instance SR_ret {S : Type} : MRet (SR S) := fun A a s => (Ok a, s).

Definition get {S : Type} : SR S S := fun s => (Ok s, s).
Definition modify {S : Type} (f : S -> S) : SR S unit := fun s => (Ok tt, f s).
Definition lift {S A : Type} (r : result A) : SR S A := fun s => (r, s).
(** [return err] *)
Definition fail {S A : Type} (e : error) : SR S A := fun s => (Err e, s).

(** ** Declarations of the package that live in other files

    The UUID type with its methods and constructors, the address
    conversions and the identifiers of the generic services are declared
    elsewhere in the package; the code of this file is verified for every
    implementation of them. *)

Class Externals (UUID : Type) : Type := {
  Is16Bit : UUID -> bool;
  Is32Bit : UUID -> bool;
  Get16Bit : UUID -> Z;
  (** [uuid.Bytes()], a [[16]byte] *)
  Bytes : UUID -> list Z;
  New16BitUUID : Z -> UUID;
  NewUUID : list Z -> UUID;
  makeAddress : list Z -> list Z;
  makeNINAAddress : list Z -> list Z;
  ServiceUUIDGenericAccess : UUID;
  ServiceUUIDGenericAttribute : UUID;
  CharacteristicUUIDDeviceName : UUID;
  CharacteristicUUIDAppearance : UUID;
  CharacteristicUUIDServiceChanged : UUID;
  CharacteristicReadPermission : Z;
  CharacteristicIndicatePermission : Z;
  Bytes_length : forall u, length (Bytes u) = 16%nat;
  Get16Bit_range : forall u, 0 <= Get16Bit u < 65536
}.

(** ** Data model *)

Record MACAddress : Type := { MAC : list Z; isRandom : bool }.

(** [type Address struct { MACAddress }] *)
Record Address : Type := { Address_MACAddress : MACAddress }.

Record notificationRegistration : Type := {
  nr_handle : Z;
  (** the Go function value, by identity *)
  nr_callback : nat
}.

Record deviceInternal : Type := {
  di_handle : Z;
  mtu : Z;
  notificationRegistrations : list notificationRegistration
}.

(** [Device] embeds a pointer to its [deviceInternal]: copies of a
    [Device] value share the pointed-to record.  The pointer is an index
    into the [devices] heap of the world below. *)
Record Device : Type := {
  Device_Address : Address;
  Device_deviceInternal : nat
}.

Record ManufacturerDataElement : Type := {
  CompanyID : Z;
  md_Data : list Z
}.

Record ServiceDataElement (UUID : Type) : Type := {
  sd_UUID : UUID;
  sd_Data : list Z
}.
Arguments sd_UUID {UUID} _.
Arguments sd_Data {UUID} _.

Record AdvertisementFields (UUID : Type) : Type := {
  LocalName : list Z;
  ServiceUUIDs : list UUID
}.
Arguments LocalName {UUID} _.
Arguments ServiceUUIDs {UUID} _.

Record ScanResult (UUID : Type) : Type := {
  sr_Address : Address;
  RSSI : Z;
  AdvertisementPayload : AdvertisementFields UUID
}.
Arguments sr_Address {UUID} _.
Arguments RSSI {UUID} _.
Arguments AdvertisementPayload {UUID} _.

Record CharacteristicConfig (UUID : Type) : Type := {
  cc_UUID : UUID;
  Flags : Z;
  Value : list Z
}.
Arguments cc_UUID {UUID} _.
Arguments Flags {UUID} _.
Arguments Value {UUID} _.

Record Service (UUID : Type) : Type := {
  svc_UUID : UUID;
  Characteristics : list (CharacteristicConfig UUID)
}.
Arguments svc_UUID {UUID} _.
Arguments Characteristics {UUID} _.

Record AdvertisementOptions (UUID : Type) : Type := {
  opt_AdvertisementType : Z;
  opt_LocalName : string;
  opt_ServiceUUIDs : list UUID;
  opt_Interval : Z;
  opt_ManufacturerData : list ManufacturerDataElement;
  opt_ServiceData : list (ServiceDataElement UUID)
}.
Arguments opt_AdvertisementType {UUID} _.
Arguments opt_LocalName {UUID} _.
Arguments opt_ServiceUUIDs {UUID} _.
Arguments opt_Interval {UUID} _.
Arguments opt_ManufacturerData {UUID} _.
Arguments opt_ServiceData {UUID} _.

Record Advertisement (UUID : Type) : Type := {
  advertisementType : Z;
  localName : list Z;
  serviceUUIDs : list UUID;
  interval : Z;
  manufacturerData : list ManufacturerDataElement;
  serviceData : list (ServiceDataElement UUID);
  genericServiceInit : bool
}.
Arguments advertisementType {UUID} _.
Arguments localName {UUID} _.
Arguments serviceUUIDs {UUID} _.
Arguments interval {UUID} _.
Arguments manufacturerData {UUID} _.
Arguments serviceData {UUID} _.
Arguments genericServiceInit {UUID} _.

(** ** The HCI transport

    Commands issued to the controller, in the order of the methods the
    source calls on [a.hci]. *)

Inductive Cmd : Type :=
  | leSetScanEnable (enabled duplicates : bool)
  | leSetScanParameters (typ interval window ownBdaddrType filter : Z)
  | leCreateConn (interval window initiatorFilter peerBdaddrType : Z)
      (peerBdaddr : list Z)
      (ownBdaddrType minInterval maxInterval latency supervisionTimeout
         minCeLength maxCeLength : Z)
  | leCancelConn
  | disconnect (handle : Z)
  | leSetAdvertisingParameters
      (minInterval maxInterval advType ownBdaddrType directBdaddrType : Z)
      (directBdaddr : list Z) (chanMap filter : Z)
  | leSetAdvertisingData (data : list Z)
  | leSetScanResponseData (data : list Z)
  | leSetAdvertiseEnable (enabled : bool).

(** Modelled from the spec: the type of the pending advertisement report
    [a.hci.advData] is declared outside this file.  Its fields are the
    ones the source reads; [eirData] is the report buffer, 31 bytes long
    (the packet cap of section 6). *)
Record leAdvertisingReport : Type := {
  reported : bool;
  adv_peerBdaddrType : Z;
  adv_peerBdaddr : list Z;
  eirLength : Z;
  eirData : list Z;
  rssi : Z
}.

(** Modelled from the spec: the type of the pending connect-complete
    event [a.hci.connectData] is declared outside this file.  The source
    reads [connected], [handle] and [peerBdaddr]; the event also carries
    the peer address type the controller reports (section 4.3). *)
Record leConnectData : Type := {
  connected : bool;
  conn_handle : Z;
  conn_peerBdaddrType : Z;
  conn_peerBdaddr : list Z
}.

Definition zero_leAdvertisingReport : leAdvertisingReport :=
  {| reported := false; adv_peerBdaddrType := 0; adv_peerBdaddr := replicate 6 0;
     eirLength := 0; eirData := zero_array31; rssi := 0 |}.

Definition zero_leConnectData : leConnectData :=
  {| connected := false; conn_handle := 0; conn_peerBdaddrType := 0;
     conn_peerBdaddr := replicate 6 0 |}.

Inductive PollEvent : Type :=
  | PollError (e : error)
  | PollIdle
  | PollAdvertisingReport (r : leAdvertisingReport)
  | PollConnectComplete (c : leConnectData).

(** Modelled from the spec: the transport behind [a.hci] is an external
    collaborator (section 6): each command either succeeds or returns an
    error, and a non-blocking poll surfaces at most one pending
    advertisement report or one pending connect-complete event per call.
    A transport is given by what it answers: to a command, given the
    commands issued before it; to the k-th poll; and by the nanoseconds
    the k-th poll takes. *)
Record Transport : Type := {
  command_error : list Cmd -> Cmd -> option error;
  poll_event : nat -> PollEvent;
  poll_nanos : nat -> Z
}.

(** ** The world: adapter, its transport state, and the package globals *)

Record World (UUID : Type) : Type := {
  (** [a.scanning] *)
  scanning : bool;
  (** commands issued on [a.hci] so far, oldest first *)
  hci_log : list Cmd;
  (** number of [a.hci.poll()] calls so far *)
  hci_polls : nat;
  advData : leAdvertisingReport;
  connectData : leConnectData;
  (** wall clock, in nanoseconds *)
  clock : Z;
  (** the connection registry of the adapter *)
  connectedDevices : list Device;
  (** heap of [deviceInternal] records, addressed by [Device_deviceInternal] *)
  devices : list deviceInternal;
  (** the service table of the adapter: registrations received, in order *)
  services : list (Service UUID);
  (** the package variable [defaultAdvertisement] *)
  defaultAdvertisement : Advertisement UUID;
  (** background servicing tasks spawned by [Start] *)
  servicing : nat
}.
Arguments scanning {UUID} _.
Arguments hci_log {UUID} _.
Arguments hci_polls {UUID} _.
Arguments advData {UUID} _.
Arguments connectData {UUID} _.
Arguments clock {UUID} _.
Arguments connectedDevices {UUID} _.
Arguments devices {UUID} _.
Arguments services {UUID} _.
Arguments defaultAdvertisement {UUID} _.
Arguments servicing {UUID} _.

Section WorldUpdates.
Context {UUID : Type}.
Implicit Type w : World UUID.

Definition set_scanning (b : bool) w : World UUID :=
  {| scanning := b; hci_log := hci_log w; hci_polls := hci_polls w;
     advData := advData w; connectData := connectData w; clock := clock w;
     connectedDevices := connectedDevices w; devices := devices w;
     services := services w; defaultAdvertisement := defaultAdvertisement w;
     servicing := servicing w |}.

Definition set_hci_log (l : list Cmd) w : World UUID :=
  {| scanning := scanning w; hci_log := l; hci_polls := hci_polls w;
     advData := advData w; connectData := connectData w; clock := clock w;
     connectedDevices := connectedDevices w; devices := devices w;
     services := services w; defaultAdvertisement := defaultAdvertisement w;
     servicing := servicing w |}.

Definition set_hci_polls (n : nat) w : World UUID :=
  {| scanning := scanning w; hci_log := hci_log w; hci_polls := n;
     advData := advData w; connectData := connectData w; clock := clock w;
     connectedDevices := connectedDevices w; devices := devices w;
     services := services w; defaultAdvertisement := defaultAdvertisement w;
     servicing := servicing w |}.

Definition set_advData (r : leAdvertisingReport) w : World UUID :=
  {| scanning := scanning w; hci_log := hci_log w; hci_polls := hci_polls w;
     advData := r; connectData := connectData w; clock := clock w;
     connectedDevices := connectedDevices w; devices := devices w;
     services := services w; defaultAdvertisement := defaultAdvertisement w;
     servicing := servicing w |}.

Definition set_connectData (c : leConnectData) w : World UUID :=
  {| scanning := scanning w; hci_log := hci_log w; hci_polls := hci_polls w;
     advData := advData w; connectData := c; clock := clock w;
     connectedDevices := connectedDevices w; devices := devices w;
     services := services w; defaultAdvertisement := defaultAdvertisement w;
     servicing := servicing w |}.

Definition set_clock (t : Z) w : World UUID :=
  {| scanning := scanning w; hci_log := hci_log w; hci_polls := hci_polls w;
     advData := advData w; connectData := connectData w; clock := t;
     connectedDevices := connectedDevices w; devices := devices w;
     services := services w; defaultAdvertisement := defaultAdvertisement w;
     servicing := servicing w |}.

Definition set_connectedDevices (l : list Device) w : World UUID :=
  {| scanning := scanning w; hci_log := hci_log w; hci_polls := hci_polls w;
     advData := advData w; connectData := connectData w; clock := clock w;
     connectedDevices := l; devices := devices w;
     services := services w; defaultAdvertisement := defaultAdvertisement w;
     servicing := servicing w |}.

Definition set_devices (l : list deviceInternal) w : World UUID :=
  {| scanning := scanning w; hci_log := hci_log w; hci_polls := hci_polls w;
     advData := advData w; connectData := connectData w; clock := clock w;
     connectedDevices := connectedDevices w; devices := l;
     services := services w; defaultAdvertisement := defaultAdvertisement w;
     servicing := servicing w |}.

Definition set_services (l : list (Service UUID)) w : World UUID :=
  {| scanning := scanning w; hci_log := hci_log w; hci_polls := hci_polls w;
     advData := advData w; connectData := connectData w; clock := clock w;
     connectedDevices := connectedDevices w; devices := devices w;
     services := l; defaultAdvertisement := defaultAdvertisement w;
     servicing := servicing w |}.

Definition set_defaultAdvertisement (a : Advertisement UUID) w : World UUID :=
  {| scanning := scanning w; hci_log := hci_log w; hci_polls := hci_polls w;
     advData := advData w; connectData := connectData w; clock := clock w;
     connectedDevices := connectedDevices w; devices := devices w;
     services := services w; defaultAdvertisement := a;
     servicing := servicing w |}.

Definition set_servicing (n : nat) w : World UUID :=
  {| scanning := scanning w; hci_log := hci_log w; hci_polls := hci_polls w;
     advData := advData w; connectData := connectData w; clock := clock w;
     connectedDevices := connectedDevices w; devices := devices w;
     services := services w; defaultAdvertisement := defaultAdvertisement w;
     servicing := n |}.
End WorldUpdates.

(** ** Collaborator calls *)

Section Collaborators.
Context {UUID : Type} (T : Transport).
#[local] Abbreviation M := (SR (World UUID)).

(** A command method of [a.hci]: the command reaches the transport
    whether or not it then reports an error. *)
Definition hci (c : Cmd) : M unit := fun w =>
  let w' := set_hci_log (hci_log w ++ [c]) w in
  match command_error T (hci_log w) c with
  | Some e => (Err e, w')
  | None => (Ok tt, w')
  end.

(** [a.hci.poll()] *)
Definition hci_poll : M unit := fun w =>
  let k := hci_polls w in
  let w1 := set_clock (clock w + poll_nanos T k) (set_hci_polls (S k) w) in
  match poll_event T k with
  | PollError e => (Err e, w1)
  | PollIdle => (Ok tt, w1)
  | PollAdvertisingReport r => (Ok tt, set_advData r w1)
  | PollConnectComplete c => (Ok tt, set_connectData c w1)
  end.

(** Modelled from the spec: [a.hci.clearAdvData()] is declared outside
    this file; it clears the pending advertisement report. *)
Definition clearAdvData : M unit := modify (set_advData zero_leAdvertisingReport).

(** Modelled from the spec: [a.hci.clearConnectData()] is declared
    outside this file; it clears the pending connect-complete event. *)
Definition clearConnectData : M unit := modify (set_connectData zero_leConnectData).

(** [time.Now().UnixNano()] *)
Definition time_Now : M Z := fun w => (Ok (clock w), w).

(** [time.Sleep(d)]; any oversleep is accounted to the next poll. *)
Definition time_Sleep (d : Z) : M unit := modify (fun w => set_clock (clock w + d) w).

(** Modelled from the spec: [a.addConnection(d)] is declared outside
    this file; it records the connection in the registry. *)
Definition addConnection (d : Device) : M unit :=
  modify (fun w => set_connectedDevices (connectedDevices w ++ [d]) w).

(** Modelled from the spec: [a.AddService(s)] is declared outside this
    file; the service table receives the registration. *)
Definition AddService (s : Service UUID) : M unit :=
  modify (fun w => set_services (services w ++ [s]) w).
End Collaborators.

Definition Millisecond : Z := 1000000.
Definition Second : Z := 1000000000.

(** ** Decoding an advertisement report (the walk inside [Scan])

    The walk runs over the report buffer and keeps a log of every offset
    at which the buffer is indexed, in order. *)

Section Decode.
Context {UUID : Type} `{!Externals UUID}.
#[local] Abbreviation L := (SR (list Z)).

(** [eirData[i]] *)
Definition read_at (eir : list Z) (i : Z) : L Z := fun log =>
  (index_get eir i, log ++ [i]).

(** The bytes of [eirData[lo:hi]], once the slice expression passed its
    bounds check. *)
Definition read_slice (eir : list Z) (lo hi : Z) : L (list Z) := fun log =>
  match slice eir lo hi with
  | Ok bs => (Ok bs, log ++ seqZ lo (hi - lo))
  | r => (r, log)
  end.

(** [binary.LittleEndian.Uint16(b)] on a two-byte slice *)
Definition Uint16 (b : list Z) : Z :=
  match b with
  | [b0; b1] => b0 + 256 * b1
  | _ => 0
  end.

Definition append_uuid (adf : AdvertisementFields UUID) (u : UUID)
  : AdvertisementFields UUID :=
  {| LocalName := LocalName adf; ServiceUUIDs := ServiceUUIDs adf ++ [u] |}.

Definition set_LocalName (adf : AdvertisementFields UUID) (name : list Z)
  : AdvertisementFields UUID :=
  {| LocalName := name; ServiceUUIDs := ServiceUUIDs adf |}.

(** The body of the [switch t] for one AD structure at offset [i] with
    length byte [l]. *)
Definition decode_structure (eir : list Z) (i l t : Z)
    (adf : AdvertisementFields UUID) : L (AdvertisementFields UUID) :=
  if bool_decide (t = ADIncompleteAdvertisedService16
                  \/ t = ADCompleteAdvertisedService16) then
    b ← read_slice eir (i + 2) (i + 4);
    mret (append_uuid adf (New16BitUUID (Uint16 b)))
  else if bool_decide (t = ADIncompleteAdvertisedService128
                       \/ t = ADCompleteAdvertisedService128) then
    b ← read_slice eir (i + 2) (i + 18);
    mret (append_uuid adf (NewUUID b))
  else if bool_decide (t = ADShortLocalName \/ t = ADCompleteLocalName) then
    b ← read_slice eir (i + 2) (i + 1 + l);
    mret (set_LocalName adf b)
  else
    (* ADServiceData, ADManufacturerData and every other type: nothing *)
    mret adf.

(** [for i := 0; i < int(eirLength); { ...; i += l + 1 }] *)
Fixpoint decode_loop (fuel : nat) (eir : list Z) (n i : Z)
    (adf : AdvertisementFields UUID) : L (AdvertisementFields UUID) :=
  if bool_decide (i < n) then
    match fuel with
    | O => lift OutOfFuel
    | S fuel' =>
        l ← read_at eir i;
        t ← read_at eir (i + 1);
        if bool_decide (l < 1) then mret adf
        else
          adf' ← decode_structure eir i l t adf;
          decode_loop fuel' eir n (i + l + 1) adf'
    end
  else mret adf.

(** The walk over a report: the decoded fields (or a panic) and the
    offsets read.  Every round advances [i] by at least two, so
    [eirLength] rounds are enough (lemma [decode_loop_total]). *)
Definition decode (r : leAdvertisingReport)
  : result (AdvertisementFields UUID) * list Z :=
  decode_loop (Z.to_nat (eirLength r)) (eirData r) (eirLength r) 0
    {| LocalName := []; ServiceUUIDs := [] |} [].
End Decode.

(** ** Scanning *)

Section Scanning.
Context {UUID : Type} `{!Externals UUID} (T : Transport).
#[local] Abbreviation M := (SR (World UUID)).

(** The [for] loop of [Scan].  The callback runs synchronously on the
    adapter and may change it (it is how [StopScan] gets called). *)
Fixpoint Scan_loop (fuel : nat)
    (callback : ScanResult UUID -> World UUID -> World UUID) : M unit :=
  match fuel with
  | O => lift OutOfFuel
  | S fuel' =>
      _ ← hci_poll T;
      w ← get;
      if reported (advData w) then
        if bool_decide (eirLength (advData w) > 31) then
          _ ← clearAdvData;
          Scan_loop fuel' callback
        else
          adf ← lift (fst (decode (advData w)));
          let random := bool_decide (adv_peerBdaddrType (advData w) = 0x01) in
          _ ← modify (callback
                {| sr_Address :=
                     {| Address_MACAddress :=
                          {| MAC := makeAddress (adv_peerBdaddr (advData w));
                             isRandom := random |} |};
                   RSSI := rssi (advData w);
                   AdvertisementPayload := adf |});
          _ ← clearAdvData;
          _ ← time_Sleep (5 * Millisecond);
          Scan_loop fuel' callback
      else
        if negb (scanning w) then mret tt
        else
          _ ← time_Sleep (5 * Millisecond);
          Scan_loop fuel' callback
  end.

Definition Scan (fuel : nat)
    (callback : ScanResult UUID -> World UUID -> World UUID) : M unit :=
  w ← get;
  if scanning w then fail errScanning
  else
    _ ← hci T (leSetScanEnable false true);
    (* passive scanning, every 40ms, for 30ms *)
    _ ← hci T (leSetScanParameters 0x00 0x0080 0x0030 0x00 0x00);
    _ ← modify (set_scanning true);
    (* scan with duplicates *)
    _ ← hci T (leSetScanEnable true false);
    Scan_loop fuel callback.

Definition StopScan : M unit :=
  w ← get;
  if negb (scanning w) then fail errNotScanning
  else
    _ ← hci T (leSetScanEnable false false);
    modify (set_scanning false).
End Scanning.

(** ** Connecting *)

Section Connecting.
Context {UUID : Type} `{!Externals UUID} (T : Transport).
#[local] Abbreviation M := (SR (World UUID)).

(** [&deviceInternal{...}]: a fresh record on the heap; the pointer is
    its index. *)
Definition new_deviceInternal (di : deviceInternal) : M nat := fun w =>
  (Ok (length (devices w)), set_devices (devices w ++ [di]) w).

(** The polling loop of [Connect].  [Some d] is the [return d, nil]
    inside the loop, [None] is the [break] on the deadline. *)
Fixpoint Connect_loop (fuel : nat) (address : Address) (start : Z)
  : M (option Device) :=
  match fuel with
  | O => lift OutOfFuel
  | S fuel' =>
      _ ← hci_poll T;
      w ← get;
      if connected (connectData w) then
        let random := if isRandom (Address_MACAddress address) then true else false in
        p ← new_deviceInternal
              {| di_handle := conn_handle (connectData w);
                 mtu := defaultMTU;
                 notificationRegistrations := [] |};
        let d :=
          {| Device_Address :=
               {| Address_MACAddress :=
                    {| MAC := makeAddress (conn_peerBdaddr (connectData w));
                       isRandom := random |} |};
             Device_deviceInternal := p |} in
        _ ← addConnection d;
        (* defer a.hci.clearConnectData() *)
        _ ← clearConnectData;
        mret (Some d)
      else
        (* check for timeout *)
        now ← time_Now;
        if bool_decide (Z.quot (now - start) Second > 5) then mret None
        else
          _ ← time_Sleep (5 * Millisecond);
          Connect_loop fuel' address start
  end.

Definition Connect {Params : Type} (fuel : nat) (address : Address)
    (params : Params) : M Device :=
  let random := if isRandom (Address_MACAddress address) then 1 else 0 in
  _ ← hci T (leCreateConn 0x0060 0x0030 0x00 random
               (makeNINAAddress (MAC (Address_MACAddress address)))
               0x00 0x0006 0x000c 0x0000 0x00c8 0x0004 0x0006);
  (* are we connected? *)
  start ← time_Now;
  r ← Connect_loop fuel address start;
  match r with
  | Some d => mret d
  | None =>
      (* cancel connection attempt that failed *)
      _ ← hci T leCancelConn;
      fail ErrConnect
  end.
End Connecting.

(** ** Notification registrations

    A [*notificationRegistration] either points into the backing array
    of a device's registration slice, or at a variable that escaped to
    the heap.  [findNotificationRegistration] takes the address of its
    loop variable [n], which holds a copy of the slice element. *)

Inductive regptr : Type :=
  | InSlice (dev idx : nat)
  | InVariable (cell : nat).

Record Store : Type := {
  st_devices : list deviceInternal;
  st_variables : list notificationRegistration
}.

Definition set_registrations (di : deviceInternal)
    (l : list notificationRegistration) : deviceInternal :=
  {| di_handle := di_handle di; mtu := mtu di; notificationRegistrations := l |}.

(** [*p] *)
Definition load (s : Store) (p : regptr) : option notificationRegistration :=
  match p with
  | InSlice dev idx =>
      di ← st_devices s !! dev; notificationRegistrations di !! idx
  | InVariable cell => st_variables s !! cell
  end.

(** [*p = v] *)
Definition store (s : Store) (p : regptr) (v : notificationRegistration) : Store :=
  match p with
  | InSlice dev idx =>
      {| st_devices :=
           alter (fun di => set_registrations di
                              (<[idx := v]> (notificationRegistrations di)))
                 dev (st_devices s);
         st_variables := st_variables s |}
  | InVariable cell =>
      {| st_devices := st_devices s;
         st_variables := <[cell := v]> (st_variables s) |}
  end.

(** [for _, n := range regs { if n.handle == handle { return &n } }];
    [None] is the [return nil] after the loop. *)
Fixpoint find_in (regs : list notificationRegistration) (handle : Z)
    (s : Store) : option regptr * Store :=
  match regs with
  | [] => (None, s)
  | n :: rest =>
      if bool_decide (nr_handle n = handle) then
        (Some (InVariable (length (st_variables s))),
         {| st_devices := st_devices s;
            st_variables := st_variables s ++ [n] |})
      else find_in rest handle s
  end.

(** A [Device] whose pointer is not in the store is the zero [Device];
    no registration is ever added through it, and the lookup is modelled
    as finding nothing. *)
Definition findNotificationRegistration (d : Device) (handle : Z) (s : Store)
  : option regptr * Store :=
  match st_devices s !! Device_deviceInternal d with
  | Some di => find_in (notificationRegistrations di) handle s
  | None => (None, s)
  end.

Definition addNotificationRegistration (d : Device) (handle : Z)
    (callback : nat) (s : Store) : Store :=
  {| st_devices :=
       alter (fun di => set_registrations di
                (notificationRegistrations di
                   ++ [ {| nr_handle := handle; nr_callback := callback |} ]))
             (Device_deviceInternal d) (st_devices s);
     st_variables := st_variables s |}.

(** The registrations the registry holds for a device. *)
Definition registrations_of (d : Device) (s : Store)
  : list notificationRegistration :=
  match st_devices s !! Device_deviceInternal d with
  | Some di => notificationRegistrations di
  | None => []
  end.

(** ** Advertising *)

Section Advertising.
Context {UUID : Type} `{!Externals UUID} (T : Transport).
#[local] Abbreviation M := (SR (World UUID)).

Definition set_genericServiceInit (b : bool) (a : Advertisement UUID)
  : Advertisement UUID :=
  {| advertisementType := advertisementType a; localName := localName a;
     serviceUUIDs := serviceUUIDs a; interval := interval a;
     manufacturerData := manufacturerData a; serviceData := serviceData a;
     genericServiceInit := b |}.

Definition set_serviceData (sd : list (ServiceDataElement UUID))
    (a : Advertisement UUID) : Advertisement UUID :=
  {| advertisementType := advertisementType a; localName := localName a;
     serviceUUIDs := serviceUUIDs a; interval := interval a;
     manufacturerData := manufacturerData a; serviceData := sd;
     genericServiceInit := genericServiceInit a |}.

Definition modify_adv (f : Advertisement UUID -> Advertisement UUID) : M unit :=
  modify (fun w => set_defaultAdvertisement (f (defaultAdvertisement w)) w).

(** The two registrations of [configureGenericServices]. *)
Definition genericAccessService (name : list Z) (appearance : Z) : Service UUID :=
  {| svc_UUID := ServiceUUIDGenericAccess;
     Characteristics :=
       [ {| cc_UUID := CharacteristicUUIDDeviceName;
            Flags := CharacteristicReadPermission;
            Value := name |};
         {| cc_UUID := CharacteristicUUIDAppearance;
            Flags := CharacteristicReadPermission;
            Value := [ uint8 (Z.land appearance 0xff);
                       uint8 (Z.shiftr appearance 8) ] |} ] |}.

Definition genericAttributeService : Service UUID :=
  {| svc_UUID := ServiceUUIDGenericAttribute;
     Characteristics :=
       [ {| cc_UUID := CharacteristicUUIDServiceChanged;
            Flags := CharacteristicIndicatePermission;
            Value := [] |} ] |}.

Definition configureGenericServices (name : list Z) (appearance : Z) : M unit :=
  w ← get;
  let a := defaultAdvertisement w in
  if genericServiceInit a then mret tt
  else
    _ ← AddService (genericAccessService (localName a) appearance);
    _ ← AddService genericAttributeService;
    modify_adv (set_genericServiceInit true).

(** The [switch] on [options.LocalName]: the local name [Configure]
    stores, the default one when the option is empty. *)
Definition configured_name (options : AdvertisementOptions UUID) : list Z :=
  if bool_decide (opt_LocalName options <> EmptyString)
  then bytes_of_string (opt_LocalName options)
  else bytes_of_string "TinyGo".

Definition Configure (options : AdvertisementOptions UUID) : M unit :=
  _ ← modify_adv (fun a =>
        {| advertisementType := opt_AdvertisementType options;
           localName := configured_name options;
           serviceUUIDs := [] ++ opt_ServiceUUIDs options;
           interval :=
             (if bool_decide (uint16 (opt_Interval options) = 0)
              then 0x0800 (* default interval is 1.28 seconds *)
              else uint16 (opt_Interval options));
           manufacturerData := [] ++ opt_ManufacturerData options;
           serviceData := [] ++ opt_ServiceData options;
           genericServiceInit := genericServiceInit a |});
  w ← get;
  _ ← configureGenericServices (localName (defaultAdvertisement w)) 0x0540;
  mret tt.

(** [Configure] called once for each element of [calls], in order, on
    the same advertisement. *)
Fixpoint Configure_each (calls : list (AdvertisementOptions UUID)) : M unit :=
  match calls with
  | [] => mret tt
  | options :: rest => _ ← Configure options; Configure_each rest
  end.

(** *** The advertising-data packet built by [Start]

    The state of the build is the array [advertisingData] and the
    [uint8] counter [advertisingDataLen]. *)

Definition put_flags (data : list Z) : result (list Z * Z) :=
  data ← index_set data 0 0x02; (* length *)
  data ← index_set data 1 ADFlags;
  data ← index_set data 2 (ADTypeGeneralDiscoverable + ADTypeFlagsBREDRNotSupported);
  mret (data, uint8 (0 + 3)).

(** [if len(a.serviceUUIDs) == 1 { ... }] *)
Definition put_serviceUUID (uuids : list UUID) (st : list Z * Z)
  : result (list Z * Z) :=
  let '(data, n) := st in
  match uuids with
  | [uuid] =>
      '(data, sz) ←
        (if Is16Bit uuid then
           data ← PutUint16_at data 5 (Get16Bit uuid);
           mret (data, 2)
         else if Is32Bit uuid then
           data ← copy_at data 5 (reverse (Bytes uuid));
           mret (data, 6)
         else mret (data, 0));
      data ← index_set data 3 0x03; (* length *)
      data ← index_set data 4 ADCompleteAdvertisedService16;
      mret (data, uint8 (n + uint8 (sz + 2)))
  | _ => mret (data, n)
  end.

(** The body of [for _, md := range a.manufacturerData]. *)
Definition put_manufacturerData (st : list Z * Z) (md : ManufacturerDataElement)
  : result (list Z * Z) :=
  let '(data, n) := st in
  if bool_decide (uint8 (uint8 (n + 4) + uint8 (len (md_Data md))) > 31) then
    Err (errorsNew "ManufacturerData too long")
  else
    data ← index_set data n (uint8 (3 + uint8 (len (md_Data md)))); (* length *)
    data ← index_set data (uint8 (n + 1)) ADManufacturerData;
    data ← PutUint16_at data (uint8 (n + 2)) (CompanyID md);
    data ← copy_at data (uint8 (n + 4)) (md_Data md);
    mret (data, uint8 (n + uint8 (4 + uint8 (len (md_Data md))))).

(** The array and counter when [Start] reaches [leSetAdvertisingData]. *)
Definition build_advertisingData (a : Advertisement UUID) : result (list Z * Z) :=
  st ← put_flags zero_array31;
  st ← put_serviceUUID (serviceUUIDs a) st;
  if bool_decide (len (manufacturerData a) > 0)
  then for_range put_manufacturerData (manufacturerData a) st
  else mret st.

(** [advertisingData[:advertisingDataLen]] *)
Definition advertisingData_packet (a : Advertisement UUID) : result (list Z) :=
  '(data, n) ← build_advertisingData a;
  slice_to data n.

(** *** The scan-response packet built by [setServiceData] *)

Definition put_localName (name : list Z) (data : list Z) : result (list Z * Z) :=
  if bool_decide (len name > 29) then
    data ← index_set data 0 (1 + 29); (* length *)
    data ← index_set data 1 ADCompleteLocalName;
    name29 ← slice_to name 29;
    data ← copy_at data 2 name29;
    mret (data, 31)
  else if bool_decide (len name > 0) then
    data ← index_set data 0 (uint8 (1 + len name)); (* length *)
    data ← index_set data 1 ADShortLocalName;
    data ← copy_at data 2 name;
    mret (data, uint8 (2 + len name))
  else mret (data, 0).

(** The body of [for _, sde := range a.serviceData]. *)
Definition put_serviceData (st : list Z * Z) (sde : ServiceDataElement UUID)
  : result (list Z * Z) :=
  let '(data, n) := st in
  if bool_decide (uint8 (uint8 (n + 4) + uint8 (len (sd_Data sde))) > 31) then
    Err (errorsNew "ServiceData too long")
  else
    data ←
      (if Is16Bit (sd_UUID sde) then
         PutUint16_at data (uint8 (n + 2)) (Get16Bit (sd_UUID sde))
       else if Is32Bit (sd_UUID sde) then
         Err (errorsNew "32-bit ServiceData UUIDs not yet supported")
       else mret data);
    data ← index_set data n (uint8 (3 + uint8 (len (sd_Data sde)))); (* length *)
    data ← index_set data (uint8 (n + 1)) ADServiceData;
    data ← copy_at data (uint8 (n + 4)) (sd_Data sde);
    mret (data, uint8 (n + uint8 (4 + uint8 (len (sd_Data sde))))).

(** The array and counter when [setServiceData] reaches
    [leSetScanResponseData]. *)
Definition build_scanResponseData (name : list Z)
    (sd : list (ServiceDataElement UUID)) : result (list Z * Z) :=
  st ← put_localName name zero_array31;
  if bool_decide (len sd > 0)
  then for_range put_serviceData sd st
  else mret st.

(** [scanResponseData[:scanResponseDataLen]] *)
Definition scanResponseData_packet (name : list Z)
    (sd : list (ServiceDataElement UUID)) : result (list Z) :=
  '(data, n) ← build_scanResponseData name sd;
  slice_to data n.

Definition setServiceData (sd : list (ServiceDataElement UUID)) : M unit :=
  _ ← modify_adv (set_serviceData sd);
  w ← get;
  packet ← lift (scanResponseData_packet (localName (defaultAdvertisement w))
                   (serviceData (defaultAdvertisement w)));
  _ ← hci T (leSetScanResponseData packet);
  mret tt.

(** [go func() { ... }()]: one more background servicing task. *)
Definition spawn_servicing : M unit :=
  modify (fun w => set_servicing (S (servicing w)) w).

Definition Start : M unit :=
  w ← get;
  let a := defaultAdvertisement w in
  let typ := uint8 (advertisementType a) in
  _ ← hci T (leSetAdvertisingParameters (interval a) (interval a) typ
               0x00 0x00 [0x00; 0x00; 0x00; 0x00; 0x00; 0x00] 0x07 0);
  packet ← lift (advertisingData_packet a);
  _ ← hci T (leSetAdvertisingData packet);
  _ ← setServiceData (serviceData a);
  _ ← hci T (leSetAdvertiseEnable true);
  (* go routine to poll for HCI events while advertising *)
  _ ← spawn_servicing;
  mret tt.
End Advertising.

(** ** Stopping: [Stop] and the background servicing task

    [Stop] and the goroutines spawned by [Start] run concurrently and meet
    on the unbuffered channel [a.stop].  Each is a small program counter;
    a schedule picks who takes the next step.  A send on the unbuffered
    channel parks the sender until a receiver takes the value; the
    [select] of a task has a [default] branch, so a task never waits on
    the channel: it takes the value when a sender is parked and goes on
    to poll otherwise. *)

Module Servicing.

(** Where a servicing task stands in its [for] loop. *)
Inductive task : Type :=
  | Selecting   (* at the select *)
  | Polling     (* at a.adapter.att.poll() *)
  | Sleeping    (* at time.Sleep *)
  | Exited.     (* took [case <-a.stop: return] *)

(** Where the caller of [Stop] stands. *)
Inductive stopper : Type :=
  | Disabling   (* at a.adapter.hci.leSetAdvertiseEnable(false) *)
  | Pausing     (* at time.Sleep *)
  | Clearing    (* at a.adapter.att.clearLocalData() *)
  | Sending     (* at a.stop <- struct{}{} *)
  | Parked      (* blocked in the send *)
  | Sent        (* the value was taken; at return nil *)
  | Returned (r : option error).

Record config : Type := {
  caller : stopper;
  tasks : list task;
  (** values received from [a.stop] *)
  received : nat;
  log : list Cmd;
  att_polls : nat;
  att_clears : nat
}.

Inductive actor : Type :=
  | Caller
  | Task (i : nat).

#[global] Instance task_eq_dec : EqDecision task.
Proof. solve_decision. Defined.

Definition is_parked (s : stopper) : bool :=
  match s with Parked => true | _ => false end.

Section Steps.
(** What the transport answers to [leSetAdvertiseEnable(false)]. *)
Variable disable_error : option error.

(** One step of [Stop]: the statement its caller stands at. *)
Definition Stop_step (c : config) : config :=
  match caller c with
  | Disabling =>
      {| caller := match disable_error with
                   | Some e => Returned (Some e)
                   | None => Pausing
                   end;
         tasks := tasks c; received := received c;
         log := log c ++ [leSetAdvertiseEnable false];
         att_polls := att_polls c; att_clears := att_clears c |}
  | Pausing =>
      {| caller := Clearing; tasks := tasks c; received := received c;
         log := log c; att_polls := att_polls c; att_clears := att_clears c |}
  | Clearing =>
      {| caller := Sending; tasks := tasks c; received := received c;
         log := log c; att_polls := att_polls c;
         att_clears := S (att_clears c) |}
  | Sending =>
      {| caller := Parked; tasks := tasks c; received := received c;
         log := log c; att_polls := att_polls c; att_clears := att_clears c |}
  | Parked => c
  | Sent =>
      {| caller := Returned None; tasks := tasks c; received := received c;
         log := log c; att_polls := att_polls c; att_clears := att_clears c |}
  | Returned _ => c
  end.

(** One step of the goroutine spawned by [Start], for task [i]. *)
Definition servicing_step (i : nat) (c : config) : config :=
  match tasks c !! i with
  | Some Selecting =>
      if is_parked (caller c) then
        {| caller := Sent; tasks := <[i := Exited]> (tasks c);
           received := S (received c); log := log c;
           att_polls := att_polls c; att_clears := att_clears c |}
      else
        {| caller := caller c; tasks := <[i := Polling]> (tasks c);
           received := received c; log := log c;
           att_polls := att_polls c; att_clears := att_clears c |}
  | Some Polling =>
      {| caller := caller c; tasks := <[i := Sleeping]> (tasks c);
         received := received c; log := log c;
         att_polls := S (att_polls c); att_clears := att_clears c |}
  | Some Sleeping =>
      {| caller := caller c; tasks := <[i := Selecting]> (tasks c);
         received := received c; log := log c;
         att_polls := att_polls c; att_clears := att_clears c |}
  | Some Exited | None => c
  end.

Definition step (c : config) (a : actor) : config :=
  match a with
  | Caller => Stop_step c
  | Task i => servicing_step i c
  end.

(** The configuration a schedule leads to. *)
Definition run (sched : list actor) (c : config) : config :=
  foldl step c sched.
End Steps.

(** [Stop] is called while [ts] are the servicing tasks. *)
Definition calling (ts : list task) : config :=
  {| caller := Disabling; tasks := ts; received := 0%nat; log := [];
     att_polls := 0%nat; att_clears := 0%nat |}.

(** Tasks still in their servicing loop. *)
Definition running (ts : list task) : list task :=
  filter (fun t => t <> Exited) ts.

(** How many tasks have left their loop. *)
Definition exited (ts : list task) : nat :=
  length (filter (fun t => t = Exited) ts).

(** What holds in every configuration a call of [Stop] can reach: the
    values received are those of the tasks that exited, none before the
    caller is parked in its send, one from then on. *)
Definition invariant (disable_error : option error) (n : nat) (c : config) : Prop :=
  length (tasks c) = n
  /\ received c = exited (tasks c)
  /\ match caller c with
     | Sent | Returned None => received c = 1%nat
     | Returned (Some e) => received c = 0%nat /\ disable_error = Some e
     | _ => received c = 0%nat
     end.

End Servicing.


(** ** Assumptions on a transport *)

(** No poll ever surfaces a completed connection. *)
Definition never_connects (T : Transport) : Prop :=
  forall k c, poll_event T k = PollConnectComplete c -> connected c = false.

(** No poll ever returns an error. *)
Definition polls_succeed (T : Transport) : Prop :=
  forall k e, poll_event T k <> PollError e.

(** Every command is accepted. *)
Definition commands_succeed (T : Transport) : Prop :=
  forall log c, command_error T log c = None.

(** A poll takes between zero and [delta] nanoseconds. *)
Definition polls_take_at_most (delta : Z) (T : Transport) : Prop :=
  forall k, 0 <= poll_nanos T k <= delta.

(** The create-connection command [Connect] issues for [address]. *)
Definition Connect_command {UUID : Type} `{!Externals UUID} (address : Address) : Cmd :=
  leCreateConn 0x0060 0x0030 0x00
    (if isRandom (Address_MACAddress address) then 1 else 0)
    (makeNINAAddress (MAC (Address_MACAddress address)))
    0x00 0x0006 0x000c 0x0000 0x00c8 0x0004 0x0006.

(** ** Well-formed packets

    A packet is a sequence of AD structures [[length][type][value]] when
    every length byte counts at least the type byte and at most the bytes
    that remain in the packet after it. *)

Fixpoint ad_structures (fuel : nat) (p : list Z) : bool :=
  match p with
  | [] => true
  | l :: rest =>
      match fuel with
      | O => false
      | S fuel' =>
          bool_decide (1 <= l <= len rest)
          && ad_structures fuel' (drop (Z.to_nat l) rest)
      end
  end.

Definition well_formed_packet (p : list Z) : bool := ad_structures (length p) p.

(** ** A concrete instance for running the code

    UUIDs as 128-bit numbers; a short UUID is one over the Bluetooth base
    UUID 0000xxxx-0000-1000-8000-00805F9B34FB.  The address conversions
    keep the byte order. *)

Module Sample.

Definition base96 : Z := 0x00001000800000805F9B34FB.

Definition uuid_Bytes (u : Z) : list Z :=
  map (fun k => (u `div` 256 ^ (15 - Z.of_nat k)) `mod` 256) (seq 0 16).

Definition uuid_of_bytes (b : list Z) : Z :=
  foldl (fun acc x => acc * 256 + x `mod` 256) 0 (take 16 b).

Definition uuid_Is32Bit (u : Z) : bool := bool_decide (u `mod` 2 ^ 96 = base96).

Definition uuid_Is16Bit (u : Z) : bool :=
  uuid_Is32Bit u && bool_decide ((u `div` 2 ^ 96) `mod` 2 ^ 32 < 65536).

#[global, refine] Instance externals : Externals Z := {|
  Is16Bit := uuid_Is16Bit;
  Is32Bit := uuid_Is32Bit;
  Get16Bit u := (u `div` 2 ^ 96) `mod` 65536;
  Bytes := uuid_Bytes;
  New16BitUUID short := (short `mod` 65536) * 2 ^ 96 + base96;
  NewUUID := uuid_of_bytes;
  makeAddress mac := mac;
  makeNINAAddress mac := mac;
  ServiceUUIDGenericAccess := 0x1800 * 2 ^ 96 + base96;
  ServiceUUIDGenericAttribute := 0x1801 * 2 ^ 96 + base96;
  CharacteristicUUIDDeviceName := 0x2A00 * 2 ^ 96 + base96;
  CharacteristicUUIDAppearance := 0x2A01 * 2 ^ 96 + base96;
  CharacteristicUUIDServiceChanged := 0x2A05 * 2 ^ 96 + base96;
  CharacteristicReadPermission := 0x02;
  CharacteristicIndicatePermission := 0x20
|}.
Proof.
  - intros u. reflexivity.
  - intros u. apply Z.mod_pos_bound. lia.
Defined.

(** A 16-bit, a 32-bit and a full 128-bit UUID. *)
Definition uuid16 : Z := 0x1809 * 2 ^ 96 + base96.
Definition uuid32 : Z := 0x12345678 * 2 ^ 96 + base96.
Definition uuid128 : Z := 0x6E400001B5A3F393E0A9E50E24DCCA9E.

(** A transport on which every command succeeds and nothing ever
    arrives; polls take no time. *)
Definition quiet : Transport :=
  {| command_error := fun _ _ => None;
     poll_event := fun _ => PollIdle;
     poll_nanos := fun _ => 0 |}.

(** The quiet transport, except that command [c] is refused. *)
Definition refusing (c : Cmd -> bool) (e : error) : Transport :=
  {| command_error := fun _ cmd => if c cmd then Some e else None;
     poll_event := fun _ => PollIdle;
     poll_nanos := fun _ => 0 |}.

(** A transport whose first poll reports the connect-complete event [c]. *)
Definition connecting (c : leConnectData) : Transport :=
  {| command_error := fun _ _ => None;
     poll_event := fun k => match k with O => PollConnectComplete c | _ => PollIdle end;
     poll_nanos := fun _ => 0 |}.

Definition is_leCreateConn (c : Cmd) : bool :=
  match c with leCreateConn _ _ _ _ _ _ _ _ _ _ _ _ => true | _ => false end.

Definition is_leCancelConn (c : Cmd) : bool :=
  match c with leCancelConn => true | _ => false end.

Definition zero_Advertisement : Advertisement Z :=
  {| advertisementType := 0; localName := []; serviceUUIDs := [];
     interval := 0; manufacturerData := []; serviceData := [];
     genericServiceInit := false |}.

(** The world of a freshly enabled adapter. *)
Definition fresh : World Z :=
  {| scanning := false; hci_log := []; hci_polls := 0%nat;
     advData := zero_leAdvertisingReport; connectData := zero_leConnectData;
     clock := 0; connectedDevices := []; devices := []; services := [];
     defaultAdvertisement := zero_Advertisement; servicing := 0%nat |}.

End Sample.


(** ** The AD structures the encoders emit

    What the packets are compared with: a structure is its length byte,
    its type byte and its value; a 16-bit quantity goes out low byte
    first. *)

Definition ad_structure (t : Z) (value : list Z) : list Z :=
  (1 + len value) :: t :: value.

Definition le16 (v : Z) : list Z := [v `mod` 256; (v `div` 256) `mod` 256].

Definition manufacturerData_structure (md : ManufacturerDataElement) : list Z :=
  ad_structure ADManufacturerData (le16 (CompanyID md) ++ md_Data md).

Section Structures.
Context {UUID : Type} `{!Externals UUID}.

(** The service-data structure; the UUID field is only filled in for a
    16-bit UUID. *)
Definition serviceData_structure (sde : ServiceDataElement UUID) : list Z :=
  ad_structure ADServiceData
    ((if Is16Bit (sd_UUID sde) then le16 (Get16Bit (sd_UUID sde)) else [0; 0])
       ++ sd_Data sde).

(** The structures of the advertising-data packet: flags, the single
    service UUID if there is exactly one, the manufacturer data. *)
Definition advertising_structures (a : Advertisement UUID) : list (list Z) :=
  ad_structure ADFlags [ADTypeGeneralDiscoverable + ADTypeFlagsBREDRNotSupported]
  :: match serviceUUIDs a with
     | [uuid] => [ad_structure ADCompleteAdvertisedService16 (le16 (Get16Bit uuid))]
     | _ => []
     end
  ++ map manufacturerData_structure (manufacturerData a).

(** The name structure of the scan response, with the type codes as the
    code writes them. *)
Definition localName_structures (name : list Z) : list (list Z) :=
  if bool_decide (len name > 29) then [ad_structure ADCompleteLocalName (take 29 name)]
  else if bool_decide (len name > 0) then [ad_structure ADShortLocalName name]
  else [].

Definition scanResponse_structures (name : list Z)
    (sd : list (ServiceDataElement UUID)) : list (list Z) :=
  localName_structures name ++ map serviceData_structure sd.
End Structures.

(** The report a scanner holds for a packet: the packet at the start of
    the 31-byte buffer, its length as the declared length. *)
Definition report_of (packet : list Z) : leAdvertisingReport :=
  {| reported := true; adv_peerBdaddrType := 0; adv_peerBdaddr := replicate 6 0;
     eirLength := len packet;
     eirData := packet ++ replicate (31 - length packet) 0;
     rssi := 0 |}.

(** ** Disconnecting and the remaining methods of [Device] *)

Section Disconnecting.
Context {UUID : Type} (T : Transport).
#[local] Abbreviation M := (SR (World UUID)).

(** [d.handle], [d.adapter]: a field read through the embedded
    [*deviceInternal]; the zero [Device] holds a nil pointer. *)
Definition deref (d : Device) : M deviceInternal := fun w =>
  match devices w !! Device_deviceInternal d with
  | Some di => (Ok di, w)
  | None => (Panic "nil pointer dereference", w)
  end.

(** The handle a registered device answers to. *)
Definition handle_of (w : World UUID) (d : Device) : option Z :=
  di_handle <$> devices w !! Device_deviceInternal d.

(** Modelled from the spec: [a.removeConnection(d)] is declared outside
    this file; it removes the connection from the registry, which is
    keyed by handle (section 4.5). *)
Definition removeConnection (d : Device) : M unit :=
  modify (fun w =>
    set_connectedDevices
      (filter (fun d' => handle_of w d' <> handle_of w d) (connectedDevices w)) w).

Definition Disconnect (d : Device) : M unit :=
  di ← deref d;
  _ ← hci T (disconnect (di_handle di));
  _ ← removeConnection d;
  mret tt.

(** On NINA, this call hasn't been implemented yet. *)
Definition RequestConnectionParams {Params : Type} (d : Device) (params : Params)
  : M unit := mret tt.
End Disconnecting.

(** ** The default advertisement and its adapter

    [DefaultAdvertisement] binds the package variable to the adapter it
    is first called on and makes its stop channel then.  Adapters and
    channels are told apart by numbers. *)

Record binding : Type := {
  (** [defaultAdvertisement.adapter], nil until the first call *)
  bound_adapter : option nat;
  (** [defaultAdvertisement.stop] *)
  stop_channel : option nat;
  (** channels made so far *)
  channels_made : nat
}.

Definition unbound : binding :=
  {| bound_adapter := None; stop_channel := None; channels_made := 0 |}.

Definition DefaultAdvertisement (a : nat) (b : binding) : binding :=
  match bound_adapter b with
  | None =>
      {| bound_adapter := Some a;
         stop_channel := Some (channels_made b);
         channels_made := S (channels_made b) |}
  | Some _ => b
  end.

(** ** Callers and transports used in the statements below *)

(** A scan callback that stops the scan, as a caller's callback does by
    calling [a.StopScan()]. *)
Definition stopping_callback {UUID : Type} (T : Transport)
    (result : ScanResult UUID) (w : World UUID) : World UUID :=
  (StopScan T w).2.

(** The scan result [Scan] hands to the callback for a pending report. *)
Definition scan_result_of {UUID : Type} `{!Externals UUID}
    (r : leAdvertisingReport) (adf : AdvertisementFields UUID) : ScanResult UUID :=
  {| sr_Address :=
       {| Address_MACAddress :=
            {| MAC := makeAddress (adv_peerBdaddr r);
               isRandom := bool_decide (adv_peerBdaddrType r = 0x01) |} |};
     RSSI := rssi r;
     AdvertisementPayload := adf |}.

(** Every report a poll surfaces declares more than 31 bytes. *)
Definition only_oversized_reports (T : Transport) : Prop :=
  forall k r, poll_event T k = PollAdvertisingReport r ->
              reported r = true -> eirLength r > 31.

(** Whether the caller of [Stop] has returned. *)
Definition has_returned (c : Servicing.config) : bool :=
  match Servicing.caller c with
  | Servicing.Returned _ => true
  | _ => false
  end.

Module Sample2.

(** A transport whose first poll surfaces the report [r]. *)
Definition reporting (r : leAdvertisingReport) : Transport :=
  {| command_error := fun _ _ => None;
     poll_event := fun k => match k with O => PollAdvertisingReport r | _ => PollIdle end;
     poll_nanos := fun _ => 0 |}.

(** A transport whose first [n] polls surface the report [r]. *)
Definition flooding (n : nat) (r : leAdvertisingReport) : Transport :=
  {| command_error := fun _ _ => None;
     poll_event := fun k => if bool_decide (k < n)%nat
                            then PollAdvertisingReport r else PollIdle;
     poll_nanos := fun _ => 0 |}.

(** A transport whose first poll fails. *)
Definition failing_poll (e : error) : Transport :=
  {| command_error := fun _ _ => None;
     poll_event := fun k => match k with O => PollError e | _ => PollIdle end;
     poll_nanos := fun _ => 0 |}.

(** The quiet transport, except that the command issued after [n]
    earlier ones is refused. *)
Definition refusing_nth (n : nat) (e : error) : Transport :=
  {| command_error := fun log _ => if bool_decide (length log = n) then Some e else None;
     poll_event := fun _ => PollIdle;
     poll_nanos := fun _ => 0 |}.

Definition is_disconnect (c : Cmd) : bool :=
  match c with disconnect _ => true | _ => false end.

Definition named (name : string) : AdvertisementOptions Z :=
  {| opt_AdvertisementType := 0; opt_LocalName := name;
     opt_ServiceUUIDs := []; opt_Interval := 0;
     opt_ManufacturerData := []; opt_ServiceData := [] |}.

Definition address : Address :=
  {| Address_MACAddress := {| MAC := [6; 5; 4; 3; 2; 1]; isRandom := true |} |}.

Definition complete : leConnectData :=
  {| connected := true; conn_handle := 0x0040; conn_peerBdaddrType := 0;
     conn_peerBdaddr := [1; 2; 3; 4; 5; 6] |}.

(** A configured advertisement: one 16-bit service UUID, one
    manufacturer-data element, one service-data element. *)
Definition beacon : Advertisement Z :=
  {| advertisementType := 0; localName := bytes_of_string "TinyGo";
     serviceUUIDs := [Sample.uuid16]; interval := 0x0800;
     manufacturerData := [ {| CompanyID := 0x004C; md_Data := [1; 2; 3] |} ];
     serviceData := [ {| sd_UUID := Sample.uuid16; sd_Data := [0x42] |} ];
     genericServiceInit := true |}.

(** The packets [Start] sends for [beacon]. *)
Definition beacon_advertisingData : list Z :=
  [2; 1; 6; 3; 3; 0x09; 0x18; 6; 0xFF; 0x4C; 0; 1; 2; 3].

Definition beacon_scanResponseData : list Z :=
  [7; 8; 84; 105; 110; 121; 71; 111; 4; 0x16; 0x09; 0x18; 0x42].

(** [beacon] with manufacturer data that does not fit the packet. *)
Definition overfull : Advertisement Z :=
  {| advertisementType := 0; localName := bytes_of_string "TinyGo";
     serviceUUIDs := []; interval := 0x0800;
     manufacturerData := [ {| CompanyID := 0x004C; md_Data := replicate 28 0 |} ];
     serviceData := []; genericServiceInit := true |}.

(** A service-data element with a 32-bit UUID. *)
Definition wide : ServiceDataElement Z :=
  {| sd_UUID := Sample.uuid32; sd_Data := [1] |}.

(** The fresh adapter with advertisement [a] as its default one. *)
Definition advertising (a : Advertisement Z) : World Z :=
  set_defaultAdvertisement a Sample.fresh.

(** A report whose declared length is over the size of the buffer. *)
Definition oversized : leAdvertisingReport :=
  {| reported := true; adv_peerBdaddrType := 0; adv_peerBdaddr := replicate 6 0;
     eirLength := 32; eirData := zero_array31; rssi := 0 |}.

(** A callback that leaves the adapter alone. *)
Definition ignoring (result : ScanResult Z) (w : World Z) : World Z := w.

(** The fresh adapter with one connected device of handle [0x0040]. *)
Definition peer : Device :=
  {| Device_Address := address; Device_deviceInternal := 0%nat |}.

Definition connected_world : World Z :=
  set_connectedDevices [peer]
    (set_devices [ {| di_handle := 0x0040; mtu := defaultMTU;
                      notificationRegistrations := [] |} ] Sample.fresh).

(** A store with that one device. *)
Definition one_device : Store :=
  {| st_devices := [ {| di_handle := 0x0040; mtu := defaultMTU;
                        notificationRegistrations := [] |} ];
     st_variables := [] |}.

End Sample2.

(** * Properties of the code *)

(** ** Arrays and the result monad *)

Lemma uint8_small (z : Z) : 0 <= z < 256 -> uint8 z = z.
Proof. intros. unfold uint8. apply Z.mod_small. lia. Qed.

Lemma bind_Ok {A B : Type} (a : A) (k : A -> result B) : (Ok a ≫= k) = k a.
Proof. reflexivity. Qed.

Lemma SR_bind_eq {S A B : Type} (m : SR S A) (k : A -> SR S B) (s : S) :
  (m ≫= k) s =
    match m s with
    | (Ok a, s') => k a s'
    | (Err e, s') => (Err e, s')
    | (Panic why, s') => (Panic why, s')
    | (OutOfFuel, s') => (OutOfFuel, s')
    end.
Proof. reflexivity. Qed.

Lemma len_insert (arr : list Z) (i : nat) (v : Z) : len (<[i := v]> arr) = len arr.
Proof. unfold len. by rewrite length_insert. Qed.

Lemma len_zero_array31 : len zero_array31 = 31.
Proof. reflexivity. Qed.

Ltac in_bounds :=
  unfold len, zero_array31 in *;
  rewrite ?length_app, ?length_insert, ?length_take, ?length_drop,
    ?length_insert, ?length_replicate;
  lia.

Lemma index_set_ok (arr : list Z) (i v : Z) :
  0 <= i < len arr -> index_set arr i v = Ok (<[Z.to_nat i := v]> arr).
Proof. intros. unfold index_set. by rewrite bool_decide_eq_true_2. Qed.

Lemma copy_at_ok (arr : list Z) (off : Z) (src : list Z) :
  0 <= off <= len arr ->
  copy_at arr off src =
    Ok (take (Z.to_nat off) arr ++ take (length arr - Z.to_nat off) src
          ++ drop (Z.to_nat off + length src) arr).
Proof. intros. unfold copy_at. by rewrite bool_decide_eq_true_2. Qed.

Lemma slice_to_ok (arr : list Z) (n : Z) :
  0 <= n <= len arr -> slice_to arr n = Ok (take (Z.to_nat n) arr).
Proof. intros. unfold slice_to. by rewrite bool_decide_eq_true_2. Qed.

Lemma header_take (x t : Z) (body tail : list Z) (n : nat) :
  n = (2 + length body)%nat ->
  take n ([x; t] ++ body ++ tail) = x :: t :: body.
Proof.
  intros ->. rewrite app_assoc. apply take_app_length'. simpl. lia.
Qed.

(** ** The packets built by [setServiceData] and [Start] *)

Section Packets.
Context {UUID : Type} `{!Externals UUID}.

Lemma scanResponse_name_only (name : list Z) :
  scanResponseData_packet name [] =
    '(data, n) ← put_localName name zero_array31; slice_to data n.
Proof.
  unfold scanResponseData_packet, build_scanResponseData.
  destruct (put_localName name zero_array31) as [[data n]| | |]; reflexivity.
Qed.

Lemma scanResponse_name_fits (name : list Z) :
  1 <= len name <= 29 ->
  scanResponseData_packet name []
  = Ok ((1 + len name) :: ADShortLocalName :: name).
Proof.
  intros Hlen. rewrite scanResponse_name_only. unfold put_localName.
  rewrite bool_decide_eq_false_2 by lia.
  rewrite bool_decide_eq_true_2 by lia.
  rewrite !uint8_small by lia.
  rewrite index_set_ok by in_bounds. rewrite bind_Ok.
  rewrite index_set_ok by in_bounds. rewrite bind_Ok.
  rewrite copy_at_ok by in_bounds. rewrite bind_Ok.
  cbn [mret result_ret]. rewrite bind_Ok.
  rewrite slice_to_ok by in_bounds.
  f_equal. unfold len in *.
  etrans.
  { apply (header_take _ _ (take 29 name)). rewrite length_take. lia. }
  by rewrite take_ge by lia.
Qed.

Lemma scanResponse_name_truncated (name : list Z) :
  29 < len name ->
  scanResponseData_packet name []
  = Ok (30 :: ADCompleteLocalName :: take 29 name).
Proof.
  intros Hlen. rewrite scanResponse_name_only. unfold put_localName.
  rewrite bool_decide_eq_true_2 by lia.
  rewrite index_set_ok by in_bounds. rewrite bind_Ok.
  rewrite index_set_ok by in_bounds. rewrite bind_Ok.
  rewrite slice_to_ok by lia. rewrite bind_Ok.
  rewrite copy_at_ok by in_bounds. rewrite bind_Ok.
  cbn [mret result_ret]. rewrite bind_Ok.
  rewrite slice_to_ok by in_bounds.
  f_equal. unfold len in *.
  etrans.
  { apply (header_take _ _ (take 29 (take 29 name))). rewrite !length_take. lia. }
  by rewrite take_take.
Qed.

(** C1 (the code departs from the claim): for every non-empty local
    name the scan-response packet starts with the name structure, but
    the two type codes are the other way round: a name of 1 to 29 bytes
    is emitted in full with length byte 1+len(name) under type 0x08
    (Shortened Local Name), and a name of more than 29 bytes is cut to
    its first 29 bytes under type 0x09 (Complete Local Name). *)
Theorem scan_response_local_name_type (name : list Z) :
  0 < len name ->
  scanResponseData_packet name []
  = Ok (if bool_decide (len name > 29)
        then 30 :: 0x09 :: take 29 name
        else (1 + len name) :: 0x08 :: name).
Proof.
  intros Hpos. case_bool_decide.
  - apply scanResponse_name_truncated. lia.
  - apply scanResponse_name_fits. lia.
Qed.

(** C4 (the code departs from the claim): when the single configured
    service UUID is neither 16-bit nor 32-bit (a 128-bit UUID) and there
    is no manufacturer data, the advertising-data packet is the five
    bytes 02 01 06 03 03: its second structure announces length 3 with
    a single byte left in the packet, so the packet is not a sequence of
    well-formed AD structures. *)
Theorem advertising_data_128bit_uuid_malformed
    (a : Advertisement UUID) (uuid : UUID) :
  serviceUUIDs a = [uuid] ->
  Is16Bit uuid = false ->
  Is32Bit uuid = false ->
  manufacturerData a = [] ->
  advertisingData_packet a = Ok [2; 1; 6; 3; 3]
  /\ well_formed_packet [2; 1; 6; 3; 3] = false.
Proof.
  intros Hu H16 H32 Hmd. split; [|reflexivity].
  unfold advertisingData_packet, build_advertisingData, put_serviceUUID.
  rewrite Hu, Hmd, H16, H32. reflexivity.
Qed.

End Packets.

Lemma scan_response_local_name_type_witness :
  0 < len (bytes_of_string "Go Bluetooth")
  /\ scanResponseData_packet (UUID := Z) (bytes_of_string "Go Bluetooth") []
     = Ok [13; 0x08; 71; 111; 32; 66; 108; 117; 101; 116; 111; 111; 116; 104].
Proof.
  split; [reflexivity|].
  exact (scan_response_local_name_type (UUID := Z)
           (bytes_of_string "Go Bluetooth") eq_refl).
Defined.

Lemma advertising_data_128bit_uuid_malformed_witness :
  advertisingData_packet
    {| advertisementType := 0; localName := bytes_of_string "TinyGo";
       serviceUUIDs := [Sample.uuid128]; interval := 0x0800;
       manufacturerData := []; serviceData := [];
       genericServiceInit := true |}
  = Ok [2; 1; 6; 3; 3]
  /\ well_formed_packet [2; 1; 6; 3; 3] = false.
Proof.
  apply (advertising_data_128bit_uuid_malformed _ Sample.uuid128);
    reflexivity.
Defined.

(** *** A single 32-bit service UUID *)

Section ServiceUUID32.
Context {UUID : Type} `{!Externals UUID}.

(** With a single 32-bit UUID the structure still announces length 3,
    and six bytes of the reversed UUID follow its type byte. *)
Lemma advertising_data_32bit_uuid (a : Advertisement UUID) (uuid : UUID) :
  serviceUUIDs a = [uuid] ->
  Is16Bit uuid = false ->
  Is32Bit uuid = true ->
  manufacturerData a = [] ->
  advertisingData_packet a
  = Ok ([2; 1; 6; 3; 3] ++ take 6 (reverse (Bytes uuid))).
Proof.
  intros Hu H16 H32 Hmd.
  unfold advertisingData_packet, build_advertisingData, put_serviceUUID.
  rewrite Hu, Hmd, H16, H32.
  change (put_flags zero_array31) with (Ok (2 :: 1 :: 6 :: replicate 28 0, 3)).
  rewrite bind_Ok.
  assert (length (reverse (Bytes uuid)) = 16%nat) as Hrev
    by (by rewrite length_reverse, Bytes_length).
  rewrite copy_at_ok by (unfold len; simpl; lia). rewrite !bind_Ok.
  rewrite Hrev. change (Z.to_nat 5) with 5%nat.
  rewrite (take_ge (reverse (Bytes uuid))) by (cbn; lia).
  change (take 5 (2 :: 1 :: 6 :: replicate 28 0)) with [2; 1; 6; 0; 0].
  change (drop (5 + 16) (2 :: 1 :: 6 :: replicate 28 0)) with (replicate 10 0).
  assert (Hlen : len ([2; 1; 6; 0; 0] ++ reverse (Bytes uuid) ++ replicate 10 0) = 31).
  { unfold len. rewrite !length_app, Hrev. reflexivity. }
  rewrite index_set_ok by lia. rewrite bind_Ok.
  rewrite index_set_ok by (rewrite len_insert; lia). rewrite bind_Ok.
  cbn [mret result_ret]. rewrite bind_Ok.
  rewrite bool_decide_eq_false_2 by (unfold len; simpl; lia).
  rewrite bind_Ok. change (uint8 (3 + uint8 (6 + 2))) with 11.
  rewrite slice_to_ok by (rewrite !len_insert; lia).
  set (rev := reverse (Bytes uuid)) in *. clearbody rev.
  f_equal. change (Z.to_nat 11) with 11%nat. change (Z.to_nat 4) with 4%nat.
  change (Z.to_nat 3) with 3%nat. cbn. do 5 f_equal.
  apply (take_app_le rev _ 6). lia.
Qed.
End ServiceUUID32.

Lemma advertising_data_32bit_uuid_example :
  advertisingData_packet
    {| advertisementType := 0; localName := bytes_of_string "TinyGo";
       serviceUUIDs := [Sample.uuid32]; interval := 0x0800;
       manufacturerData := []; serviceData := [];
       genericServiceInit := true |}
  = Ok [2; 1; 6; 3; 3; 0xFB; 0x34; 0x9B; 0x5F; 0x80; 0x00]
  /\ well_formed_packet [2; 1; 6; 3; 3; 0xFB; 0x34; 0x9B; 0x5F; 0x80; 0x00] = false.
Proof. vm_compute. by split. Qed.

(** *** Packets never exceed the array they are cut from *)

Lemma bind_Ok_inv {A B : Type} (r : result A) (k : A -> result B) (b : B) :
  (r ≫= k) = Ok b -> exists a, r = Ok a /\ k a = Ok b.
Proof. destruct r; try discriminate. intros Hk. eauto. Qed.

Lemma index_set_len (arr : list Z) (i v : Z) (arr' : list Z) :
  index_set arr i v = Ok arr' -> len arr' = len arr.
Proof.
  unfold index_set. case_bool_decide; [|discriminate].
  intros [= <-]. apply len_insert.
Qed.

Lemma PutUint16_at_len (arr : list Z) (off v : Z) (arr' : list Z) :
  PutUint16_at arr off v = Ok arr' -> len arr' = len arr.
Proof.
  unfold PutUint16_at. repeat case_bool_decide; try discriminate.
  intros [= <-]. by rewrite !len_insert.
Qed.

Lemma copy_at_len (arr : list Z) (off : Z) (src arr' : list Z) :
  copy_at arr off src = Ok arr' -> len arr' = len arr.
Proof.
  unfold copy_at. case_bool_decide; [|discriminate].
  intros [= <-]. in_bounds.
Qed.

Lemma slice_to_len (arr : list Z) (n : Z) (p : list Z) :
  slice_to arr n = Ok p -> len p <= len arr.
Proof.
  unfold slice_to. case_bool_decide; [|discriminate].
  intros [= <-]. in_bounds.
Qed.

Lemma for_range_invariant {S E : Type} (P : S -> Prop)
    (body : S -> E -> result S) (l : list E) :
  (forall s x s', P s -> body s x = Ok s' -> P s') ->
  forall s s', P s -> for_range body l s = Ok s' -> P s'.
Proof.
  intros Hbody. induction l as [|x l IH]; intros s s' Hs; cbn [for_range].
  - by intros [= <-].
  - intros Hrun. apply bind_Ok_inv in Hrun; destruct Hrun as (s1 & H1 & Hrest). eauto.
Qed.

(** Peels the binds of a successful run, recording that each array
    operation kept the length. *)
Ltac peel H :=
  repeat match type of H with
  | (_ ≫= _) = Ok _ =>
      let x := fresh "x" in let Hx := fresh "Hx" in
      apply bind_Ok_inv in H; destruct H as (x & Hx & H);
      first [ apply index_set_len in Hx
            | apply PutUint16_at_len in Hx
            | apply copy_at_len in Hx
            | idtac ]
  end;
  cbn [mret result_ret] in H.

Section PacketLengths.
Context {UUID : Type} `{!Externals UUID}.

Lemma put_manufacturerData_len (st : list Z * Z) (md : ManufacturerDataElement)
    (st' : list Z * Z) :
  put_manufacturerData st md = Ok st' -> len st'.1 = len st.1.
Proof.
  destruct st as [data n]. unfold put_manufacturerData.
  case_bool_decide; [discriminate|]. intros Hrun. peel Hrun. injection Hrun as <-. cbn. congruence.
Qed.

Lemma put_serviceData_len (st : list Z * Z) (sde : ServiceDataElement UUID)
    (st' : list Z * Z) :
  put_serviceData st sde = Ok st' -> len st'.1 = len st.1.
Proof.
  destruct st as [data n]. unfold put_serviceData.
  case_bool_decide; [discriminate|]. intros Hrun. peel Hrun. injection Hrun as <-. cbn.
  assert (len x = len data) as <-; [|congruence].
  destruct (Is16Bit _); [by apply PutUint16_at_len in Hx|].
  destruct (Is32Bit _); [discriminate|]. by injection Hx as <-.
Qed.

Lemma build_advertisingData_len (a : Advertisement UUID) (st : list Z * Z) :
  build_advertisingData a = Ok st -> len st.1 = 31.
Proof.
  unfold build_advertisingData. intros H.
  apply bind_Ok_inv in H; destruct H as ([d0 n0] & Hflags & H).
  apply bind_Ok_inv in H; destruct H as ([d1 n1] & Huuid & H).
  assert (len d0 = 31) as H0.
  { unfold put_flags in Hflags. peel Hflags. injection Hflags as <- _.
    rewrite Hx1, Hx0, Hx. reflexivity. }
  assert (len d1 = 31) as H1.
  { unfold put_serviceUUID in Huuid.
    destruct (serviceUUIDs a) as [|uuid [|? ?]]; try (injection Huuid as <- _; done).
    apply bind_Ok_inv in Huuid; destruct Huuid as ([d sz] & Hsw & Huuid). peel Huuid.
    injection Huuid as <- _. rewrite Hx0, Hx, <- H0.
    destruct (Is16Bit uuid).
    - peel Hsw. injection Hsw as <- _. done.
    - destruct (Is32Bit uuid); peel Hsw; injection Hsw as <- _; done. }
  case_bool_decide.
  - revert H. apply (for_range_invariant (fun s => len s.1 = 31)); [|done].
    intros s x s' Hs Hb. apply put_manufacturerData_len in Hb. congruence.
  - by injection H as <-.
Qed.

Lemma build_scanResponseData_len (name : list Z)
    (sd : list (ServiceDataElement UUID)) (st : list Z * Z) :
  build_scanResponseData name sd = Ok st -> len st.1 = 31.
Proof.
  unfold build_scanResponseData. intros H.
  apply bind_Ok_inv in H; destruct H as ([d0 n0] & Hname & H).
  assert (len d0 = 31) as H0.
  { unfold put_localName in Hname.
    destruct (bool_decide (len name > 29)); [|destruct (bool_decide (len name > 0))].
    - apply bind_Ok_inv in Hname; destruct Hname as (x & Hx & Hname). apply index_set_len in Hx.
      apply bind_Ok_inv in Hname; destruct Hname as (x0 & Hx0 & Hname). apply index_set_len in Hx0.
      apply bind_Ok_inv in Hname; destruct Hname as (x1 & _ & Hname).
      apply bind_Ok_inv in Hname; destruct Hname as (x2 & Hx2 & Hname). apply copy_at_len in Hx2.
      injection Hname as <- _. rewrite Hx2, Hx0, Hx. reflexivity.
    - peel Hname. injection Hname as <- _. rewrite Hx1, Hx0, Hx. reflexivity.
    - by injection Hname as <- _. }
  case_bool_decide.
  - revert H. apply (for_range_invariant (fun s => len s.1 = 31)); [|done].
    intros s x s' Hs Hb. apply put_serviceData_len in Hb. congruence.
  - by injection H as <-.
Qed.

(** Whatever the element payloads, a packet that is handed to the
    transport has at most 31 bytes. *)
Lemma advertisingData_packet_le_31 (a : Advertisement UUID) (p : list Z) :
  advertisingData_packet a = Ok p -> len p <= 31.
Proof.
  unfold advertisingData_packet. intros H.
  apply bind_Ok_inv in H; destruct H as ([data n] & Hb & H).
  apply build_advertisingData_len in Hb. apply slice_to_len in H. cbn in Hb. lia.
Qed.

Lemma scanResponseData_packet_le_31 (name : list Z)
    (sd : list (ServiceDataElement UUID)) (p : list Z) :
  scanResponseData_packet name sd = Ok p -> len p <= 31.
Proof.
  unfold scanResponseData_packet. intros H.
  apply bind_Ok_inv in H; destruct H as ([data n] & Hb & H).
  apply build_scanResponseData_len in Hb. apply slice_to_len in H. cbn in Hb. lia.
Qed.

End PacketLengths.

(** *** Where the length check is exact *)

Section Checked.
Context {UUID : Type} `{!Externals UUID}.

Lemma PutUint16_at_ok (arr : list Z) (off v : Z) :
  0 <= off -> off + 2 <= len arr ->
  PutUint16_at arr off v
  = Ok (<[Z.to_nat (off + 1) := (v `div` 256) `mod` 256]>
          (<[Z.to_nat off := v `mod` 256]> arr)).
Proof.
  intros. unfold PutUint16_at. by rewrite !bool_decide_eq_true_2 by lia.
Qed.

(** Below the wrap-around (payloads of at most 220 bytes) the check of
    the manufacturer-data loop is exact: the element is refused when it
    does not fit, and appended with the counter advanced by its size
    when it does. *)
Lemma put_manufacturerData_checked (data : list Z) (n : Z)
    (md : ManufacturerDataElement) :
  len data = 31 -> 0 <= n <= 31 -> len (md_Data md) <= 220 ->
  if bool_decide (n + 4 + len (md_Data md) > 31)
  then put_manufacturerData (data, n) md
       = Err (errorsNew "ManufacturerData too long")
  else exists data',
         put_manufacturerData (data, n) md
         = Ok (data', n + 4 + len (md_Data md)).
Proof.
  intros Hdata Hn Hmd. unfold put_manufacturerData.
  assert (0 <= len (md_Data md)) by (unfold len; lia).
  rewrite !uint8_small by (rewrite ?uint8_small by lia; lia).
  case_bool_decide as Hfit.
  - reflexivity.
  - rewrite index_set_ok by lia. rewrite bind_Ok.
    rewrite index_set_ok by (rewrite len_insert; lia). rewrite bind_Ok.
    rewrite PutUint16_at_ok by (rewrite ?len_insert; lia). rewrite bind_Ok.
    rewrite copy_at_ok by (rewrite ?len_insert; lia). rewrite bind_Ok.
    eexists. cbn [mret result_ret]. do 2 f_equal. lia.
Qed.
End Checked.

(** *** The 8-bit length check *)

Section Wrap.
Context {UUID : Type} `{!Externals UUID}.

Lemma uint8_wraps_252 (n : Z) :
  0 <= n < 256 -> uint8 (uint8 (n + 4) + uint8 252) = n.
Proof.
  intros Hn. unfold uint8.
  rewrite <- Z.add_mod by lia.
  replace (n + 4 + 252) with (n + 1 * 256) by lia.
  rewrite Z_mod_plus_full. apply Z.mod_small. lia.
Qed.

Lemma uint8_advance_252 (n : Z) :
  0 <= n < 256 -> uint8 (n + uint8 (4 + uint8 252)) = n.
Proof.
  intros Hn. change (uint8 (4 + uint8 252)) with 0.
  rewrite Z.add_0_r. by apply uint8_small.
Qed.

(** A 252-byte element passes the check at any place of the packet where
    its header fits, and is then dropped: the counter stays where it
    was, and so do the bytes before it. *)
Lemma put_manufacturerData_252 (data : list Z) (n : Z)
    (md : ManufacturerDataElement) :
  len data = 31 -> 0 <= n <= 27 -> len (md_Data md) = 252 ->
  exists data',
    put_manufacturerData (data, n) md = Ok (data', n)
    /\ take (Z.to_nat n) data' = take (Z.to_nat n) data.
Proof.
  intros Hdata Hn Hmd. unfold put_manufacturerData. rewrite Hmd.
  rewrite uint8_wraps_252, uint8_advance_252 by lia.
  rewrite bool_decide_eq_false_2 by lia.
  rewrite !uint8_small by lia.
  rewrite index_set_ok by lia. rewrite bind_Ok.
  rewrite index_set_ok by (rewrite len_insert; lia). rewrite bind_Ok.
  rewrite PutUint16_at_ok by (rewrite ?len_insert; lia). rewrite bind_Ok.
  rewrite copy_at_ok by (rewrite ?len_insert; lia). rewrite bind_Ok.
  eexists. split; [reflexivity|].
  rewrite take_app_le by (rewrite length_take, !length_insert; unfold len in *; lia).
  rewrite take_take, Nat.min_l by lia.
  by rewrite !take_insert_ge by lia.
Qed.

(** C2 (the code departs from the claim): the length check adds in
    [uint8].  For every advertisement without service UUID whose only
    manufacturer-data element has a payload of 252 bytes, appending the
    element would need 3+4+252 bytes, yet the check passes (259 wraps to
    3): no length-exceeded error is returned, and the packet handed to
    the transport is the bare flags structure 02 01 06, whatever the
    company identifier and the payload bytes are. *)
Theorem length_check_wraps_in_uint8
    (a : Advertisement UUID) (md : ManufacturerDataElement) :
  serviceUUIDs a = [] ->
  manufacturerData a = [md] ->
  len (md_Data md) = 252 ->
  3 + 4 + len (md_Data md) > 31
  /\ advertisingData_packet a = Ok [2; 1; 6].
Proof.
  intros Huuids Hmds Hmd. split; [lia|].
  unfold advertisingData_packet, build_advertisingData.
  rewrite Huuids, Hmds.
  change (put_flags zero_array31) with (Ok (2 :: 1 :: 6 :: replicate 28 0, 3)).
  rewrite bind_Ok. cbn [put_serviceUUID]. rewrite bind_Ok.
  rewrite bool_decide_eq_true_2 by (unfold len; simpl; lia).
  cbn [for_range].
  destruct (put_manufacturerData_252 (2 :: 1 :: 6 :: replicate 28 0) 3 md)
    as (data' & Hput & Htake); [done|lia|done|].
  assert (len data' = 31) as Hlen'
    by exact (put_manufacturerData_len _ _ _ Hput).
  rewrite Hput, !bind_Ok.
  rewrite slice_to_ok by lia. f_equal. exact Htake.
Qed.

End Wrap.

Lemma length_check_wraps_in_uint8_witness :
  let md := {| CompanyID := 0x1234; md_Data := replicate 252 0 |} in
  let a : Advertisement Z :=
    {| advertisementType := 0; localName := bytes_of_string "Go Bluetooth";
       serviceUUIDs := []; interval := 0x0800; manufacturerData := [md];
       serviceData := []; genericServiceInit := true |} in
  3 + 4 + len (md_Data md) > 31
  /\ advertisingData_packet a = Ok [2; 1; 6].
Proof.
  intros md a.
  apply (length_check_wraps_in_uint8 a md); reflexivity.
Defined.

(** The same on a whole run: [Configure] and [Start] with a 252-byte
    manufacturer-data element succeed and push the flags packet alone; a
    252-byte service-data element after the name [Go Bluetooth] is
    dropped from the scan response in the same way; and after a 29-byte
    name the passed check leads to a run-time panic instead of the
    length-exceeded error. *)
Lemma Start_drops_252_byte_element :
  let md := {| CompanyID := 0x1234; md_Data := replicate 252 0 |} in
  let sde := {| sd_UUID := Sample.uuid16; sd_Data := replicate 252 0 |} in
  let options :=
    {| opt_AdvertisementType := 0; opt_LocalName := "Go Bluetooth";
       opt_ServiceUUIDs := []; opt_Interval := 0;
       opt_ManufacturerData := [md]; opt_ServiceData := [] |} in
  let w := snd (Configure options Sample.fresh) in
  fst (Start Sample.quiet w) = Ok tt
  /\ hci_log (snd (Start Sample.quiet w))
     = [ leSetAdvertisingParameters 0x0800 0x0800 0 0 0 [0; 0; 0; 0; 0; 0] 7 0;
         leSetAdvertisingData [2; 1; 6];
         leSetScanResponseData (13 :: 0x08 :: bytes_of_string "Go Bluetooth");
         leSetAdvertiseEnable true ]
  /\ scanResponseData_packet (bytes_of_string "Go Bluetooth") [sde]
     = Ok (13 :: 0x08 :: bytes_of_string "Go Bluetooth")
  /\ scanResponseData_packet (replicate 29 65) [sde] = Panic oob_slice.
Proof. vm_compute. repeat split. Qed.

(** ** The decode walk *)

Section Overrun.
Context {UUID : Type} `{!Externals UUID}.

(** The log only grows: a read, once made, stays recorded. *)
Lemma read_slice_log (eir : list Z) (lo hi : Z) (log : list Z) :
  exists extra, (read_slice eir lo hi log).2 = log ++ extra.
Proof.
  unfold read_slice. destruct (slice eir lo hi); cbn; eauto using app_nil_r.
  all: exists []; by rewrite app_nil_r.
Qed.

Lemma decode_structure_log (eir : list Z) (i l t : Z)
    (adf : AdvertisementFields UUID) (log : list Z) :
  exists extra, (decode_structure eir i l t adf log).2 = log ++ extra.
Proof.
  assert (Hread : forall lo hi (k : list Z -> AdvertisementFields UUID),
    exists extra, ((b ← read_slice eir lo hi; mret (k b)) log).2 = log ++ extra).
  { intros lo hi k. rewrite SR_bind_eq.
    destruct (read_slice_log eir lo hi log) as (extra & Hlog).
    destruct (read_slice eir lo hi log) as [[bs|e|why|] log']; cbn in *; eauto. }
  unfold decode_structure. repeat case_bool_decide; try apply Hread.
  exists []. by rewrite app_nil_r.
Qed.

Lemma decode_loop_log (fuel : nat) (eir : list Z) (n i : Z)
    (adf : AdvertisementFields UUID) (log : list Z) :
  exists extra, (decode_loop fuel eir n i adf log).2 = log ++ extra.
Proof.
  revert i adf log. induction fuel as [|fuel IH]; intros i adf log;
    cbn [decode_loop]; case_bool_decide;
    try (exists []; by rewrite app_nil_r).
  rewrite SR_bind_eq. unfold read_at at 1.
  destruct (index_get eir i) as [l|e|why|]; cbn [snd]; eauto.
  rewrite SR_bind_eq. unfold read_at at 1.
  destruct (index_get eir (i + 1)) as [t|e|why|]; cbn [snd];
    try (eexists; by rewrite <- app_assoc).
  case_bool_decide; [eexists; cbn; by rewrite <- app_assoc|].
  rewrite SR_bind_eq.
  destruct (decode_structure_log eir i l t adf ((log ++ [i]) ++ [i + 1]))
    as (extra & Hlog).
  destruct (decode_structure eir i l t adf _) as [[adf'|e|why|] log'];
    cbn [snd] in *; subst log'; try (eexists; by rewrite <- !app_assoc).
  destruct (IH (i + l + 1) adf' (((log ++ [i]) ++ [i + 1]) ++ extra))
    as (extra' & ->).
  eexists. by rewrite <- !app_assoc.
Qed.

(** C3 (the code departs from the claim): the walk reads the type byte
    at offset [i+1] without comparing it with the declared length.  For
    every report that declares a single byte of data (in a buffer that
    holds at least that byte), the walk reads offset 0 and then offset
    1, so not every offset read lies below the declared length. *)
Theorem decode_reads_past_declared_length (r : leAdvertisingReport) (l : Z) :
  eirLength r = 1 ->
  eirData r !! 0%nat = Some l ->
  (exists rest, (decode (UUID := UUID) r).2 = 0 :: 1 :: rest)
  /\ ~ Forall (fun off => off < eirLength r) (decode (UUID := UUID) r).2.
Proof.
  intros Hn Hl.
  assert (Hlog : exists rest, (decode (UUID := UUID) r).2 = 0 :: 1 :: rest).
  { unfold decode. rewrite Hn.
    change (Z.to_nat 1) with 1%nat. cbn [decode_loop].
    rewrite bool_decide_eq_true_2 by lia.
    rewrite SR_bind_eq. unfold read_at at 1. unfold index_get at 1.
    rewrite bool_decide_eq_true_2 by lia.
    change (Z.to_nat 0) with 0%nat. rewrite Hl.
    rewrite SR_bind_eq. unfold read_at at 1.
    destruct (index_get (eirData r) (0 + 1)) as [t|e|why|]; cbn [snd]; eauto.
    case_bool_decide; [cbn; eauto|].
    rewrite SR_bind_eq.
    destruct (decode_structure_log (eirData r) 0 l t
                {| LocalName := []; ServiceUUIDs := [] |} (([] ++ [0]) ++ [0 + 1]))
      as (extra1 & Hlog1).
    destruct (decode_structure (eirData r) 0 l t _ _) as [[adf'|e|why|] log'];
      cbn [snd] in *; subst log'; cbn; eauto.
    rewrite bool_decide_eq_false_2 by lia. cbn. eauto. }
  split; [done|].
  destruct Hlog as (rest & ->). rewrite Hn. intros Hall.
  apply Forall_cons_1 in Hall as [_ Hall].
  apply Forall_cons_1 in Hall as [Hone _]. lia.
Qed.

End Overrun.

Lemma decode_reads_past_declared_length_witness :
  let r := {| reported := true; adv_peerBdaddrType := 0;
              adv_peerBdaddr := replicate 6 0; eirLength := 1;
              eirData := 1 :: replicate 30 0; rssi := 0 |} in
  (exists rest, (decode (UUID := Z) r).2 = 0 :: 1 :: rest)
  /\ ~ Forall (fun off => off < eirLength r) (decode (UUID := Z) r).2.
Proof.
  intros r.
  exact (decode_reads_past_declared_length (UUID := Z) r 1 eq_refl eq_refl).
Defined.

(** Three walks in full.  A report of declared length 1 whose only byte
    is 01 has offset 1 read; a report of declared length 4 that opens a
    local name of announced length 10 has offsets 2 to 10 read and bytes
    from beyond the declared data in the name; and a report of declared
    length 31 whose last byte starts a structure makes the walk index
    the 31-byte buffer at offset 31, which panics. *)
Lemma decode_overrun_examples :
  let report n data :=
    {| reported := true; adv_peerBdaddrType := 0; adv_peerBdaddr := replicate 6 0;
       eirLength := n; eirData := data ++ replicate (31 - length data) 0;
       rssi := 0 |} in
  decode (UUID := Z) (report 1 [1])
  = (Ok {| LocalName := []; ServiceUUIDs := [] |}, [0; 1])
  /\ decode (UUID := Z) (report 4 [10; 0x09; 65; 66])
     = (Ok {| LocalName := [65; 66; 0; 0; 0; 0; 0; 0; 0]; ServiceUUIDs := [] |},
        [0; 1; 2; 3; 4; 5; 6; 7; 8; 9; 10])
  /\ decode (UUID := Z) (report 31 ([29; 0xFF] ++ replicate 28 0 ++ [5]))
     = (Panic oob_index, [0; 1; 30; 31]).
Proof. vm_compute. repeat split. Qed.

(** The walk always ends: the step budget [decode] gives it is never
    used up. *)

Section DecodeTotal.
Context {UUID : Type} `{!Externals UUID}.

Lemma read_slice_outcome (eir : list Z) (lo hi : Z) (log : list Z) :
  (exists bs log', read_slice eir lo hi log = (Ok bs, log'))
  \/ (exists why log', read_slice eir lo hi log = (Panic why, log')).
Proof.
  unfold read_slice, slice. case_bool_decide; eauto.
Qed.

Lemma decode_structure_outcome (eir : list Z) (i l t : Z)
    (adf : AdvertisementFields UUID) (log : list Z) :
  (exists adf' log', decode_structure eir i l t adf log = (Ok adf', log'))
  \/ (exists why log', decode_structure eir i l t adf log = (Panic why, log')).
Proof.
  assert (Hread : forall lo hi (k : list Z -> AdvertisementFields UUID),
    (exists adf' log',
        (b ← read_slice eir lo hi; mret (k b)) log = (Ok adf', log'))
    \/ (exists why log',
        (b ← read_slice eir lo hi; mret (k b)) log = (Panic why, log'))).
  { intros lo hi k. unfold mbind, SR_bind.
    destruct (read_slice_outcome eir lo hi log)
      as [(bs & log' & ->)|(why & log' & ->)]; eauto. }
  unfold decode_structure.
  repeat case_bool_decide; try apply Hread.
  left. by eexists _, _.
Qed.

Lemma index_get_outcome (eir : list Z) (i : Z) :
  (exists v, index_get eir i = Ok v) \/ (exists why, index_get eir i = Panic why).
Proof.
  unfold index_get. case_bool_decide; [|eauto].
  destruct (eir !! Z.to_nat i); eauto.
Qed.

Lemma decode_loop_total (fuel : nat) (eir : list Z) (n i : Z)
    (adf : AdvertisementFields UUID) (log : list Z) :
  n - i <= Z.of_nat fuel ->
  (decode_loop fuel eir n i adf log).1 <> OutOfFuel.
Proof.
  revert i adf log. induction fuel as [|fuel IH]; intros i adf log Hfuel;
    cbn [decode_loop]; case_bool_decide; try done; try lia.
  rewrite SR_bind_eq. unfold read_at at 1.
  destruct (index_get_outcome eir i) as [(l & ->)|(why & ->)]; [|done].
  rewrite SR_bind_eq. unfold read_at at 1.
  destruct (index_get_outcome eir (i + 1)) as [(t & ->)|(why & ->)]; [|done].
  case_bool_decide; [done|].
  rewrite SR_bind_eq.
  destruct (decode_structure_outcome eir i l t adf ((log ++ [i]) ++ [i + 1]))
    as [(adf' & log' & ->)|(why & log' & ->)]; [|done].
  apply IH. lia.
Qed.

Lemma decode_total (r : leAdvertisingReport) : (decode (UUID := UUID) r).1 <> OutOfFuel.
Proof. apply decode_loop_total. lia. Qed.

End DecodeTotal.

(** ** Scanning *)

Section ScanFacts.
Context {UUID : Type} `{!Externals UUID} (T : Transport).

(** C8: [Scan] called while the scanning flag is set returns the
    scan-already-active error, and [StopScan] called while it is clear
    returns the scan-not-active error; in both cases the world is left
    exactly as it was: no command reaches the transport and no field of
    the adapter changes. *)
Theorem scan_state_errors_have_no_effect
    (fuel : nat) (callback : ScanResult UUID -> World UUID -> World UUID)
    (w1 w2 : World UUID) :
  scanning w1 = true ->
  scanning w2 = false ->
  Scan T fuel callback w1 = (Err errScanning, w1)
  /\ StopScan T w2 = (Err errNotScanning, w2).
Proof.
  intros H1 H2. split.
  - unfold Scan. rewrite SR_bind_eq. unfold get. by rewrite H1.
  - unfold StopScan. rewrite SR_bind_eq. unfold get. by rewrite H2.
Qed.

End ScanFacts.

Lemma scan_state_errors_have_no_effect_witness :
  Scan Sample.quiet 10 (fun _ w => w) (set_scanning true Sample.fresh)
  = (Err errScanning, set_scanning true Sample.fresh)
  /\ StopScan Sample.quiet Sample.fresh = (Err errNotScanning, Sample.fresh).
Proof.
  apply (scan_state_errors_have_no_effect Sample.quiet 10 (fun _ w => w)
           (set_scanning true Sample.fresh) Sample.fresh);
    reflexivity.
Defined.

(** ** Connecting *)

Section ConnectFacts.
Context {UUID : Type} `{!Externals UUID} (T : Transport).

Lemma hci_poll_spec (w : World UUID) :
  exists r w1,
    hci_poll T w = (r, w1)
    /\ hci_log w1 = hci_log w
    /\ hci_polls w1 = S (hci_polls w)
    /\ clock w1 = clock w + poll_nanos T (hci_polls w)
    /\ (connectData w1 = connectData w
        \/ poll_event T (hci_polls w) = PollConnectComplete (connectData w1))
    /\ (r = Ok tt
        \/ exists e, r = Err e /\ poll_event T (hci_polls w) = PollError e).
Proof.
  unfold hci_poll. destruct (poll_event T (hci_polls w)) eqn:Hev;
    eexists _, _; (split; [reflexivity|]); cbn; eauto 10.
Qed.

Lemma hci_spec (c : Cmd) (w : World UUID) :
  hci T c w =
    (match command_error T (hci_log w) c with Some e => Err e | None => Ok tt end,
     set_hci_log (hci_log w ++ [c]) w).
Proof. unfold hci. by destruct (command_error T (hci_log w) c). Qed.

(** What the polling loop returns when it leaves through [return d, nil]. *)
Lemma Connect_loop_device (address : Address) (start : Z) (fuel : nat)
    (w w' : World UUID) (d : Device) :
  Connect_loop T fuel address start w = (Ok (Some d), w') ->
  isRandom (Address_MACAddress (Device_Address d))
  = isRandom (Address_MACAddress address)
  /\ exists cd,
       (cd = connectData w \/ exists k, poll_event T k = PollConnectComplete cd)
       /\ connected cd = true
       /\ MAC (Address_MACAddress (Device_Address d))
          = makeAddress (conn_peerBdaddr cd).
Proof.
  revert w. induction fuel as [|fuel IH]; intros w; cbn [Connect_loop]; [done|].
  rewrite SR_bind_eq.
  destruct (hci_poll_spec w) as (r & w1 & -> & _ & _ & _ & Hcd & Hr).
  assert (Hfrom : forall cd,
    (cd = connectData w1 \/ exists k, poll_event T k = PollConnectComplete cd) ->
    (cd = connectData w \/ exists k, poll_event T k = PollConnectComplete cd)).
  { intros cd [->|?]; [|by right]. destruct Hcd as [->|?]; eauto. }
  destruct Hr as [->|(e & -> & He)]; [|done].
  rewrite SR_bind_eq. unfold get.
  destruct (connected (connectData w1)) eqn:Hconn.
  - intros [= <- <-]. split.
    + cbn. by destruct (isRandom (Address_MACAddress address)).
    + exists (connectData w1). eauto.
  - rewrite SR_bind_eq. unfold time_Now. case_bool_decide; [done|].
    rewrite SR_bind_eq. unfold time_Sleep, modify.
    intros Hloop. apply IH in Hloop as (Hrandom & cd & Hcd' & ? & ?).
    split; [done|]. exists cd. split; [|done]. apply Hfrom. exact Hcd'.
Qed.

(** C9: the device returned by a successful [Connect] carries the MAC
    bytes of a connect-complete event (the one pending on the transport
    when the loop saw it), converted by [makeAddress], while its
    is-random flag is the caller's [address.isRandom]; the peer address
    type of the event plays no part. *)
Theorem Connect_device_address {Params : Type} (fuel : nat) (address : Address)
    (params : Params) (w w' : World UUID) (d : Device) :
  Connect T fuel address params w = (Ok d, w') ->
  isRandom (Address_MACAddress (Device_Address d))
  = isRandom (Address_MACAddress address)
  /\ exists cd,
       (cd = connectData w \/ exists k, poll_event T k = PollConnectComplete cd)
       /\ connected cd = true
       /\ MAC (Address_MACAddress (Device_Address d))
          = makeAddress (conn_peerBdaddr cd).
Proof.
  unfold Connect. rewrite SR_bind_eq, hci_spec.
  destruct (command_error T _ _); [done|].
  rewrite SR_bind_eq. unfold time_Now. rewrite SR_bind_eq.
  destruct (Connect_loop T fuel address _ _) as [[[d'|]|e|why|] w1] eqn:Hloop;
    try done.
  - intros [= <- <-]. by apply Connect_loop_device in Hloop.
  - rewrite SR_bind_eq, hci_spec. by destruct (command_error T _ _).
Qed.

Lemma quot_Second_gt_5 (x : Z) : 0 <= x -> (Z.quot x Second > 5 <-> 6 * Second <= x).
Proof.
  intros Hx. rewrite Z.quot_div_nonneg by (unfold Second; lia).
  unfold Second. split; intros Hq.
  - pose proof (Z.mul_div_le x 1000000000). lia.
  - assert (6 <= x `div` 1000000000); [|lia].
    apply Z.div_le_lower_bound; lia.
Qed.

(** The polling loop on a transport that never completes the
    connection: it leaves through the [break], without a command, once
    six seconds have passed on the clock. *)
Lemma Connect_loop_times_out (delta : Z) (address : Address) (start : Z)
    (fuel : nat) (w : World UUID) :
  never_connects T -> polls_succeed T -> polls_take_at_most delta T ->
  connected (connectData w) = false ->
  0 <= clock w - start < 6 * Second + 5 * Millisecond ->
  6 * Second - (clock w - start) <= (Z.of_nat fuel - 1) * (5 * Millisecond) ->
  exists w',
    Connect_loop T fuel address start w = (Ok None, w')
    /\ hci_log w' = hci_log w
    /\ 6 * Second <= clock w' - start < 6 * Second + 5 * Millisecond + delta.
Proof.
  intros Hnever Hpolls Htime. revert w.
  induction fuel as [|fuel IH]; intros w Hconn Hclock Hfuel.
  { unfold Second, Millisecond in *. lia. }
  cbn [Connect_loop]. rewrite SR_bind_eq.
  destruct (hci_poll_spec w) as (r & w1 & -> & Hlog & _ & Hclock1 & Hcd & Hr).
  destruct Hr as [->|(e & _ & He)]; [|by apply Hpolls in He].
  assert (connected (connectData w1) = false) as Hconn1.
  { destruct Hcd as [->|Hev]; [done|]. by apply Hnever in Hev. }
  rewrite SR_bind_eq. unfold get. rewrite Hconn1.
  rewrite SR_bind_eq. unfold time_Now.
  pose proof (Htime (hci_polls w)) as Hp.
  case_bool_decide as Hq.
  - exists w1. split; [reflexivity|]. split; [done|].
    apply quot_Second_gt_5 in Hq; lia.
  - rewrite quot_Second_gt_5 in Hq by lia.
    rewrite SR_bind_eq. unfold time_Sleep, modify.
    destruct (IH (set_clock (clock w1 + 5 * Millisecond) w1))
      as (w' & -> & Hlog' & Hclock'); cbn; try done.
    + unfold Second, Millisecond in *. lia.
    + unfold Second, Millisecond in *. lia.
    + exists w'. split; [done|]. split; [|done]. by rewrite Hlog'.
Qed.

(** C5 (as amended): on a transport that never completes the
    connection, never fails a poll and accepts its commands, [Connect]
    returns the connection-failed error; during the call exactly two
    commands reach the transport, the create-connection command and
    then one cancel-connection command; and it returns once more than
    five whole seconds show on the clock: at least 6 s after the call,
    and less than 6 s plus one 5 ms sleep plus one poll. *)
Theorem Connect_times_out {Params : Type} (delta : Z) (fuel : nat)
    (address : Address) (params : Params) (w : World UUID) :
  connected (connectData w) = false ->
  never_connects T -> polls_succeed T -> polls_take_at_most delta T ->
  commands_succeed T ->
  (1200 < fuel)%nat ->
  exists w',
    Connect T fuel address params w = (Err ErrConnect, w')
    /\ hci_log w' = hci_log w ++ [Connect_command address; leCancelConn]
    /\ 6 * Second <= clock w' - clock w < 6 * Second + 5 * Millisecond + delta.
Proof.
  intros Hconn Hnever Hpolls Htime Hcmds Hfuel.
  unfold Connect. rewrite SR_bind_eq, hci_spec, Hcmds.
  rewrite SR_bind_eq. unfold time_Now. rewrite SR_bind_eq.
  edestruct (Connect_loop_times_out delta address
               (clock (set_hci_log (hci_log w ++ [Connect_command address]) w))
               fuel (set_hci_log (hci_log w ++ [Connect_command address]) w))
    as (w1 & Hloop & Hlog & Hclock); try done.
  - cbn. unfold Second, Millisecond. lia.
  - cbn. unfold Second, Millisecond. lia.
  - unfold Connect_command in Hloop. rewrite Hloop.
    rewrite SR_bind_eq, hci_spec, Hcmds.
    eexists. split; [reflexivity|]. cbn. split; [|done].
    rewrite Hlog. cbn. by rewrite <- app_assoc.
Qed.

End ConnectFacts.

Lemma Connect_device_address_witness :
  let c := {| connected := true; conn_handle := 0x0040;
              conn_peerBdaddrType := 0; conn_peerBdaddr := [1; 2; 3; 4; 5; 6] |} in
  let address := {| Address_MACAddress :=
                      {| MAC := [6; 5; 4; 3; 2; 1]; isRandom := true |} |} in
  let d := {| Device_Address :=
                {| Address_MACAddress :=
                     {| MAC := [1; 2; 3; 4; 5; 6]; isRandom := true |} |};
              Device_deviceInternal := 0%nat |} in
  let run := Connect (Sample.connecting c) 1 address tt Sample.fresh in
  run = (Ok d, run.2)
  /\ isRandom (Address_MACAddress (Device_Address d)) = true
  /\ exists cd,
       (cd = connectData Sample.fresh
        \/ exists k, poll_event (Sample.connecting c) k = PollConnectComplete cd)
       /\ connected cd = true
       /\ MAC (Address_MACAddress (Device_Address d))
          = makeAddress (conn_peerBdaddr cd).
Proof.
  intros c address d run. split; [reflexivity|].
  exact (Connect_device_address (Sample.connecting c) 1 address tt
           Sample.fresh run.2 d eq_refl).
Defined.

Lemma Connect_times_out_witness :
  let address := {| Address_MACAddress :=
                      {| MAC := [6; 5; 4; 3; 2; 1]; isRandom := false |} |} in
  exists w',
    Connect Sample.quiet 1201 address tt Sample.fresh = (Err ErrConnect, w')
    /\ hci_log w'
       = hci_log Sample.fresh ++ [Connect_command address; leCancelConn]
    /\ 6 * Second <= clock w' - clock Sample.fresh
       < 6 * Second + 5 * Millisecond + 0.
Proof.
  intros address.
  apply (Connect_times_out Sample.quiet 0 1201 address tt Sample.fresh).
  - reflexivity.
  - intros k c Hev. discriminate Hev.
  - intros k e Hev. discriminate Hev.
  - intros k. simpl. lia.
  - intros log c. reflexivity.
  - lia.
Defined.

(** C5 as stated fails when the transport refuses a command: with the
    cancel-connection command refused, [Connect] polls until the
    deadline and then returns the transport's error, not the
    connection-failed error; with the create-connection command
    refused it returns that error at once and no cancel-connection
    command is issued.  In both runs no poll fails and no connection
    completes. *)
Lemma Connect_refused_command_counterexample :
  let address := {| Address_MACAddress :=
                      {| MAC := [6; 5; 4; 3; 2; 1]; isRandom := false |} |} in
  let T1 := Sample.refusing Sample.is_leCancelConn (errTransport 12) in
  let T2 := Sample.refusing Sample.is_leCreateConn (errTransport 12) in
  (never_connects T1 /\ polls_succeed T1
   /\ (Connect T1 1201 address tt Sample.fresh).1 = Err (errTransport 12)
   /\ (Connect T1 1201 address tt Sample.fresh).1 <> Err ErrConnect)
  /\ (never_connects T2 /\ polls_succeed T2
      /\ Connect T2 1201 address tt Sample.fresh
         = (Err (errTransport 12),
            set_hci_log [Connect_command address] Sample.fresh)).
Proof.
  intros address T1 T2.
  assert (Hrun : (Connect T1 1201 address tt Sample.fresh).1
                 = Err (errTransport 12)) by (vm_compute; reflexivity).
  split; [split; [|split; [|split]]|split; [|split]].
  - intros k c Hev. discriminate Hev.
  - intros k e Hev. discriminate Hev.
  - exact Hrun.
  - rewrite Hrun. discriminate.
  - intros k c Hev. discriminate Hev.
  - intros k e Hev. discriminate Hev.
  - reflexivity.
Qed.

(** ** Notification registrations *)

Lemma find_in_found (regs : list notificationRegistration) (handle : Z)
    (s s' : Store) (p : regptr) :
  find_in regs handle s = (Some p, s') ->
  exists before n after,
    regs = before ++ n :: after
    /\ Forall (fun m => nr_handle m <> handle) before
    /\ nr_handle n = handle
    /\ p = InVariable (length (st_variables s))
    /\ s' = {| st_devices := st_devices s;
               st_variables := st_variables s ++ [n] |}.
Proof.
  induction regs as [|m regs IH]; cbn [find_in]; [done|].
  case_bool_decide as Hm.
  - intros [= <- <-]. exists [], m, regs. by repeat split.
  - intros Hfind. apply IH in Hfind as (before & n & after & -> & ? & ? & ? & ?).
    exists (m :: before), n, after. repeat split; try done. by constructor.
Qed.

(** C6 (the code departs from the claim): when the lookup finds a
    registration, the pointer it returns holds the value of the first
    stored entry with that handle, but it points at the loop variable
    and not into the registry: storing through it changes what the
    pointer holds and leaves the registrations of the device exactly as
    they were. *)
Theorem found_registration_is_a_copy (d : Device) (handle : Z)
    (s s' : Store) (p : regptr) (v : notificationRegistration) :
  findNotificationRegistration d handle s = (Some p, s') ->
  (exists before n after,
      registrations_of d s = before ++ n :: after
      /\ Forall (fun m => nr_handle m <> handle) before
      /\ nr_handle n = handle
      /\ load s' p = Some n)
  /\ load (store s' p v) p = Some v
  /\ registrations_of d (store s' p v) = registrations_of d s.
Proof.
  unfold findNotificationRegistration, registrations_of.
  destruct (st_devices s !! Device_deviceInternal d) as [di|] eqn:Hdi; [|done].
  intros Hfind.
  apply find_in_found in Hfind as (before & n & after & Hregs & Hb & Hn & -> & ->).
  cbn [load store st_devices st_variables]. repeat split.
  - exists before, n, after. repeat split; try done.
    by rewrite lookup_app_r, Nat.sub_diag.
  - apply list_lookup_insert_eq. rewrite length_app. simpl. lia.
  - by rewrite Hdi.
Qed.

Lemma found_registration_is_a_copy_witness :
  let d := {| Device_Address :=
                {| Address_MACAddress :=
                     {| MAC := [1; 2; 3; 4; 5; 6]; isRandom := false |} |};
              Device_deviceInternal := 0%nat |} in
  let s0 := {| st_devices :=
                 [ {| di_handle := 0x0040; mtu := defaultMTU;
                      notificationRegistrations := [] |} ];
               st_variables := [] |} in
  let s := addNotificationRegistration d 0x002A 1 s0 in
  let v := {| nr_handle := 0x002A; nr_callback := 2 |} in
  let p := InVariable 0 in
  let s' := (findNotificationRegistration d 0x002A s).2 in
  findNotificationRegistration d 0x002A s = (Some p, s')
  /\ load (store s' p v) p = Some v
  /\ registrations_of d (store s' p v)
     = [ {| nr_handle := 0x002A; nr_callback := 1 |} ].
Proof.
  intros d s0 s v p s'. split; [reflexivity|].
  exact (proj2 (found_registration_is_a_copy d 0x002A s s' p v eq_refl)).
Defined.

(** A registration that was added is found again. *)
Lemma find_in_app_hit (regs : list notificationRegistration) (handle : Z)
    (callback : nat) (s : Store) :
  exists p s',
    find_in (regs ++ [ {| nr_handle := handle; nr_callback := callback |} ])
      handle s = (Some p, s').
Proof.
  induction regs as [|m regs IH]; cbn [find_in app].
  - rewrite bool_decide_eq_true_2 by done. eauto.
  - case_bool_decide; eauto.
Qed.

Lemma find_after_add (d : Device) (handle : Z) (callback : nat) (s : Store) :
  is_Some (st_devices s !! Device_deviceInternal d) ->
  exists p s',
    findNotificationRegistration d handle
      (addNotificationRegistration d handle callback s) = (Some p, s').
Proof.
  intros [di Hdi]. unfold findNotificationRegistration, addNotificationRegistration.
  cbn [st_devices]. rewrite list_lookup_alter_eq, Hdi. cbn.
  apply find_in_app_hit.
Qed.

(** ** Configuring: the generic services *)

Section ConfigureFacts.
Context {UUID : Type} `{!Externals UUID}.

Lemma Configure_first (options : AdvertisementOptions UUID) (w : World UUID) :
  genericServiceInit (defaultAdvertisement w) = false ->
  (Configure options w).1 = Ok tt
  /\ services (Configure options w).2
     = services w ++ [ genericAccessService (configured_name options) 0x0540;
                       genericAttributeService ]
  /\ genericServiceInit (defaultAdvertisement (Configure options w).2) = true.
Proof.
  intros Hinit.
  unfold Configure, configureGenericServices, modify_adv, AddService, modify,
    get, mbind, SR_bind, mret, SR_ret.
  cbn. rewrite Hinit. cbn. by rewrite <- app_assoc.
Qed.

Lemma Configure_again (options : AdvertisementOptions UUID) (w : World UUID) :
  genericServiceInit (defaultAdvertisement w) = true ->
  (Configure options w).1 = Ok tt
  /\ services (Configure options w).2 = services w
  /\ genericServiceInit (defaultAdvertisement (Configure options w).2) = true.
Proof.
  intros Hinit.
  unfold Configure, configureGenericServices, modify_adv, AddService, modify,
    get, mbind, SR_bind, mret, SR_ret.
  cbn. by rewrite Hinit.
Qed.

Lemma Configure_each_again (calls : list (AdvertisementOptions UUID))
    (w : World UUID) :
  genericServiceInit (defaultAdvertisement w) = true ->
  (Configure_each calls w).1 = Ok tt
  /\ services (Configure_each calls w).2 = services w.
Proof.
  revert w. induction calls as [|options rest IH]; intros w Hinit; [done|].
  cbn [Configure_each]. rewrite SR_bind_eq.
  destruct (Configure_again options w Hinit) as (Hok & Hsvc & Hinit').
  destruct (Configure options w) as [r w1]. cbn in Hok, Hsvc, Hinit'. subst r.
  destruct (IH w1 Hinit') as (Hok' & Hsvc'). by rewrite Hsvc'.
Qed.

(** C7: however many times [Configure] is called on the advertisement,
    starting with its first call, every call succeeds and the service
    table receives exactly two registrations, Generic Access (with the
    name of the first call) and Generic Attribute; they are there when
    the first call returns, and the later calls add and change nothing,
    whatever name they configure. *)
Theorem Configure_registers_generic_services_once
    (first : AdvertisementOptions UUID) (later : list (AdvertisementOptions UUID))
    (w : World UUID) :
  genericServiceInit (defaultAdvertisement w) = false ->
  (Configure_each (first :: later) w).1 = Ok tt
  /\ services (Configure first w).2
     = services w ++ [ genericAccessService (configured_name first) 0x0540;
                       genericAttributeService ]
  /\ services (Configure_each (first :: later) w).2
     = services (Configure first w).2.
Proof.
  intros Hinit. cbn [Configure_each]. rewrite SR_bind_eq.
  destruct (Configure_first first w Hinit) as (Hok & Hsvc & Hinit').
  destruct (Configure first w) as [r w1]. cbn in Hok, Hsvc, Hinit'. subst r.
  destruct (Configure_each_again later w1 Hinit') as (Hok' & Hsvc').
  cbn [snd]. by rewrite Hsvc'.
Qed.

End ConfigureFacts.

Lemma Configure_registers_generic_services_once_witness :
  let named name : AdvertisementOptions Z :=
    {| opt_AdvertisementType := 0; opt_LocalName := name;
       opt_ServiceUUIDs := []; opt_Interval := 0;
       opt_ManufacturerData := []; opt_ServiceData := [] |} in
  let calls := [named "Go Bluetooth"; named "Another name"; named ""] in
  genericServiceInit (defaultAdvertisement Sample.fresh) = false
  /\ (Configure_each calls Sample.fresh).1 = Ok tt
  /\ services (Configure (named "Go Bluetooth") Sample.fresh).2
     = [ genericAccessService (bytes_of_string "Go Bluetooth") 0x0540;
         genericAttributeService ]
  /\ services (Configure_each calls Sample.fresh).2
     = services (Configure (named "Go Bluetooth") Sample.fresh).2.
Proof.
  intros named calls. split; [reflexivity|].
  exact (Configure_registers_generic_services_once
           (named "Go Bluetooth") [named "Another name"; named ""]
           Sample.fresh eq_refl).
Defined.

(** ** Stopping *)

Module ServicingFacts.
Import Servicing.

Lemma exited_insert (ts : list task) (i : nat) (t t' : task) :
  ts !! i = Some t ->
  (exited (<[i := t']> ts) + (if decide (t = Exited) then 1 else 0)
   = exited ts + (if decide (t' = Exited) then 1 else 0))%nat.
Proof.
  unfold exited. revert i. induction ts as [|x ts IH]; intros i Hi; [done|].
  destruct i as [|i]; cbn in Hi.
  - injection Hi as ->. change (<[0%nat := t']> (t :: ts)) with (t' :: ts).
    rewrite !filter_cons. repeat case_decide; cbn; lia.
  - specialize (IH i Hi).
    change (<[S i := t']> (x :: ts)) with (x :: <[i := t']> ts).
    rewrite !filter_cons. repeat case_decide; cbn; lia.
Qed.

Lemma exited_running (ts : list task) :
  (exited ts + length (running ts) = length ts)%nat.
Proof.
  unfold exited, running. induction ts as [|x ts IH]; [done|].
  rewrite !filter_cons. repeat case_decide; cbn; try lia; done.
Qed.

Lemma exited_none (ts : list task) :
  Forall (fun t => t <> Exited) ts -> exited ts = 0%nat.
Proof.
  unfold exited. induction 1 as [|x ts Hx _ IH]; [done|].
  rewrite filter_cons. by case_decide.
Qed.

Lemma invariant_calling (disable_error : option error) (ts : list task) :
  Forall (fun t => t <> Exited) ts ->
  invariant disable_error (length ts) (calling ts).
Proof.
  intros Hts. unfold invariant.
  change (tasks (calling ts)) with ts. by rewrite exited_none.
Qed.

Lemma invariant_step (disable_error : option error) (n : nat) (c : config)
    (a : actor) :
  invariant disable_error n c -> invariant disable_error n (step disable_error c a).
Proof.
  intros (Hlen & Hrecv & Hcaller). destruct a as [|i]; cbn [step].
  - unfold Stop_step, invariant.
    destruct (caller c) as [| | | | | |r] eqn:Hc; cbn -[exited]; try done.
    + destruct disable_error; cbn -[exited]; eauto.
    + by rewrite Hc.
    + by rewrite Hc.
  - unfold servicing_step, invariant.
    destruct (tasks c !! i) as [t|] eqn:Hi; [|done].
    destruct t; try done.
    + pose proof (exited_insert (tasks c) i Selecting Exited Hi) as He1.
      pose proof (exited_insert (tasks c) i Selecting Polling Hi) as He2.
      repeat case_decide; try done.
      destruct (caller c) as [| | | | | |[e|]] eqn:Hc; cbn -[exited];
        rewrite ?length_insert, ?Hc;
        repeat match goal with Hc : _ /\ _ |- _ => destruct Hc end;
        (split; [done|]); (split; [lia|]); try done; lia.
    + cbn -[exited]. rewrite length_insert.
      pose proof (exited_insert (tasks c) i Polling Sleeping Hi).
      repeat case_decide; try done. split; [done|]. split; [lia|done].
    + cbn -[exited]. rewrite length_insert.
      pose proof (exited_insert (tasks c) i Sleeping Selecting Hi).
      repeat case_decide; try done. split; [done|]. split; [lia|done].
Qed.

Lemma invariant_run (disable_error : option error) (n : nat)
    (sched : list actor) (c : config) :
  invariant disable_error n c -> invariant disable_error n (run disable_error sched c).
Proof.
  unfold run. revert c. induction sched as [|a sched IH]; intros c Hc; [done|].
  cbn [foldl]. apply IH. by apply invariant_step.
Qed.

(** With any number of servicing tasks: when [Stop] has returned nil,
    one value was received and exactly one task has left its loop. *)
Lemma Stop_stops_one_task (disable_error : option error)
    (sched : list actor) (ts : list task) :
  Forall (fun t => t <> Exited) ts ->
  caller (run disable_error sched (calling ts)) = Returned None ->
  received (run disable_error sched (calling ts)) = 1%nat
  /\ (length (running (tasks (run disable_error sched (calling ts)))) + 1
      = length ts)%nat.
Proof.
  intros Hts Hret.
  destruct (invariant_run disable_error (length ts) sched (calling ts)
              (invariant_calling disable_error ts Hts))
    as (Hlen & Hrecv & Hcaller).
  rewrite Hret in Hcaller. split; [done|].
  pose proof (exited_running (tasks (run disable_error sched (calling ts)))).
  lia.
Qed.

(** C10 (as amended): when the transport accepts the disable-advertising
    command and one servicing task is running, in whatever order the
    caller of [Stop] and the task take their steps, [Stop] can only
    have returned, and then with nil, after the task received the one
    value sent on the stop channel; and once [Stop] has returned the
    task has left its loop, so no servicing task is running. *)
Theorem Stop_returns_after_the_task_stopped (sched : list actor) (t : task)
    (r : option error) :
  t <> Exited ->
  caller (run None sched (calling [t])) = Returned r ->
  r = None
  /\ received (run None sched (calling [t])) = 1%nat
  /\ running (tasks (run None sched (calling [t]))) = [].
Proof.
  intros Ht Hret.
  assert (Hts : Forall (fun t => t <> Exited) [t]) by (by constructor).
  assert (r = None) as ->.
  { destruct (invariant_run None 1 sched (calling [t])
                (invariant_calling None [t] Hts)) as (_ & _ & Hcaller).
    rewrite Hret in Hcaller. destruct r as [e|]; [|done].
    by destruct Hcaller. }
  destruct (Stop_stops_one_task None sched [t] Hts Hret) as (Hrecv & Hlen).
  split; [done|]. split; [done|].
  cbn in Hlen. apply length_zero_iff_nil. lia.
Qed.

Lemma Stop_returns_after_the_task_stopped_witness :
  let sched := [Caller; Task 0; Caller; Task 0; Caller; Task 0; Caller;
                Task 0; Caller] in
  caller (run None sched (calling [Selecting])) = Returned None
  /\ received (run None sched (calling [Selecting])) = 1%nat
  /\ running (tasks (run None sched (calling [Selecting]))) = [].
Proof.
  intros sched. split; [reflexivity|].
  exact (proj2 (Stop_returns_after_the_task_stopped sched Selecting None
                  ltac:(discriminate) eq_refl)).
Defined.

(** C10 as stated fails when the transport refuses the
    disable-advertising command: [Stop] returns that error at its first
    step; nothing was sent on the stop channel, and the servicing task
    is still in its loop and goes on polling. *)
Lemma Stop_refused_counterexample :
  let e := errTransport 12 in
  let c := run (Some e) [Caller; Task 0; Task 0] (calling [Selecting]) in
  caller c = Returned (Some e)
  /\ received c = 0%nat
  /\ running (tasks c) = [Sleeping]
  /\ att_polls c = 1%nat.
Proof. vm_compute. repeat split. Qed.

End ServicingFacts.

(** * Further properties *)

(** ** Packets as sequences of structures *)

Ltac len_solve :=
  unfold len in *;
  repeat (rewrite ?length_app, ?length_insert, ?length_take, ?length_drop,
            ?length_replicate; cbn [length]);
  lia.

Lemma replicate_4 (k : nat) :
  (4 <= k)%nat -> replicate k 0 = 0 :: 0 :: 0 :: 0 :: replicate (k - 4) 0.
Proof.
  intros Hk. replace k with (4 + (k - 4))%nat at 1 by lia. reflexivity.
Qed.

Lemma insert_after (p tail : list Z) (j : nat) (i : Z) (v : Z) :
  i = len p + Z.of_nat j ->
  <[Z.to_nat i := v]> (p ++ tail) = p ++ <[j := v]> tail.
Proof.
  intros ->. unfold len. rewrite insert_app_r_alt by lia. do 2 f_equal. lia.
Qed.

(** Copying a payload behind a four-byte header that was written into
    the zero tail of the array. *)
Lemma copy_behind_header (p : list Z) (a b c d : Z) (src : list Z) (k : nat) :
  (length p + 4 + k = 31)%nat -> (length src <= k)%nat ->
  copy_at (p ++ a :: b :: c :: d :: replicate k 0) (len p + 4) src
  = Ok ((p ++ a :: b :: c :: d :: src) ++ replicate (k - length src) 0).
Proof.
  intros Hp Hsrc. rewrite copy_at_ok by len_solve.
  f_equal. unfold len.
  replace (Z.to_nat (Z.of_nat (length p) + 4)) with (length p + 4)%nat by lia.
  rewrite take_app_add. cbn [take]. rewrite take_0.
  rewrite drop_app_ge by lia.
  replace (length p + 4 + length src - length p)%nat with (4 + length src)%nat by lia.
  cbn [drop Nat.add]. rewrite drop_replicate.
  rewrite take_ge by len_solve.
  rewrite <- !app_assoc. cbn. reflexivity.
Qed.

Lemma put_manufacturerData_appends (p : list Z) (k : nat)
    (md : ManufacturerDataElement) :
  (length p + k = 31)%nat -> (4 + length (md_Data md) <= k)%nat ->
  put_manufacturerData (p ++ replicate k 0, len p) md
  = Ok ((p ++ manufacturerData_structure md)
          ++ replicate (k - 4 - length (md_Data md)) 0,
        len (p ++ manufacturerData_structure md)).
Proof.
  intros Hp Hk. unfold put_manufacturerData.
  assert (Hlen : len (p ++ replicate k 0) = 31)
    by len_solve.
  assert (Hn : 0 <= len p <= 27) by (unfold len; lia).
  assert (HL : 0 <= len (md_Data md) <= 27) by (unfold len; lia).
  assert (Hfit : len p + 4 + len (md_Data md) <= 31) by (unfold len; lia).
  rewrite (uint8_small (len (md_Data md))) by lia.
  rewrite (uint8_small (len p + 4)) by lia.
  rewrite (uint8_small (len p + 1)) by lia.
  rewrite (uint8_small (len p + 2)) by lia.
  rewrite (uint8_small (3 + _)) by lia.
  rewrite (uint8_small (4 + _)) by lia.
  rewrite (uint8_small (len p + 4 + _)) by lia.
  rewrite (uint8_small (len p + (4 + _))) by lia.
  rewrite bool_decide_eq_false_2 by lia.
  rewrite index_set_ok by lia. rewrite bind_Ok.
  rewrite index_set_ok by (rewrite len_insert; lia). rewrite bind_Ok.
  rewrite PutUint16_at_ok by (rewrite ?len_insert; lia). rewrite bind_Ok.
  rewrite replicate_4 by lia.
  rewrite (insert_after p _ 0 (len p)) by lia.
  rewrite (insert_after p _ 1 (len p + 1)) by lia.
  rewrite (insert_after p _ 2 (len p + 2)) by lia.
  rewrite (insert_after p _ 3 (len p + 2 + 1)) by lia.
  cbn [insert list_insert].
  rewrite copy_behind_header by lia. rewrite bind_Ok. cbn [mret result_ret].
  unfold manufacturerData_structure, ad_structure, le16.
  replace (1 + len ([CompanyID md `mod` 256; (CompanyID md `div` 256) `mod` 256]
                     ++ md_Data md))
    with (3 + len (md_Data md)) by len_solve.
  cbn [app]. do 2 f_equal. len_solve.
Qed.


Lemma for_range_guard {S E : Type} (body : S -> E -> result S) (l : list E) (s : S) :
  (if bool_decide (len l > 0) then for_range body l s else mret s)
  = for_range body l s.
Proof.
  case_bool_decide as Hl; [done|]. destruct l; [done|]. unfold len in Hl. cbn in Hl. lia.
Qed.

Lemma manufacturerData_structure_length (md : ManufacturerDataElement) :
  length (manufacturerData_structure md) = (4 + length (md_Data md))%nat.
Proof. reflexivity. Qed.

(** The manufacturer-data loop on a packet [p] followed by zeros: it
    appends the structures when they fit. *)
Lemma manufacturer_loop_fits (mds : list ManufacturerDataElement)
    (p : list Z) (k : nat) :
  (length p + k = 31)%nat ->
  (length (concat (map manufacturerData_structure mds)) <= k)%nat ->
  for_range put_manufacturerData mds (p ++ replicate k 0, len p)
  = Ok ((p ++ concat (map manufacturerData_structure mds))
          ++ replicate (k - length (concat (map manufacturerData_structure mds))) 0,
        len (p ++ concat (map manufacturerData_structure mds))).
Proof.
  revert p k. induction mds as [|md mds IH]; intros p k Hp Hk.
  - cbn. by rewrite app_nil_r, Nat.sub_0_r.
  - cbn [map concat for_range] in *. rewrite length_app in Hk.
    rewrite manufacturerData_structure_length in Hk.
    rewrite put_manufacturerData_appends by lia. rewrite bind_Ok.
    rewrite IH.
    + rewrite <- !app_assoc.
      rewrite (length_app (manufacturerData_structure md)),
        manufacturerData_structure_length.
      do 6 f_equal. lia.
    + rewrite length_app, manufacturerData_structure_length. lia.
    + lia.
Qed.

(** ... and refuses the first structure that does not. *)
Lemma manufacturer_loop_overflow (mds : list ManufacturerDataElement)
    (p : list Z) (k : nat) :
  (length p + k = 31)%nat ->
  Forall (fun md => len (md_Data md) <= 220) mds ->
  (k < length (concat (map manufacturerData_structure mds)))%nat ->
  for_range put_manufacturerData mds (p ++ replicate k 0, len p)
  = Err (errorsNew "ManufacturerData too long").
Proof.
  revert p k. induction mds as [|md mds IH]; intros p k Hp Hmds Hk.
  - cbn in Hk. lia.
  - apply Forall_cons_1 in Hmds as [Hmd Hmds].
    cbn [map concat for_range] in *. rewrite length_app in Hk.
    rewrite manufacturerData_structure_length in Hk.
    destruct (decide (4 + length (md_Data md) <= k)%nat) as [Hfit|Hfit].
    + rewrite put_manufacturerData_appends by lia. rewrite bind_Ok.
      apply IH; [|done|].
      * rewrite length_app, manufacturerData_structure_length. lia.
      * lia.
    + pose proof (put_manufacturerData_checked (p ++ replicate k 0) (len p) md)
        as Hchecked.
      rewrite bool_decide_eq_true_2 in Hchecked by len_solve.
      rewrite Hchecked; [done|len_solve|len_solve|done].
Qed.

Section AdvertisingPackets.
Context {UUID : Type} `{!Externals UUID}.


(** The array and counter after the flags and the service UUID. *)
Lemma header_state (a : Advertisement UUID) :
  (forall uuid, serviceUUIDs a = [uuid] -> Is16Bit uuid = true) ->
  exists p k,
    (length p + k = 31)%nat
    /\ concat (advertising_structures a)
       = p ++ concat (map manufacturerData_structure (manufacturerData a))
    /\ (st ← put_flags zero_array31; put_serviceUUID (serviceUUIDs a) st)
       = Ok (p ++ replicate k 0, len p).
Proof.
  intros H16. unfold advertising_structures.
  destruct (serviceUUIDs a) as [|uuid [|uuid' uuids]] eqn:Huuids.
  - exists [2; 1; 6], 28%nat. by repeat split.
  - exists ([2; 1; 6] ++ ad_structure ADCompleteAdvertisedService16
                          (le16 (Get16Bit uuid))), 24%nat.
    repeat split.
    change (put_flags zero_array31) with (Ok (2 :: 1 :: 6 :: replicate 28 0, 3)).
    rewrite bind_Ok. cbn [put_serviceUUID]. rewrite (H16 uuid eq_refl).
    reflexivity.
  - exists [2; 1; 6], 28%nat. by repeat split.
Qed.

Lemma advertisingData_packet_structures (a : Advertisement UUID) :
  (forall uuid, serviceUUIDs a = [uuid] -> Is16Bit uuid = true) ->
  Forall (fun md => len (md_Data md) <= 220) (manufacturerData a) ->
  advertisingData_packet a
  = if bool_decide (len (concat (advertising_structures a)) <= 31)
    then Ok (concat (advertising_structures a))
    else Err (errorsNew "ManufacturerData too long").
Proof.
  intros H16 Hmds.
  destruct (header_state a H16) as (p & k & Hp & Hstructs & Hstate).
  unfold advertisingData_packet, build_advertisingData.
  destruct (put_flags zero_array31) as [st0| | |]; try discriminate.
  rewrite bind_Ok in Hstate |- *. rewrite Hstate, bind_Ok, for_range_guard.
  rewrite Hstructs.
  assert (Hl : forall body : list Z,
             len (p ++ body) = Z.of_nat (length p + length body)) by (intros; len_solve).
  rewrite Hl. case_bool_decide as Hfit.
  - rewrite manufacturer_loop_fits by lia. rewrite bind_Ok.
    rewrite slice_to_ok by len_solve. f_equal.
    unfold len. rewrite Nat2Z.id. apply take_app_length.
  - by rewrite manufacturer_loop_overflow by (done || lia).
Qed.
End AdvertisingPackets.

(** *** Well-formed packets *)

Lemma ad_structures_concat (structs : list (list Z)) (fuel : nat) :
  Forall (fun s => exists t v, s = ad_structure t v) structs ->
  (length structs <= fuel)%nat ->
  ad_structures fuel (concat structs) = true.
Proof.
  revert fuel. induction structs as [|s structs IH]; intros fuel Hs Hfuel;
    [by destruct fuel|].
  apply Forall_cons_1 in Hs as [(t & v & ->) Hs].
  destruct fuel as [|fuel]; [cbn in Hfuel; lia|].
  cbn [concat ad_structure app ad_structures].
  rewrite bool_decide_eq_true_2 by len_solve. cbn [andb].
  replace (Z.to_nat (1 + len v)) with (S (length v)) by (unfold len; lia).
  cbn [drop]. rewrite drop_app_length. apply IH; [done|]. cbn in Hfuel. lia.
Qed.

Lemma structures_count (structs : list (list Z)) :
  Forall (fun s => exists t v, s = ad_structure t v) structs ->
  (length structs <= length (concat structs))%nat.
Proof.
  induction 1 as [|s structs (t & v & ->) _ IH]; [done|].
  cbn [concat length]. rewrite length_app. cbn. lia.
Qed.

Lemma concat_structures_well_formed (structs : list (list Z)) :
  Forall (fun s => exists t v, s = ad_structure t v) structs ->
  well_formed_packet (concat structs) = true.
Proof.
  intros Hs. apply ad_structures_concat; [done|]. by apply structures_count.
Qed.

Section WellFormed.
Context {UUID : Type} `{!Externals UUID}.

Lemma advertising_structures_shape (a : Advertisement UUID) :
  Forall (fun s => exists t v, s = ad_structure t v) (advertising_structures a).
Proof.
  unfold advertising_structures. apply Forall_cons. split; [eauto|].
  apply Forall_app. split.
  - destruct (serviceUUIDs a) as [|uuid [|? ?]]; repeat constructor. eauto.
  - apply Forall_map, Forall_true. intros md. unfold manufacturerData_structure. eauto.
Qed.

(** X16: under the same conditions, every advertising-data packet
    [Start] builds is a sequence of AD structures whose length bytes
    add up to the length of the packet. *)
Theorem advertising_packet_well_formed (a : Advertisement UUID) (p : list Z) :
  (forall uuid, serviceUUIDs a = [uuid] -> Is16Bit uuid = true) ->
  Forall (fun md => len (md_Data md) <= 220) (manufacturerData a) ->
  advertisingData_packet a = Ok p ->
  well_formed_packet p = true.
Proof.
  intros H16 Hmds. rewrite advertisingData_packet_structures by done.
  case_bool_decide; [|done]. intros Hp.
  assert (p = concat (advertising_structures a)) as -> by congruence.
  apply concat_structures_well_formed, advertising_structures_shape.
Qed.
End WellFormed.

(** *** The scan response *)

Lemma copy_after (p src : list Z) (k : nat) (off : Z) :
  off = len p -> (length p + k = 31)%nat -> (length src <= k)%nat ->
  copy_at (p ++ replicate k 0) off src
  = Ok ((p ++ src) ++ replicate (k - length src) 0).
Proof.
  intros -> Hp Hsrc. rewrite copy_at_ok by len_solve.
  f_equal. unfold len. rewrite Nat2Z.id.
  rewrite take_app_length, drop_app_add, drop_replicate.
  rewrite take_ge by len_solve. by rewrite <- app_assoc.
Qed.

Section ScanResponsePackets.
Context {UUID : Type} `{!Externals UUID}.

Lemma serviceData_structure_length (sde : ServiceDataElement UUID) :
  length (serviceData_structure sde) = (4 + length (sd_Data sde))%nat.
Proof. unfold serviceData_structure. by destruct (Is16Bit _). Qed.

(** The array and counter after the local name. *)
Lemma name_state (name : list Z) :
  exists k,
    (length (concat (localName_structures name)) + k = 31)%nat
    /\ put_localName name zero_array31
       = Ok (concat (localName_structures name) ++ replicate k 0,
             len (concat (localName_structures name))).
Proof.
  unfold put_localName, localName_structures.
  change zero_array31 with ([] ++ 0 :: 0 :: replicate 29 0).
  case_bool_decide as Hlong; [|case_bool_decide as Hsome].
  - exists 0%nat.
    assert (length (take 29 name) = 29%nat) as Htake
      by (rewrite length_take; unfold len in *; lia).
    split; [cbn [concat]; rewrite app_nil_r; cbn [ad_structure length];
            rewrite Htake; lia|].
    rewrite index_set_ok by len_solve. rewrite bind_Ok.
    rewrite index_set_ok by len_solve. rewrite bind_Ok.
    rewrite slice_to_ok by lia. rewrite bind_Ok.
    change (Z.to_nat 0) with 0%nat. change (Z.to_nat 1) with 1%nat.
    change (Z.to_nat 29) with 29%nat.
    cbn [app insert list_insert].
    rewrite (copy_after [1 + 29; ADCompleteLocalName] (take 29 name) 29)
      by (done || lia).
    rewrite bind_Ok. cbn [mret result_ret]. rewrite Htake.
    cbn [concat app ad_structure Nat.sub replicate]. rewrite !app_nil_r.
    do 2 f_equal.
    + f_equal. unfold len. rewrite Htake. reflexivity.
    + unfold len. cbn [length]. rewrite Htake. reflexivity.
  - exists (29 - length name)%nat.
    split; [cbn [concat]; rewrite app_nil_r; cbn [ad_structure length];
            unfold len in *; lia|].
    rewrite !uint8_small by (unfold len in *; lia).
    rewrite index_set_ok by len_solve. rewrite bind_Ok.
    rewrite index_set_ok by len_solve. rewrite bind_Ok.
    change (Z.to_nat 0) with 0%nat. change (Z.to_nat 1) with 1%nat.
    cbn [app insert list_insert].
    rewrite (copy_after [1 + len name; ADShortLocalName] name 29)
      by (done || unfold len in *; lia).
    rewrite bind_Ok. cbn [mret result_ret].
    cbn [concat app ad_structure]. rewrite !app_nil_r.
    do 2 f_equal. unfold len. cbn [length]. lia.
  - exists 31%nat. split; reflexivity.
Qed.

Lemma put_serviceData_appends (p : list Z) (k : nat)
    (sde : ServiceDataElement UUID) :
  (length p + k = 31)%nat -> (4 + length (sd_Data sde) <= k)%nat ->
  Is16Bit (sd_UUID sde) = true \/ Is32Bit (sd_UUID sde) = false ->
  put_serviceData (p ++ replicate k 0, len p) sde
  = Ok ((p ++ serviceData_structure sde)
          ++ replicate (k - 4 - length (sd_Data sde)) 0,
        len (p ++ serviceData_structure sde)).
Proof.
  intros Hp Hk Huuid. unfold put_serviceData.
  assert (Hlen : len (p ++ replicate k 0) = 31) by len_solve.
  assert (Hn : 0 <= len p <= 27) by (unfold len; lia).
  assert (HL : 0 <= len (sd_Data sde) <= 27) by (unfold len; lia).
  assert (Hfit : len p + 4 + len (sd_Data sde) <= 31) by (unfold len; lia).
  rewrite (uint8_small (len (sd_Data sde))) by lia.
  rewrite (uint8_small (len p + 4)) by lia.
  rewrite (uint8_small (len p + 1)) by lia.
  rewrite (uint8_small (len p + 2)) by lia.
  rewrite (uint8_small (3 + _)) by lia.
  rewrite (uint8_small (4 + _)) by lia.
  rewrite (uint8_small (len p + 4 + _)) by lia.
  rewrite (uint8_small (len p + (4 + _))) by lia.
  rewrite bool_decide_eq_false_2 by lia.
  rewrite replicate_4 by lia.
  unfold serviceData_structure.
  destruct (Is16Bit (sd_UUID sde)) eqn:H16.
  - rewrite PutUint16_at_ok by len_solve. rewrite bind_Ok.
    rewrite index_set_ok by len_solve. rewrite bind_Ok.
    rewrite index_set_ok by len_solve. rewrite bind_Ok.
    rewrite (insert_after p _ 2 (len p + 2)) by lia.
    rewrite (insert_after p _ 3 (len p + 2 + 1)) by lia.
    rewrite (insert_after p _ 0 (len p)) by lia.
    rewrite (insert_after p _ 1 (len p + 1)) by lia.
    cbn [insert list_insert].
    rewrite copy_behind_header by lia. rewrite bind_Ok. cbn [mret result_ret].
    unfold ad_structure, le16.
    replace (1 + len ([Get16Bit (sd_UUID sde) `mod` 256;
                       (Get16Bit (sd_UUID sde) `div` 256) `mod` 256]
                        ++ sd_Data sde))
      with (3 + len (sd_Data sde)) by len_solve.
    cbn [app]. do 2 f_equal. len_solve.
  - destruct Huuid as [?|H32]; [done|]. rewrite H32.
    cbn [mret result_ret]. rewrite bind_Ok.
    rewrite index_set_ok by len_solve. rewrite bind_Ok.
    rewrite index_set_ok by len_solve. rewrite bind_Ok.
    rewrite (insert_after p _ 0 (len p)) by lia.
    rewrite (insert_after p _ 1 (len p + 1)) by lia.
    cbn [insert list_insert].
    rewrite copy_behind_header by lia. rewrite bind_Ok.
    unfold ad_structure.
    replace (1 + len ([0; 0] ++ sd_Data sde))
      with (3 + len (sd_Data sde)) by len_solve.
    cbn [app]. do 2 f_equal. len_solve.
Qed.

Lemma put_serviceData_too_long (data : list Z) (n : Z)
    (sde : ServiceDataElement UUID) :
  0 <= n <= 31 -> len (sd_Data sde) <= 220 -> n + 4 + len (sd_Data sde) > 31 ->
  put_serviceData (data, n) sde = Err (errorsNew "ServiceData too long").
Proof.
  intros Hn HL Hfit. unfold put_serviceData.
  assert (0 <= len (sd_Data sde)) by (unfold len; lia).
  rewrite (uint8_small (len (sd_Data sde))) by lia.
  rewrite (uint8_small (n + 4)) by lia.
  rewrite (uint8_small (n + 4 + _)) by lia.
  by rewrite bool_decide_eq_true_2 by lia.
Qed.

Lemma serviceData_loop_fits (sd : list (ServiceDataElement UUID))
    (p : list Z) (k : nat) :
  (length p + k = 31)%nat ->
  Forall (fun sde => Is16Bit (sd_UUID sde) = true
                     \/ Is32Bit (sd_UUID sde) = false) sd ->
  (length (concat (map serviceData_structure sd)) <= k)%nat ->
  for_range put_serviceData sd (p ++ replicate k 0, len p)
  = Ok ((p ++ concat (map serviceData_structure sd))
          ++ replicate (k - length (concat (map serviceData_structure sd))) 0,
        len (p ++ concat (map serviceData_structure sd))).
Proof.
  revert p k. induction sd as [|sde sd IH]; intros p k Hp Huuids Hk.
  - cbn. by rewrite app_nil_r, Nat.sub_0_r.
  - apply Forall_cons_1 in Huuids as [Huuid Huuids].
    cbn [map concat for_range] in *. rewrite length_app in Hk.
    rewrite serviceData_structure_length in Hk.
    rewrite put_serviceData_appends by (done || lia). rewrite bind_Ok.
    rewrite IH.
    + rewrite <- !app_assoc.
      rewrite (length_app (serviceData_structure sde)),
        serviceData_structure_length.
      do 6 f_equal. lia.
    + rewrite length_app, serviceData_structure_length. lia.
    + done.
    + lia.
Qed.

Lemma serviceData_loop_overflow (sd : list (ServiceDataElement UUID))
    (p : list Z) (k : nat) :
  (length p + k = 31)%nat ->
  Forall (fun sde => Is16Bit (sd_UUID sde) = true
                     \/ Is32Bit (sd_UUID sde) = false) sd ->
  Forall (fun sde => len (sd_Data sde) <= 220) sd ->
  (k < length (concat (map serviceData_structure sd)))%nat ->
  for_range put_serviceData sd (p ++ replicate k 0, len p)
  = Err (errorsNew "ServiceData too long").
Proof.
  revert p k. induction sd as [|sde sd IH]; intros p k Hp Huuids Hsd Hk.
  - cbn in Hk. lia.
  - apply Forall_cons_1 in Huuids as [Huuid Huuids].
    apply Forall_cons_1 in Hsd as [Hsde Hsd].
    cbn [map concat for_range] in *. rewrite length_app in Hk.
    rewrite serviceData_structure_length in Hk.
    destruct (decide (4 + length (sd_Data sde) <= k)%nat) as [Hfit|Hfit].
    + rewrite put_serviceData_appends by (done || lia). rewrite bind_Ok.
      apply IH; [|done|done|].
      * rewrite length_app, serviceData_structure_length. lia.
      * lia.
    + by rewrite put_serviceData_too_long by len_solve.
Qed.

Lemma scanResponseData_packet_structures (name : list Z)
    (sd : list (ServiceDataElement UUID)) :
  Forall (fun sde => Is16Bit (sd_UUID sde) = true
                     \/ Is32Bit (sd_UUID sde) = false) sd ->
  Forall (fun sde => len (sd_Data sde) <= 220) sd ->
  scanResponseData_packet name sd
  = if bool_decide (len (concat (scanResponse_structures name sd)) <= 31)
    then Ok (concat (scanResponse_structures name sd))
    else Err (errorsNew "ServiceData too long").
Proof.
  intros Huuids Hsd.
  destruct (name_state name) as (k & Hk & Hstate).
  unfold scanResponseData_packet, build_scanResponseData, scanResponse_structures.
  rewrite Hstate, bind_Ok, for_range_guard, concat_app.
  assert (Hl : forall body : list Z,
             len (concat (localName_structures name) ++ body)
             = Z.of_nat (length (concat (localName_structures name)) + length body))
    by (intros; len_solve).
  rewrite Hl. case_bool_decide as Hfit.
  - rewrite serviceData_loop_fits by (done || lia). rewrite bind_Ok.
    rewrite slice_to_ok by len_solve. f_equal.
    unfold len. rewrite Nat2Z.id. apply take_app_length.
  - by rewrite serviceData_loop_overflow by (done || lia).
Qed.

(** A service-data element whose UUID is 32-bit and not 16-bit is
    refused once it passed the length check. *)
Lemma put_serviceData_32bit (p : list Z) (k : nat)
    (sde : ServiceDataElement UUID) :
  (length p + k = 31)%nat -> (4 + length (sd_Data sde) <= k)%nat ->
  Is16Bit (sd_UUID sde) = false -> Is32Bit (sd_UUID sde) = true ->
  put_serviceData (p ++ replicate k 0, len p) sde
  = Err (errorsNew "32-bit ServiceData UUIDs not yet supported").
Proof.
  intros Hp Hk H16 H32. unfold put_serviceData.
  assert (Hn : 0 <= len p <= 27) by (unfold len; lia).
  assert (HL : 0 <= len (sd_Data sde) <= 27) by (unfold len; lia).
  assert (Hfit : len p + 4 + len (sd_Data sde) <= 31) by (unfold len; lia).
  rewrite (uint8_small (len (sd_Data sde))) by lia.
  rewrite (uint8_small (len p + 4)) by lia.
  rewrite (uint8_small (len p + 4 + _)) by lia.
  rewrite bool_decide_eq_false_2 by lia.
  by rewrite H16, H32.
Qed.
End ScanResponsePackets.

(** ** Starting and configuring *)

Section StartFacts.
Context {UUID : Type} `{!Externals UUID} (T : Transport).

Lemma set_serviceData_same (a : Advertisement UUID) :
  set_serviceData (serviceData a) a = a.
Proof. by destruct a. Qed.

Lemma set_defaultAdvertisement_same (w : World UUID) :
  set_defaultAdvertisement (defaultAdvertisement w) w = w.
Proof. by destruct w. Qed.

(** [setServiceData] in one piece: it stores the list, builds the
    packet, and only then talks to the transport. *)
Lemma setServiceData_spec (sd : list (ServiceDataElement UUID)) (w : World UUID) :
  let w1 := set_defaultAdvertisement
              (set_serviceData sd (defaultAdvertisement w)) w in
  setServiceData T sd w =
    match scanResponseData_packet (localName (defaultAdvertisement w)) sd with
    | Ok q =>
        (match command_error T (hci_log w) (leSetScanResponseData q) with
         | Some e => Err e
         | None => Ok tt
         end,
         set_hci_log (hci_log w ++ [leSetScanResponseData q]) w1)
    | Err e => (Err e, w1)
    | Panic why => (Panic why, w1)
    | OutOfFuel => (OutOfFuel, w1)
    end.
Proof.
  unfold setServiceData. rewrite SR_bind_eq. unfold modify_adv, modify.
  rewrite SR_bind_eq. unfold get. rewrite SR_bind_eq. unfold lift.
  cbn [defaultAdvertisement set_defaultAdvertisement localName serviceData
       set_serviceData].
  destruct (scanResponseData_packet _ sd) as [q|e|why|]; try done.
  rewrite SR_bind_eq, hci_spec. cbn [hci_log set_defaultAdvertisement].
  by destruct (command_error T (hci_log w) (leSetScanResponseData q)).
Qed.

(** X20: a first service-data element with a 32-bit UUID that would
    fit makes [setServiceData] return the not-yet-supported error
    without sending anything; the service data was stored in the
    advertisement before. *)
Theorem setServiceData_refuses_32bit_uuid
    (sde : ServiceDataElement UUID) (rest : list (ServiceDataElement UUID))
    (w : World UUID) :
  Is16Bit (sd_UUID sde) = false ->
  Is32Bit (sd_UUID sde) = true ->
  len (concat (localName_structures (localName (defaultAdvertisement w))))
    + 4 + len (sd_Data sde) <= 31 ->
  (setServiceData T (sde :: rest) w).1
  = Err (errorsNew "32-bit ServiceData UUIDs not yet supported")
  /\ hci_log (setServiceData T (sde :: rest) w).2 = hci_log w
  /\ serviceData (defaultAdvertisement (setServiceData T (sde :: rest) w).2)
     = sde :: rest.
Proof.
  intros H16 H32 Hfit. rewrite setServiceData_spec.
  assert (scanResponseData_packet (localName (defaultAdvertisement w)) (sde :: rest)
          = Err (errorsNew "32-bit ServiceData UUIDs not yet supported")) as ->.
  { destruct (name_state (localName (defaultAdvertisement w))) as (k & Hk & Hstate).
    unfold scanResponseData_packet, build_scanResponseData.
    rewrite Hstate, bind_Ok, for_range_guard. cbn [for_range].
    by rewrite put_serviceData_32bit by (done || unfold len in *; lia). }
  done.
Qed.

(** [Start] in one piece, on a transport that accepts its commands. *)
Lemma Start_spec (w : World UUID) :
  commands_succeed T ->
  let a := defaultAdvertisement w in
  let params := leSetAdvertisingParameters (interval a) (interval a)
                  (uint8 (advertisementType a)) 0x00 0x00
                  [0x00; 0x00; 0x00; 0x00; 0x00; 0x00] 0x07 0 in
  Start T w =
    match advertisingData_packet a with
    | Ok p =>
        match scanResponseData_packet (localName a) (serviceData a) with
        | Ok q =>
            (Ok tt,
             set_servicing (S (servicing w))
               (set_hci_log (hci_log w ++ [params; leSetAdvertisingData p;
                                           leSetScanResponseData q;
                                           leSetAdvertiseEnable true]) w))
        | Err e => (Err e, set_hci_log (hci_log w ++ [params; leSetAdvertisingData p]) w)
        | Panic why =>
            (Panic why, set_hci_log (hci_log w ++ [params; leSetAdvertisingData p]) w)
        | OutOfFuel =>
            (OutOfFuel, set_hci_log (hci_log w ++ [params; leSetAdvertisingData p]) w)
        end
    | Err e => (Err e, set_hci_log (hci_log w ++ [params]) w)
    | Panic why => (Panic why, set_hci_log (hci_log w ++ [params]) w)
    | OutOfFuel => (OutOfFuel, set_hci_log (hci_log w ++ [params]) w)
    end.
Proof.
  intros Hcmds a params. unfold Start.
  rewrite SR_bind_eq. unfold get. rewrite SR_bind_eq, hci_spec, Hcmds.
  rewrite SR_bind_eq. unfold lift. fold a.
  destruct (advertisingData_packet a) as [p|e|why|]; try done.
  rewrite SR_bind_eq, hci_spec, Hcmds.
  rewrite SR_bind_eq, setServiceData_spec.
  cbn [defaultAdvertisement set_hci_log hci_log]. fold a.
  rewrite set_serviceData_same.
  destruct (scanResponseData_packet (localName a) (serviceData a)) as [q|e|why|].
  1: rewrite Hcmds, SR_bind_eq, hci_spec, Hcmds, SR_bind_eq;
     unfold spawn_servicing, modify.
  all: subst a params; destruct w; cbn; by rewrite <- ?app_assoc.
Qed.

(** X17: when every command is accepted and both packets can be
    built, [Start] sends the advertising parameters, the advertising
    data, the scan response and the enable command, in this order,
    spawns one servicing task and leaves the advertisement as
    configured. *)
Theorem Start_pushes_in_order (w : World UUID) (p q : list Z) :
  commands_succeed T ->
  advertisingData_packet (defaultAdvertisement w) = Ok p ->
  scanResponseData_packet (localName (defaultAdvertisement w))
    (serviceData (defaultAdvertisement w)) = Ok q ->
  (Start T w).1 = Ok tt
  /\ hci_log (Start T w).2
     = hci_log w
       ++ [ leSetAdvertisingParameters
              (interval (defaultAdvertisement w)) (interval (defaultAdvertisement w))
              (uint8 (advertisementType (defaultAdvertisement w)))
              0 0 [0; 0; 0; 0; 0; 0] 7 0;
            leSetAdvertisingData p;
            leSetScanResponseData q;
            leSetAdvertiseEnable true ]
  /\ servicing (Start T w).2 = S (servicing w)
  /\ defaultAdvertisement (Start T w).2 = defaultAdvertisement w.
Proof.
  intros Hcmds Hp Hq. rewrite (Start_spec w Hcmds), Hp, Hq. done.
Qed.

(** X18: when a packet cannot be built, [Start] returns that error
    after the commands already sent, never enables advertising and
    spawns no servicing task. *)
Theorem Start_capacity_error (w : World UUID) (e : error) :
  commands_succeed T ->
  advertisingData_packet (defaultAdvertisement w) = Err e
  \/ (exists p, advertisingData_packet (defaultAdvertisement w) = Ok p
                /\ scanResponseData_packet (localName (defaultAdvertisement w))
                     (serviceData (defaultAdvertisement w)) = Err e) ->
  (Start T w).1 = Err e
  /\ servicing (Start T w).2 = servicing w
  /\ hci_log (Start T w).2
     = hci_log w
       ++ leSetAdvertisingParameters
            (interval (defaultAdvertisement w)) (interval (defaultAdvertisement w))
            (uint8 (advertisementType (defaultAdvertisement w)))
            0 0 [0; 0; 0; 0; 0; 0] 7 0
          :: match advertisingData_packet (defaultAdvertisement w) with
             | Ok p => [leSetAdvertisingData p]
             | _ => []
             end.
Proof.
  intros Hcmds [Hp|(p & Hp & Hq)]; rewrite (Start_spec w Hcmds), Hp, ?Hq; done.
Qed.


End StartFacts.

(** ** The scan loop *)

Section ScanLoopFacts.
Context {UUID : Type} `{!Externals UUID} (T : Transport).

(** What a poll leaves alone, and where a pending report comes from. *)
Lemma hci_poll_frame (w : World UUID) :
  exists r w1,
    hci_poll T w = (r, w1)
    /\ scanning w1 = scanning w
    /\ hci_log w1 = hci_log w
    /\ hci_polls w1 = S (hci_polls w)
    /\ connectedDevices w1 = connectedDevices w
    /\ devices w1 = devices w
    /\ (advData w1 = advData w
        \/ poll_event T (hci_polls w) = PollAdvertisingReport (advData w1))
    /\ (r = Ok tt
        \/ exists e, r = Err e /\ poll_event T (hci_polls w) = PollError e).
Proof.
  unfold hci_poll. destruct (poll_event T (hci_polls w)) eqn:Hev;
    eexists _, _; (split; [reflexivity|]); cbn; eauto 12.
Qed.

Lemma Scan_loop_returns_cleared (fuel : nat)
    (callback : ScanResult UUID -> World UUID -> World UUID) (w w' : World UUID) :
  Scan_loop T fuel callback w = (Ok tt, w') ->
  scanning w' = false /\ reported (advData w') = false.
Proof.
  revert w. induction fuel as [|fuel IH]; intros w; cbn [Scan_loop]; [done|].
  rewrite SR_bind_eq.
  destruct (hci_poll_frame w) as (r & w1 & -> & _ & _ & _ & _ & _ & _ & Hr).
  destruct Hr as [->|(e & -> & _)]; [|done].
  rewrite SR_bind_eq. unfold get.
  destruct (reported (advData w1)) eqn:Hrep.
  - case_bool_decide.
    + rewrite SR_bind_eq. unfold clearAdvData, modify. apply IH.
    + rewrite SR_bind_eq. unfold lift.
      destruct (decode (advData w1)).1; try done.
      rewrite SR_bind_eq. unfold modify at 1.
      rewrite SR_bind_eq. unfold clearAdvData, modify at 1.
      rewrite SR_bind_eq. unfold time_Sleep, modify. apply IH.
  - destruct (scanning w1) eqn:Hscan; cbn [negb].
    + rewrite SR_bind_eq. unfold time_Sleep, modify. apply IH.
    + by intros [= <-].
Qed.

(** X1: whatever the transport delivers and whatever the callback
    does, [Scan] returns nil only from a round of its loop in which
    no report was pending and the scanning flag was cleared: on
    return the flag is off and no report is pending. *)
Theorem Scan_returns_only_when_stopped (fuel : nat)
    (callback : ScanResult UUID -> World UUID -> World UUID) (w w' : World UUID) :
  Scan T fuel callback w = (Ok tt, w') ->
  scanning w' = false /\ reported (advData w') = false.
Proof.
  unfold Scan. rewrite SR_bind_eq. unfold get.
  destruct (scanning w); [done|].
  rewrite SR_bind_eq, hci_spec. destruct (command_error T _ _); [done|].
  rewrite SR_bind_eq, hci_spec. destruct (command_error T _ _); [done|].
  rewrite SR_bind_eq. unfold modify.
  rewrite SR_bind_eq, hci_spec. destruct (command_error T _ _); [done|].
  apply Scan_loop_returns_cleared.
Qed.

Lemma Scan_loop_skips_oversized (fuel : nat)
    (cb1 cb2 : ScanResult UUID -> World UUID -> World UUID) (w : World UUID) :
  only_oversized_reports T ->
  (reported (advData w) = true -> eirLength (advData w) > 31) ->
  Scan_loop T fuel cb1 w = Scan_loop T fuel cb2 w.
Proof.
  intros Hover. revert w. induction fuel as [|fuel IH]; intros w Hw;
    cbn [Scan_loop]; [done|].
  rewrite !SR_bind_eq.
  destruct (hci_poll_frame w) as (r & w1 & -> & _ & _ & _ & _ & _ & Hadv & Hr).
  destruct Hr as [->|(e & -> & _)]; [|done].
  assert (Hw1 : reported (advData w1) = true -> eirLength (advData w1) > 31).
  { destruct Hadv as [->|Hev]; [done|]. by apply Hover in Hev. }
  rewrite !SR_bind_eq. unfold get.
  destruct (reported (advData w1)) eqn:Hrep.
  - rewrite bool_decide_eq_true_2 by auto.
    rewrite !SR_bind_eq. unfold clearAdvData, modify. apply IH. done.
  - destruct (scanning w1); cbn [negb]; [|done].
    rewrite !SR_bind_eq. unfold time_Sleep, modify. apply IH. cbn. by rewrite Hrep.
Qed.

(** X2: a report whose declared length is over 31 never reaches the
    callback: on a transport that only delivers such reports, [Scan]
    does the same whatever callback it is given. *)
Theorem Scan_never_delivers_oversized_reports (fuel : nat)
    (cb1 cb2 : ScanResult UUID -> World UUID -> World UUID) (w : World UUID) :
  only_oversized_reports T ->
  reported (advData w) = false ->
  Scan T fuel cb1 w = Scan T fuel cb2 w.
Proof.
  intros Hover Hw. unfold Scan. rewrite !SR_bind_eq. unfold get.
  destruct (scanning w); [done|].
  rewrite !SR_bind_eq, !hci_spec. destruct (command_error T _ _); [done|].
  rewrite !SR_bind_eq, !hci_spec. destruct (command_error T _ _); [done|].
  rewrite !SR_bind_eq. unfold modify.
  rewrite !SR_bind_eq, !hci_spec. destruct (command_error T _ _); [done|].
  apply Scan_loop_skips_oversized; [done|]. cbn. by rewrite Hw.
Qed.

(** X3: when the transport refuses the third command of [Scan], the
    one that enables scanning, [Scan] returns that error without
    polling, and the scanning flag, set just before, stays set: the
    next [Scan] is refused with errScanning. *)
Theorem Scan_failed_enable_leaves_flag_set (fuel : nat)
    (callback : ScanResult UUID -> World UUID -> World UUID)
    (w : World UUID) (e : error) :
  let c1 := leSetScanEnable false true in
  let c2 := leSetScanParameters 0x00 0x0080 0x0030 0x00 0x00 in
  let c3 := leSetScanEnable true false in
  scanning w = false ->
  command_error T (hci_log w) c1 = None ->
  command_error T (hci_log w ++ [c1]) c2 = None ->
  command_error T ((hci_log w ++ [c1]) ++ [c2]) c3 = Some e ->
  (Scan T fuel callback w).1 = Err e
  /\ scanning (Scan T fuel callback w).2 = true
  /\ hci_polls (Scan T fuel callback w).2 = hci_polls w
  /\ (Scan T fuel callback (Scan T fuel callback w).2).1 = Err errScanning.
Proof.
  intros c1 c2 c3 Hscan H1 H2 H3.
  assert (Hrun : Scan T fuel callback w
                 = (Err e, set_hci_log (((hci_log w ++ [c1]) ++ [c2]) ++ [c3])
                             (set_scanning true
                                (set_hci_log ((hci_log w ++ [c1]) ++ [c2])
                                   (set_hci_log (hci_log w ++ [c1]) w))))).
  { unfold Scan. rewrite SR_bind_eq. unfold get. rewrite Hscan.
    rewrite SR_bind_eq, hci_spec. fold c1. rewrite H1.
    rewrite SR_bind_eq, hci_spec. cbn [hci_log set_hci_log]. fold c2. rewrite H2.
    rewrite SR_bind_eq. unfold modify.
    rewrite SR_bind_eq, hci_spec. cbn [hci_log set_hci_log set_scanning].
    fold c3. by rewrite H3. }
  rewrite Hrun. cbn [fst snd]. repeat split.
Qed.

(** One round of the loop on a report that is delivered. *)
Lemma Scan_loop_delivers (fuel : nat)
    (callback : ScanResult UUID -> World UUID -> World UUID)
    (w : World UUID) (r : leAdvertisingReport) (adf : AdvertisementFields UUID) :
  poll_event T (hci_polls w) = PollAdvertisingReport r ->
  reported r = true -> eirLength r <= 31 -> (decode r).1 = Ok adf ->
  Scan_loop T (S fuel) callback w
  = Scan_loop T fuel callback
      (let w1 := set_advData r
                   (set_clock (clock w + poll_nanos T (hci_polls w))
                      (set_hci_polls (S (hci_polls w)) w)) in
       let w2 := set_advData zero_leAdvertisingReport
                   (callback (scan_result_of r adf) w1) in
       set_clock (clock w2 + 5 * Millisecond) w2).
Proof.
  intros Hev Hrep Hlen Hdec. cbn [Scan_loop].
  rewrite SR_bind_eq. unfold hci_poll. rewrite Hev.
  rewrite SR_bind_eq. unfold get. cbn [advData set_advData]. rewrite Hrep.
  rewrite bool_decide_eq_false_2 by lia.
  rewrite SR_bind_eq. unfold lift. rewrite Hdec.
  rewrite SR_bind_eq. unfold modify at 1.
  rewrite SR_bind_eq. unfold clearAdvData, modify at 1.
  rewrite SR_bind_eq. unfold time_Sleep, modify. reflexivity.
Qed.

Lemma StopScan_running (w : World UUID) :
  scanning w = true -> commands_succeed T ->
  StopScan T w
  = (Ok tt, set_scanning false
              (set_hci_log (hci_log w ++ [leSetScanEnable false false]) w)).
Proof.
  intros Hscan Hcmds. unfold StopScan. rewrite SR_bind_eq. unfold get.
  rewrite Hscan. cbn [negb]. by rewrite SR_bind_eq, hci_spec, Hcmds.
Qed.

(** X4: a callback that calls [StopScan] ends the scan: with one
    report delivered and nothing after it, [Scan] hands the report
    over, the callback disables scanning, and [Scan] returns nil at
    its next poll; the four commands go out in this order. *)
Theorem Scan_stopped_by_its_callback (fuel : nat) (w : World UUID)
    (r : leAdvertisingReport) (adf : AdvertisementFields UUID) :
  scanning w = false ->
  commands_succeed T ->
  poll_event T (hci_polls w) = PollAdvertisingReport r ->
  reported r = true -> eirLength r <= 31 -> (decode r).1 = Ok adf ->
  poll_event T (S (hci_polls w)) = PollIdle ->
  (Scan T (S (S fuel)) (stopping_callback T) w).1 = Ok tt
  /\ hci_log (Scan T (S (S fuel)) (stopping_callback T) w).2
     = hci_log w ++ [ leSetScanEnable false true;
                      leSetScanParameters 0x00 0x0080 0x0030 0x00 0x00;
                      leSetScanEnable true false;
                      leSetScanEnable false false ]
  /\ scanning (Scan T (S (S fuel)) (stopping_callback T) w).2 = false
  /\ hci_polls (Scan T (S (S fuel)) (stopping_callback T) w).2
     = S (S (hci_polls w)).
Proof.
  intros Hscan Hcmds Hev Hrep Hlen Hdec Hidle.
  unfold Scan. rewrite SR_bind_eq. unfold get. rewrite Hscan.
  rewrite SR_bind_eq, hci_spec, Hcmds.
  rewrite SR_bind_eq, hci_spec, Hcmds.
  rewrite SR_bind_eq. unfold modify.
  rewrite SR_bind_eq, hci_spec, Hcmds.
  rewrite (Scan_loop_delivers _ _ _ r adf) by done.
  unfold stopping_callback. rewrite StopScan_running by done.
  destruct w as [sc lg pl ad cd ck cdv dv sv da sg].
  cbn [hci_polls hci_log scanning clock advData set_advData set_clock
       set_hci_polls set_hci_log set_scanning snd] in *.
  cbn [Scan_loop]. rewrite SR_bind_eq. unfold hci_poll.
  cbn [hci_polls hci_log scanning clock advData set_advData set_clock
       set_hci_polls set_hci_log set_scanning snd].
  rewrite Hidle. rewrite SR_bind_eq. unfold get.
  cbn. by rewrite <- !app_assoc.
Qed.
End ScanLoopFacts.

(** ** Connections *)

Section ConnectionFacts.
Context {UUID : Type} `{!Externals UUID} (T : Transport).

Lemma hci_poll_connect_frame (w : World UUID) :
  exists r w1,
    hci_poll T w = (r, w1)
    /\ hci_log w1 = hci_log w
    /\ hci_polls w1 = S (hci_polls w)
    /\ connectedDevices w1 = connectedDevices w
    /\ devices w1 = devices w
    /\ (connectData w1 = connectData w
        \/ poll_event T (hci_polls w) = PollConnectComplete (connectData w1)).
Proof.
  unfold hci_poll. destruct (poll_event T (hci_polls w)) eqn:Hev;
    eexists _, _; (split; [reflexivity|]); cbn; eauto 12.
Qed.

(** The loop registers a device exactly when it returns one. *)
Lemma Connect_loop_effect (address : Address) (start : Z) (fuel : nat)
    (w w' : World UUID) (r : result (option Device)) :
  Connect_loop T fuel address start w = (r, w') ->
  hci_log w' = hci_log w
  /\ match r with
     | Ok (Some d) =>
         exists c,
           connected c = true
           /\ (c = connectData w
               \/ exists k, (hci_polls w <= k)%nat
                            /\ poll_event T k = PollConnectComplete c)
           /\ d = {| Device_Address :=
                       {| Address_MACAddress :=
                            {| MAC := makeAddress (conn_peerBdaddr c);
                               isRandom := isRandom (Address_MACAddress address) |} |};
                     Device_deviceInternal := length (devices w) |}
           /\ devices w' = devices w ++ [ {| di_handle := conn_handle c;
                                             mtu := defaultMTU;
                                             notificationRegistrations := [] |} ]
           /\ connectedDevices w' = connectedDevices w ++ [d]
           /\ connectData w' = zero_leConnectData
     | _ => connectedDevices w' = connectedDevices w /\ devices w' = devices w
     end.
Proof.
  revert w. induction fuel as [|fuel IH]; intros w; cbn [Connect_loop].
  { unfold lift. by intros [= <- <-]. }
  rewrite SR_bind_eq.
  destruct (hci_poll_connect_frame w)
    as (r1 & w1 & -> & Hlog & Hpolls & Hcd & Hdev & Hconn).
  destruct r1 as [[]|e|why|]; try (intros [= <- <-]; by rewrite Hlog, Hcd, Hdev).
  rewrite SR_bind_eq. unfold get.
  destruct (connected (connectData w1)) eqn:Hc.
  - rewrite SR_bind_eq. unfold new_deviceInternal.
    rewrite SR_bind_eq. unfold addConnection, modify at 1.
    rewrite SR_bind_eq. unfold clearConnectData, modify.
    intros [= <- <-]. cbn. split; [done|].
    exists (connectData w1). rewrite Hdev, Hcd.
    destruct (isRandom (Address_MACAddress address)); repeat split; try done.
    all: destruct Hconn as [->|Hev]; [by left|]; right; by exists (hci_polls w).
  - rewrite SR_bind_eq. unfold time_Now.
    case_bool_decide as Hlate.
    + intros [= <- <-]. by rewrite Hlog, Hcd, Hdev.
    + rewrite SR_bind_eq. unfold time_Sleep, modify. intros Hrun.
      apply IH in Hrun. cbn in Hrun. destruct Hrun as [Hlog' Hrun].
      rewrite Hlog, Hcd, Hdev, Hpolls in *. split; [done|].
      destruct r as [[d|]|e|why|]; try done.
      destruct Hrun as (c & Hcon & Horigin & Hrest).
      exists c. split; [done|]. split; [|done].
      destruct Horigin as [->|(k & Hk & Hev)].
      * destruct Hconn as [->|Hev]; [by left|]. right. by exists (hci_polls w).
      * right. exists k. split; [lia|done].
Qed.

Lemma Connect_registers {Params : Type} (fuel : nat)
    (address : Address) (params : Params) (w w' : World UUID) (d : Device) :
  Connect T fuel address params w = (Ok d, w') ->
  exists c,
    connected c = true
    /\ (c = connectData w
        \/ exists k, (hci_polls w <= k)%nat /\ poll_event T k = PollConnectComplete c)
    /\ d = {| Device_Address :=
                {| Address_MACAddress :=
                     {| MAC := makeAddress (conn_peerBdaddr c);
                        isRandom := isRandom (Address_MACAddress address) |} |};
              Device_deviceInternal := length (devices w) |}
    /\ devices w' = devices w ++ [ {| di_handle := conn_handle c;
                                      mtu := 23;
                                      notificationRegistrations := [] |} ]
    /\ connectedDevices w' = connectedDevices w ++ [d]
    /\ connectData w' = zero_leConnectData
    /\ hci_log w' = hci_log w ++ [Connect_command address].
Proof.
  unfold Connect. rewrite SR_bind_eq, hci_spec.
  destruct (command_error T _ _); [done|].
  rewrite SR_bind_eq. unfold time_Now. rewrite SR_bind_eq.
  destruct (Connect_loop T fuel address _ _) as [r w1] eqn:Hloop.
  apply Connect_loop_effect in Hloop. cbn in Hloop. destruct Hloop as [Hlog Hloop].
  destruct r as [[d1|]|e|why|]; try done.
  - intros [= <- <-]. destruct Hloop as (c & ? & ? & ? & ? & ? & ?).
    exists c. repeat split; try done.
  - rewrite SR_bind_eq, hci_spec. by destruct (command_error T _ _).
Qed.

(** X6: when [Connect] returns an error, no device was registered
    and none was allocated; the commands sent are the create-
    connection command and at most the cancel command after it. *)
Theorem Connect_failure_registers_nothing {Params : Type} (fuel : nat)
    (address : Address) (params : Params) (w : World UUID) (e : error) :
  (Connect T fuel address params w).1 = Err e ->
  connectedDevices (Connect T fuel address params w).2 = connectedDevices w
  /\ devices (Connect T fuel address params w).2 = devices w
  /\ (hci_log (Connect T fuel address params w).2
        = hci_log w ++ [Connect_command address]
      \/ hci_log (Connect T fuel address params w).2
        = hci_log w ++ [Connect_command address; leCancelConn]).
Proof.
  unfold Connect. rewrite SR_bind_eq, hci_spec.
  destruct (command_error T _ _); [intros _; cbn; by auto|].
  rewrite SR_bind_eq. unfold time_Now. rewrite SR_bind_eq.
  destruct (Connect_loop T fuel address _ _) as [r w1] eqn:Hloop.
  apply Connect_loop_effect in Hloop. cbn in Hloop. destruct Hloop as [Hlog Hloop].
  destruct r as [[d1|]|e1|why|]; try done.
  - rewrite SR_bind_eq, hci_spec. destruct Hloop as [Hcd Hdev].
    destruct (command_error T _ _); intros _; cbn; rewrite Hcd, Hdev, Hlog;
      repeat split; right; by rewrite <- app_assoc.
  - intros _. cbn. destruct Hloop as [Hcd Hdev]. rewrite Hcd, Hdev, Hlog. auto.
Qed.

(** X7: [Connect] does not clear the connect data before it polls: a
    connect-complete event that is pending when [Connect] is called
    is taken as the answer to this attempt at the first poll, with
    its handle and peer address. *)
Theorem Connect_takes_pending_event {Params : Type} (fuel : nat)
    (address : Address) (params : Params) (w : World UUID) :
  connected (connectData w) = true ->
  command_error T (hci_log w) (Connect_command address) = None ->
  poll_event T (hci_polls w) = PollIdle ->
  exists w',
    Connect T (S fuel) address params w
    = (Ok {| Device_Address :=
               {| Address_MACAddress :=
                    {| MAC := makeAddress (conn_peerBdaddr (connectData w));
                       isRandom := isRandom (Address_MACAddress address) |} |};
             Device_deviceInternal := length (devices w) |}, w')
    /\ devices w' = devices w ++ [ {| di_handle := conn_handle (connectData w);
                                      mtu := 23;
                                      notificationRegistrations := [] |} ]
    /\ hci_polls w' = S (hci_polls w).
Proof.
  intros Hpending Hcmd Hidle.
  unfold Connect. rewrite SR_bind_eq, hci_spec. fold (Connect_command address).
  rewrite Hcmd. rewrite SR_bind_eq. unfold time_Now. rewrite SR_bind_eq.
  cbn [Connect_loop]. rewrite SR_bind_eq. unfold hci_poll.
  cbn [hci_polls set_hci_log]. rewrite Hidle.
  rewrite SR_bind_eq. unfold get.
  cbn [connectData set_clock set_hci_polls set_hci_log]. rewrite Hpending.
  rewrite SR_bind_eq. unfold new_deviceInternal.
  rewrite SR_bind_eq. unfold addConnection, modify at 1.
  rewrite SR_bind_eq. unfold clearConnectData, modify.
  destruct (isRandom (Address_MACAddress address));
    eexists; (split; [reflexivity|]); split; reflexivity.
Qed.

(** X8: when the transport refuses the disconnect command,
    [Disconnect] returns that error and changes nothing but the
    command log: the device stays in the registry. *)
Theorem Disconnect_refused_keeps_connection (d : Device) (di : deviceInternal)
    (w : World UUID) (e : error) :
  devices w !! Device_deviceInternal d = Some di ->
  command_error T (hci_log w) (disconnect (di_handle di)) = Some e ->
  Disconnect T d w
  = (Err e, set_hci_log (hci_log w ++ [disconnect (di_handle di)]) w).
Proof.
  intros Hd Hcmd. unfold Disconnect. rewrite SR_bind_eq. unfold deref.
  rewrite Hd. by rewrite SR_bind_eq, hci_spec, Hcmd.
Qed.

(** X9: a device returned by [Connect] can be disconnected:
    [Disconnect] finds its record, sends the disconnect command for
    the handle stored at connection time and returns nil. *)
Theorem Connect_then_Disconnect {Params : Type} (fuel : nat)
    (address : Address) (params : Params) (w w' : World UUID) (d : Device) :
  commands_succeed T ->
  Connect T fuel address params w = (Ok d, w') ->
  exists h,
    handle_of w' d = Some h
    /\ (Disconnect T d w').1 = Ok tt
    /\ hci_log (Disconnect T d w').2
       = hci_log w ++ [Connect_command address; disconnect h]
    /\ devices (Disconnect T d w').2 = devices w'.
Proof.
  intros Hcmds Hrun. apply Connect_registers in Hrun.
  destruct Hrun as (c & _ & _ & Hd & Hdev & Hcd & _ & Hlog).
  assert (Hlook : devices w' !! Device_deviceInternal d
                  = Some {| di_handle := conn_handle c; mtu := 23;
                            notificationRegistrations := [] |}).
  { rewrite Hdev, Hd. cbn. by rewrite lookup_app_r, Nat.sub_diag by done. }
  exists (conn_handle c). unfold handle_of at 1. rewrite Hlook.
  split; [done|].
  unfold Disconnect. rewrite SR_bind_eq. unfold deref. rewrite Hlook.
  rewrite SR_bind_eq, hci_spec, Hcmds.
  rewrite SR_bind_eq. unfold removeConnection, modify. cbn.
  by rewrite Hlog, <- app_assoc.
Qed.
End ConnectionFacts.

(** ** The default advertisement *)

(** X13: the default advertisement is bound to the adapter of the
    first call of [DefaultAdvertisement] and its stop channel is
    made once, whatever adapters call it afterwards. *)
Theorem DefaultAdvertisement_first_caller_wins (a : nat) (later : list nat) :
  foldl (fun b a' => DefaultAdvertisement a' b) unbound (a :: later)
  = {| bound_adapter := Some a; stop_channel := Some 0%nat; channels_made := 1 |}.
Proof.
  cbn. generalize 0%nat. intros n. induction later as [|a' later IH]; by cbn.
Qed.

(** ** The registry of notification registrations *)




Lemma registrations_after_add (d d' : Device) (handle : Z) (callback : nat)
    (s : Store) :
  is_Some (st_devices s !! Device_deviceInternal d) ->
  registrations_of d' (addNotificationRegistration d handle callback s)
  = if decide (Device_deviceInternal d' = Device_deviceInternal d)
    then registrations_of d s
           ++ [ {| nr_handle := handle; nr_callback := callback |} ]
    else registrations_of d' s.
Proof.
  intros [di Hdi]. unfold registrations_of, addNotificationRegistration.
  cbn [st_devices]. case_decide as Hsame.
  - rewrite Hsame, list_lookup_alter_eq, Hdi. done.
  - by rewrite list_lookup_alter_ne.
Qed.

(** X11: [addNotificationRegistration] appends to the record the
    device points at: every copy of the device sees the new
    registration, devices with another record are untouched, and no
    record is added or removed. *)
Theorem registrations_follow_the_pointer (d d' : Device) (handle : Z)
    (callback : nat) (s : Store) :
  is_Some (st_devices s !! Device_deviceInternal d) ->
  (Device_deviceInternal d' = Device_deviceInternal d ->
   registrations_of d' (addNotificationRegistration d handle callback s)
   = registrations_of d s ++ [ {| nr_handle := handle; nr_callback := callback |} ])
  /\ (Device_deviceInternal d' <> Device_deviceInternal d ->
      registrations_of d' (addNotificationRegistration d handle callback s)
      = registrations_of d' s)
  /\ st_variables (addNotificationRegistration d handle callback s)
     = st_variables s
  /\ length (st_devices (addNotificationRegistration d handle callback s))
     = length (st_devices s).
Proof.
  intros Hd. repeat split.
  - intros Hsame. rewrite registrations_after_add by done. by rewrite decide_True.
  - intros Hother. rewrite registrations_after_add by done. by rewrite decide_False.
  - unfold addNotificationRegistration. cbn. by rewrite length_alter.
Qed.

Lemma find_in_first (before after : list notificationRegistration)
    (n : notificationRegistration) (s : Store) :
  Forall (fun m => nr_handle m <> nr_handle n) before ->
  find_in (before ++ n :: after) (nr_handle n) s
  = (Some (InVariable (length (st_variables s))),
     {| st_devices := st_devices s; st_variables := st_variables s ++ [n] |}).
Proof.
  induction 1 as [|m before Hm _ IH]; cbn [find_in app].
  - by rewrite bool_decide_eq_true_2.
  - by rewrite bool_decide_eq_false_2.
Qed.

(** X12: registering the same handle twice keeps both entries, and
    the lookup returns the first: the second callback is never
    found. *)
Theorem first_registration_shadows_later_ones (d : Device) (handle : Z)
    (first second : nat) (s : Store) :
  is_Some (st_devices s !! Device_deviceInternal d) ->
  Forall (fun m => nr_handle m <> handle) (registrations_of d s) ->
  let s2 := addNotificationRegistration d handle second
              (addNotificationRegistration d handle first s) in
  exists p s',
    findNotificationRegistration d handle s2 = (Some p, s')
    /\ load s' p = Some {| nr_handle := handle; nr_callback := first |}
    /\ registrations_of d s'
       = registrations_of d s
           ++ [ {| nr_handle := handle; nr_callback := first |};
                {| nr_handle := handle; nr_callback := second |} ].
Proof.
  intros Hd Hnew s2.
  assert (Hd1 : is_Some (st_devices (addNotificationRegistration d handle first s)
                           !! Device_deviceInternal d)).
  { destruct Hd as [di Hdi]. unfold addNotificationRegistration. cbn.
    rewrite list_lookup_alter_eq, Hdi. by eexists. }
  assert (Hregs : registrations_of d s2
                  = registrations_of d s
                      ++ {| nr_handle := handle; nr_callback := first |}
                      :: [ {| nr_handle := handle; nr_callback := second |} ]).
  { unfold s2. rewrite !registrations_after_add by done.
    rewrite !decide_True by done. by rewrite <- app_assoc. }
  unfold findNotificationRegistration. unfold registrations_of in Hregs at 1.
  clearbody s2.
  destruct (st_devices s2 !! Device_deviceInternal d) as [di|] eqn:Hdi.
  - rewrite Hregs.
    rewrite (find_in_first _ _ {| nr_handle := handle; nr_callback := first |})
      by done.
    eexists _, _. split; [reflexivity|]. split.
    + cbn. by rewrite lookup_app_r, Nat.sub_diag.
    + unfold registrations_of. cbn. by rewrite Hdi.
  - by destruct (registrations_of d s).
Qed.

(** ** Stopping the servicing task, continued *)

Module StopFacts.
Import Servicing.

Lemma run_app (disable_error : option error) (s1 s2 : list actor) (c : config) :
  run disable_error (s1 ++ s2) c = run disable_error s2 (run disable_error s1 c).
Proof. unfold run. apply foldl_app. Qed.

(** X21: when no servicing task is running, a call of [Stop] that
    the transport accepts never returns, in any schedule: nobody
    receives from the stop channel. *)
Theorem Stop_without_task_never_returns (sched : list actor) :
  has_returned (run None sched (calling [])) = false.
Proof.
  destruct (ServicingFacts.invariant_run None 0 sched (calling [])
              (ServicingFacts.invariant_calling None [] (Forall_nil_2 _)))
    as (Hlen & Hrecv & Hcaller).
  apply length_zero_iff_nil in Hlen. rewrite Hlen in Hrecv.
  unfold has_returned.
  destruct (caller (run None sched (calling []))) as [| | | | | |[e|]];
    try done; cbn in *.
  - by destruct Hcaller.
  - congruence.
Qed.

(** X22: with two or more servicing tasks (one per [Start]), a
    [Stop] that returned nil has stopped one of them only: the
    others are still in their loop. *)
Theorem Stop_leaves_other_tasks_running (disable_error : option error)
    (sched : list actor) (ts : list task) :
  Forall (fun t => t <> Exited) ts ->
  (2 <= length ts)%nat ->
  caller (run disable_error sched (calling ts)) = Returned None ->
  exists t rest,
    running (tasks (run disable_error sched (calling ts))) = t :: rest
    /\ (length rest + 2 = length ts)%nat.
Proof.
  intros Hts Hlen Hret.
  destruct (ServicingFacts.Stop_stops_one_task disable_error sched ts Hts Hret)
    as [_ Hone].
  destruct (running (tasks (run disable_error sched (calling ts)))) as [|t rest];
    cbn in Hone; [lia|].
  exists t, rest. split; [done|lia].
Qed.

(** The order of the effects of [Stop], whatever the tasks do. *)
Lemma Stop_effects_step (disable_error : option error) (c : config) (a : actor) :
  match caller c with
  | Disabling => log c = [] /\ att_clears c = 0%nat
  | Pausing | Clearing =>
      log c = [leSetAdvertiseEnable false] /\ att_clears c = 0%nat
                                           /\ disable_error = None
  | Returned (Some e) =>
      log c = [leSetAdvertiseEnable false] /\ att_clears c = 0%nat
                                           /\ disable_error = Some e
  | _ => log c = [leSetAdvertiseEnable false] /\ att_clears c = 1%nat
                                              /\ disable_error = None
  end ->
  match caller (step disable_error c a) with
  | Disabling => log (step disable_error c a) = []
                 /\ att_clears (step disable_error c a) = 0%nat
  | Pausing | Clearing =>
      log (step disable_error c a) = [leSetAdvertiseEnable false]
      /\ att_clears (step disable_error c a) = 0%nat
      /\ disable_error = None
  | Returned (Some e) =>
      log (step disable_error c a) = [leSetAdvertiseEnable false]
      /\ att_clears (step disable_error c a) = 0%nat
      /\ disable_error = Some e
  | _ => log (step disable_error c a) = [leSetAdvertiseEnable false]
         /\ att_clears (step disable_error c a) = 1%nat
         /\ disable_error = None
  end.
Proof.
  destruct c as [s ts rc lg ap ac]. destruct a as [|i]; cbn.
  - destruct s as [| | | | | |[e|]]; cbn; try done.
    + intros [-> ->]. by destruct disable_error.
    + by intros (-> & -> & ->).
  - unfold servicing_step. cbn.
    destruct (ts !! i) as [[| | |]|]; cbn; try done.
    destruct s as [| | | | | |[e|]]; cbn; done.
Qed.

(** X23: at every point of a call of [Stop], in any schedule: the
    disable command is the only command sent and is sent first; the
    attribute data is cleared once, after the pause and before the
    send on the stop channel, and never when the command was
    refused. *)
Theorem Stop_effects_in_order (disable_error : option error)
    (sched : list actor) (ts : list task) :
  match caller (run disable_error sched (calling ts)) with
  | Disabling => log (run disable_error sched (calling ts)) = []
                 /\ att_clears (run disable_error sched (calling ts)) = 0%nat
  | Pausing | Clearing =>
      log (run disable_error sched (calling ts)) = [leSetAdvertiseEnable false]
      /\ att_clears (run disable_error sched (calling ts)) = 0%nat
      /\ disable_error = None
  | Returned (Some e) =>
      log (run disable_error sched (calling ts)) = [leSetAdvertiseEnable false]
      /\ att_clears (run disable_error sched (calling ts)) = 0%nat
      /\ disable_error = Some e
  | _ => log (run disable_error sched (calling ts)) = [leSetAdvertiseEnable false]
         /\ att_clears (run disable_error sched (calling ts)) = 1%nat
         /\ disable_error = None
  end.
Proof.
  induction sched as [|a sched IH] using rev_ind; [done|].
  rewrite run_app. change (run disable_error [a] ?c) with (step disable_error c a).
  by apply Stop_effects_step.
Qed.

(** X24: with one servicing task and a transport that accepts the
    command, a call of [Stop] is never stuck: from every point any
    schedule has reached, at most eight more steps make it return
    nil. *)
Theorem Stop_can_always_return (sched : list actor) (t : task) :
  t <> Exited ->
  exists rest,
    (length rest <= 8)%nat
    /\ caller (run None (sched ++ rest) (calling [t])) = Returned None.
Proof.
  intros Ht.
  assert (Hts : Forall (fun t => t <> Exited) [t]) by (by constructor).
  destruct (ServicingFacts.invariant_run None 1 sched (calling [t])
              (ServicingFacts.invariant_calling None [t] Hts))
    as (Hlen & Hrecv & Hcaller).
  destruct (run None sched (calling [t])) as [s ts rc lg ap ac] eqn:Hc.
  cbn -[exited] in Hlen, Hrecv, Hcaller.
  destruct ts as [|t' [|]]; try done. clear Hlen.
  assert (Hgo : forall rest,
    caller (run None rest
              {| caller := s; tasks := [t']; received := rc; log := lg;
                 att_polls := ap; att_clears := ac |}) = Returned None ->
    (length rest <= 8)%nat ->
    exists rest, (length rest <= 8)%nat
      /\ caller (run None (sched ++ rest) (calling [t])) = Returned None).
  { intros rest Hrest Hshort. exists rest. split; [done|].
    by rewrite run_app, Hc. }
  destruct s as [| | | | | |[e|]], t'; vm_compute in Hrecv;
    try (cbn in Hcaller; (lia || (by destruct Hcaller))).
  all: first
    [ by apply (Hgo [])
    | by apply (Hgo [Caller])
    | by apply (Hgo [Task 0; Caller])
    | by apply (Hgo [Task 0; Task 0; Caller])
    | by apply (Hgo [Task 0; Task 0; Task 0; Caller])
    | by apply (Hgo [Caller; Task 0; Caller])
    | by apply (Hgo [Caller; Task 0; Task 0; Caller])
    | by apply (Hgo [Caller; Task 0; Task 0; Task 0; Caller])
    | by apply (Hgo [Caller; Caller; Task 0; Caller])
    | by apply (Hgo [Caller; Caller; Task 0; Task 0; Caller])
    | by apply (Hgo [Caller; Caller; Task 0; Task 0; Task 0; Caller])
    | by apply (Hgo [Caller; Caller; Caller; Task 0; Caller])
    | by apply (Hgo [Caller; Caller; Caller; Task 0; Task 0; Caller])
    | by apply (Hgo [Caller; Caller; Caller; Task 0; Task 0; Task 0; Caller])
    | by apply (Hgo [Caller; Caller; Caller; Caller; Task 0; Caller])
    | by apply (Hgo [Caller; Caller; Caller; Caller; Task 0; Task 0; Caller])
    | by apply (Hgo [Caller; Caller; Caller; Caller; Task 0; Task 0; Task 0; Caller])
    ].
Qed.

(** X25: once [Stop] has returned nil with one servicing task,
    nothing happens any more: the task has left its loop and polls
    no further, whatever is scheduled. *)
Theorem Stop_returned_is_final (sched more : list actor) (t : task) :
  t <> Exited ->
  caller (run None sched (calling [t])) = Returned None ->
  run None (sched ++ more) (calling [t]) = run None sched (calling [t]).
Proof.
  intros Ht Hret.
  assert (Hts : Forall (fun t => t <> Exited) [t]) by (by constructor).
  destruct (ServicingFacts.Stop_stops_one_task None sched [t] Hts Hret)
    as [_ Hone].
  pose proof (ServicingFacts.exited_running
                (tasks (run None sched (calling [t])))) as Hsum.
  destruct (ServicingFacts.invariant_run None 1 sched (calling [t])
              (ServicingFacts.invariant_calling None [t] Hts))
    as (Hlen & _ & _).
  rewrite run_app.
  destruct (run None sched (calling [t])) as [s ts rc lg ap ac].
  cbn in Hret, Hone, Hsum, Hlen. subst s.
  destruct ts as [|t' [|]]; try done.
  assert (t' = Exited) as ->.
  { destruct t'; try done; cbn in Hone; lia. }
  induction more as [|a more IH]; [done|].
  cbn [run foldl] in *. by destruct a as [|[|i]].
Qed.

End StopFacts.

(** ** Decoding what the encoders emit *)

Section DecodeRoundTrip.
Context {UUID : Type} `{!Externals UUID}.












End DecodeRoundTrip.

(** ** The packets and the registry entry, stated on their own *)

(** X15: with at most a 16-bit service UUID and manufacturer data
    elements of at most 220 bytes each, the advertising data [Start]
    builds is the flags structure, the service UUID structure and
    the manufacturer data structures one after the other if that
    fits in 31 bytes, and the error for too long manufacturer data
    otherwise. *)
Theorem advertising_packet_is_its_structures {UUID : Type} `{!Externals UUID}
    (a : Advertisement UUID) :
  (forall uuid, serviceUUIDs a = [uuid] -> Is16Bit uuid = true) ->
  Forall (fun md => len (md_Data md) <= 220) (manufacturerData a) ->
  advertisingData_packet a
  = if bool_decide (len (concat (advertising_structures a)) <= 31)
    then Ok (concat (advertising_structures a))
    else Err (errorsNew "ManufacturerData too long").
Proof. apply advertisingData_packet_structures. Qed.

(** X19: with no 32-bit service-data UUID and service data elements
    of at most 220 bytes each, the scan response [setServiceData]
    builds is the name structure and the service-data structures one
    after the other if that fits in 31 bytes, and the error for too
    long service data otherwise. *)
Theorem scan_response_is_its_structures {UUID : Type} `{!Externals UUID}
    (name : list Z) (sd : list (ServiceDataElement UUID)) :
  Forall (fun sde => Is16Bit (sd_UUID sde) = true
                     \/ Is32Bit (sd_UUID sde) = false) sd ->
  Forall (fun sde => len (sd_Data sde) <= 220) sd ->
  scanResponseData_packet name sd
  = if bool_decide (len (concat (scanResponse_structures name sd)) <= 31)
    then Ok (concat (scanResponse_structures name sd))
    else Err (errorsNew "ServiceData too long").
Proof. apply scanResponseData_packet_structures. Qed.

(** X5: when [Connect] returns a device, the device carries the peer
    address and the handle of a connect-complete event (one pending
    at the call or one polled since), the address type asked for,
    the default MTU and no registrations; it was appended to the
    registry, the pending event was cleared, and the only command
    sent is the create-connection command. *)
Theorem Connect_success_registers_device {UUID : Type} `{!Externals UUID}
    (T : Transport) {Params : Type} (fuel : nat)
    (address : Address) (params : Params) (w w' : World UUID) (d : Device) :
  Connect T fuel address params w = (Ok d, w') ->
  exists c,
    connected c = true
    /\ (c = connectData w
        \/ exists k, (hci_polls w <= k)%nat /\ poll_event T k = PollConnectComplete c)
    /\ d = {| Device_Address :=
                {| Address_MACAddress :=
                     {| MAC := makeAddress (conn_peerBdaddr c);
                        isRandom := isRandom (Address_MACAddress address) |} |};
              Device_deviceInternal := length (devices w) |}
    /\ devices w' = devices w ++ [ {| di_handle := conn_handle c;
                                      mtu := 23;
                                      notificationRegistrations := [] |} ]
    /\ connectedDevices w' = connectedDevices w ++ [d]
    /\ connectData w' = zero_leConnectData
    /\ hci_log w' = hci_log w ++ [Connect_command address].
Proof. apply Connect_registers. Qed.

(** ** The properties above on concrete inputs *)

Lemma run_pair {A B : Type} (x : A * B) (a : A) : x.1 = a -> x = (a, x.2).
Proof. intros <-. by destruct x. Qed.

Lemma advertising_packet_is_its_structures_witness :
  advertisingData_packet Sample2.beacon = Ok Sample2.beacon_advertisingData.
Proof.
  rewrite (advertising_packet_is_its_structures Sample2.beacon).
  - reflexivity.
  - by intros uuid [= <-].
  - repeat constructor. by vm_compute.
Defined.

Lemma advertising_packet_well_formed_witness :
  advertisingData_packet Sample2.beacon = Ok Sample2.beacon_advertisingData
  /\ well_formed_packet Sample2.beacon_advertisingData = true.
Proof.
  split; [reflexivity|].
  apply (advertising_packet_well_formed Sample2.beacon).
  - by intros uuid [= <-].
  - repeat constructor. by vm_compute.
  - reflexivity.
Defined.

Lemma scan_response_is_its_structures_witness :
  scanResponseData_packet (localName Sample2.beacon) (serviceData Sample2.beacon)
  = Ok Sample2.beacon_scanResponseData.
Proof.
  rewrite (scan_response_is_its_structures (localName Sample2.beacon)
             (serviceData Sample2.beacon)).
  - reflexivity.
  - repeat constructor.
  - repeat constructor. by vm_compute.
Defined.

Lemma setServiceData_refuses_32bit_uuid_witness :
  let w := Sample2.advertising Sample2.beacon in
  (setServiceData Sample.quiet [Sample2.wide] w).1
  = Err (errorsNew "32-bit ServiceData UUIDs not yet supported")
  /\ hci_log (setServiceData Sample.quiet [Sample2.wide] w).2 = []
  /\ serviceData (defaultAdvertisement (setServiceData Sample.quiet [Sample2.wide] w).2)
     = [Sample2.wide].
Proof.
  intros w.
  apply (setServiceData_refuses_32bit_uuid Sample.quiet Sample2.wide [] w).
  - reflexivity.
  - reflexivity.
  - by vm_compute.
Defined.

Lemma Start_pushes_in_order_witness :
  let w := Sample2.advertising Sample2.beacon in
  (Start Sample.quiet w).1 = Ok tt
  /\ hci_log (Start Sample.quiet w).2
     = [ leSetAdvertisingParameters 0x0800 0x0800 0 0 0 [0; 0; 0; 0; 0; 0] 7 0;
         leSetAdvertisingData Sample2.beacon_advertisingData;
         leSetScanResponseData Sample2.beacon_scanResponseData;
         leSetAdvertiseEnable true ]
  /\ servicing (Start Sample.quiet w).2 = 1%nat
  /\ defaultAdvertisement (Start Sample.quiet w).2 = Sample2.beacon.
Proof.
  intros w.
  apply (Start_pushes_in_order Sample.quiet w Sample2.beacon_advertisingData
           Sample2.beacon_scanResponseData).
  - intros log c. reflexivity.
  - reflexivity.
  - reflexivity.
Defined.

Lemma Start_capacity_error_witness :
  let w := Sample2.advertising Sample2.overfull in
  (Start Sample.quiet w).1 = Err (errorsNew "ManufacturerData too long")
  /\ servicing (Start Sample.quiet w).2 = 0%nat
  /\ hci_log (Start Sample.quiet w).2
     = [ leSetAdvertisingParameters 0x0800 0x0800 0 0 0 [0; 0; 0; 0; 0; 0] 7 0 ].
Proof.
  intros w.
  apply (Start_capacity_error Sample.quiet w (errorsNew "ManufacturerData too long")).
  - intros log c. reflexivity.
  - left. reflexivity.
Defined.

Lemma Scan_returns_only_when_stopped_witness :
  let T := Sample2.reporting (report_of Sample2.beacon_scanResponseData) in
  (Scan T 2 (stopping_callback T) Sample.fresh).1 = Ok tt
  /\ scanning (Scan T 2 (stopping_callback T) Sample.fresh).2 = false
  /\ reported (advData (Scan T 2 (stopping_callback T) Sample.fresh).2) = false.
Proof.
  intros T. split; [reflexivity|].
  exact (Scan_returns_only_when_stopped T 2 (stopping_callback T) Sample.fresh
           (Scan T 2 (stopping_callback T) Sample.fresh).2
           (run_pair (Scan T 2 (stopping_callback T) Sample.fresh) (Ok tt) eq_refl)).
Defined.

Lemma Scan_never_delivers_oversized_reports_witness :
  let T := Sample2.flooding 2 Sample2.oversized in
  Scan T 5 (stopping_callback T) Sample.fresh
  = Scan T 5 Sample2.ignoring Sample.fresh.
Proof.
  intros T.
  apply (Scan_never_delivers_oversized_reports T 5 (stopping_callback T)
           Sample2.ignoring Sample.fresh).
  - intros k r. cbn. case_bool_decide; [|done]. intros [= <-] _. by vm_compute.
  - reflexivity.
Defined.

Lemma Scan_failed_enable_leaves_flag_set_witness :
  let e := errTransport 12 in
  let T := Sample2.refusing_nth 2 e in
  (Scan T 3 Sample2.ignoring Sample.fresh).1 = Err e
  /\ scanning (Scan T 3 Sample2.ignoring Sample.fresh).2 = true
  /\ hci_polls (Scan T 3 Sample2.ignoring Sample.fresh).2 = 0%nat
  /\ (Scan T 3 Sample2.ignoring (Scan T 3 Sample2.ignoring Sample.fresh).2).1
     = Err errScanning.
Proof.
  intros e T.
  apply (Scan_failed_enable_leaves_flag_set T 3 Sample2.ignoring Sample.fresh e);
    reflexivity.
Defined.

Lemma Scan_stopped_by_its_callback_witness :
  let T := Sample2.reporting (report_of Sample2.beacon_scanResponseData) in
  (Scan T 2 (stopping_callback T) Sample.fresh).1 = Ok tt
  /\ hci_log (Scan T 2 (stopping_callback T) Sample.fresh).2
     = [ leSetScanEnable false true;
         leSetScanParameters 0x00 0x0080 0x0030 0x00 0x00;
         leSetScanEnable true false;
         leSetScanEnable false false ]
  /\ scanning (Scan T 2 (stopping_callback T) Sample.fresh).2 = false
  /\ hci_polls (Scan T 2 (stopping_callback T) Sample.fresh).2 = 2%nat.
Proof.
  intros T.
  apply (Scan_stopped_by_its_callback T 0 Sample.fresh
           (report_of Sample2.beacon_scanResponseData)
           {| LocalName := bytes_of_string "TinyGo"; ServiceUUIDs := [] |}).
  - reflexivity.
  - intros log c. reflexivity.
  - reflexivity.
  - reflexivity.
  - by vm_compute.
  - reflexivity.
  - reflexivity.
Defined.

Lemma Connect_success_registers_device_witness :
  let T := Sample.connecting Sample2.complete in
  let d := {| Device_Address :=
                {| Address_MACAddress :=
                     {| MAC := [1; 2; 3; 4; 5; 6]; isRandom := true |} |};
              Device_deviceInternal := 0%nat |} in
  (Connect T 1 Sample2.address tt Sample.fresh).1 = Ok d
  /\ exists c,
       connected c = true
       /\ (c = connectData Sample.fresh
           \/ exists k, (hci_polls Sample.fresh <= k)%nat
                        /\ poll_event T k = PollConnectComplete c)
       /\ d = {| Device_Address :=
                   {| Address_MACAddress :=
                        {| MAC := makeAddress (conn_peerBdaddr c);
                           isRandom := isRandom (Address_MACAddress Sample2.address) |} |};
                 Device_deviceInternal := length (devices Sample.fresh) |}
       /\ devices (Connect T 1 Sample2.address tt Sample.fresh).2
          = devices Sample.fresh
              ++ [ {| di_handle := conn_handle c; mtu := 23;
                      notificationRegistrations := [] |} ]
       /\ connectedDevices (Connect T 1 Sample2.address tt Sample.fresh).2
          = connectedDevices Sample.fresh ++ [d]
       /\ connectData (Connect T 1 Sample2.address tt Sample.fresh).2
          = zero_leConnectData
       /\ hci_log (Connect T 1 Sample2.address tt Sample.fresh).2
          = hci_log Sample.fresh ++ [Connect_command Sample2.address].
Proof.
  intros T d. split; [reflexivity|].
  exact (Connect_success_registers_device T 1 Sample2.address tt Sample.fresh
           (Connect T 1 Sample2.address tt Sample.fresh).2 d
           (run_pair (Connect T 1 Sample2.address tt Sample.fresh) (Ok d) eq_refl)).
Defined.

Lemma Connect_failure_registers_nothing_witness :
  let e := errTransport 12 in
  let T := Sample.refusing Sample.is_leCreateConn e in
  (Connect T 1 Sample2.address tt Sample.fresh).1 = Err e
  /\ connectedDevices (Connect T 1 Sample2.address tt Sample.fresh).2 = []
  /\ devices (Connect T 1 Sample2.address tt Sample.fresh).2 = []
  /\ (hci_log (Connect T 1 Sample2.address tt Sample.fresh).2
        = [] ++ [Connect_command Sample2.address]
      \/ hci_log (Connect T 1 Sample2.address tt Sample.fresh).2
        = [] ++ [Connect_command Sample2.address; leCancelConn]).
Proof.
  intros e T. split; [reflexivity|].
  apply (Connect_failure_registers_nothing T 1 Sample2.address tt Sample.fresh e).
  reflexivity.
Defined.

Lemma Connect_takes_pending_event_witness :
  let w := set_connectData Sample2.complete Sample.fresh in
  exists w',
    Connect Sample.quiet 1 Sample2.address tt w
    = (Ok {| Device_Address :=
               {| Address_MACAddress :=
                    {| MAC := makeAddress (conn_peerBdaddr (connectData w));
                       isRandom := isRandom (Address_MACAddress Sample2.address) |} |};
             Device_deviceInternal := length (devices w) |}, w')
    /\ devices w' = devices w ++ [ {| di_handle := conn_handle (connectData w);
                                      mtu := 23;
                                      notificationRegistrations := [] |} ]
    /\ hci_polls w' = S (hci_polls w).
Proof.
  intros w.
  exact (Connect_takes_pending_event Sample.quiet 0 Sample2.address tt w
           eq_refl eq_refl eq_refl).
Defined.

Lemma Disconnect_refused_keeps_connection_witness :
  let e := errTransport 12 in
  let T := Sample.refusing Sample2.is_disconnect e in
  Disconnect T Sample2.peer Sample2.connected_world
  = (Err e, set_hci_log ([] ++ [disconnect 0x0040]) Sample2.connected_world).
Proof.
  intros e T.
  apply (Disconnect_refused_keeps_connection T Sample2.peer
           {| di_handle := 0x0040; mtu := defaultMTU;
              notificationRegistrations := [] |} Sample2.connected_world e);
    reflexivity.
Defined.

Lemma Connect_then_Disconnect_witness :
  let T := Sample.connecting Sample2.complete in
  let w' := (Connect T 1 Sample2.address tt Sample.fresh).2 in
  let d := {| Device_Address :=
                {| Address_MACAddress :=
                     {| MAC := [1; 2; 3; 4; 5; 6]; isRandom := true |} |};
              Device_deviceInternal := 0%nat |} in
  exists h,
    handle_of w' d = Some h
    /\ (Disconnect T d w').1 = Ok tt
    /\ hci_log (Disconnect T d w').2
       = hci_log Sample.fresh ++ [Connect_command Sample2.address; disconnect h]
    /\ devices (Disconnect T d w').2 = devices w'.
Proof.
  intros T w' d.
  exact (Connect_then_Disconnect T 1 Sample2.address tt Sample.fresh w' d
           (fun log c => eq_refl)
           (run_pair (Connect T 1 Sample2.address tt Sample.fresh) (Ok d) eq_refl)).
Defined.

Lemma registrations_follow_the_pointer_witness :
  let d := Sample2.peer in
  let copy := {| Device_Address := Sample2.address; Device_deviceInternal := 0%nat |} in
  let other := {| Device_Address := Sample2.address; Device_deviceInternal := 1%nat |} in
  let s := addNotificationRegistration d 0x002A 1 Sample2.one_device in
  registrations_of copy s = [ {| nr_handle := 0x002A; nr_callback := 1 |} ]
  /\ registrations_of other s = [].
Proof.
  intros d copy other s.
  destruct (registrations_follow_the_pointer d copy 0x002A 1 Sample2.one_device)
    as (Hsame & _); [by eexists|].
  destruct (registrations_follow_the_pointer d other 0x002A 1 Sample2.one_device)
    as (_ & Hother & _); [by eexists|].
  split; [exact (Hsame eq_refl) | apply Hother; discriminate].
Defined.

Lemma first_registration_shadows_later_ones_witness :
  let s2 := addNotificationRegistration Sample2.peer 0x002A 2
              (addNotificationRegistration Sample2.peer 0x002A 1 Sample2.one_device) in
  exists p s',
    findNotificationRegistration Sample2.peer 0x002A s2 = (Some p, s')
    /\ load s' p = Some {| nr_handle := 0x002A; nr_callback := 1 |}
    /\ registrations_of Sample2.peer s'
       = registrations_of Sample2.peer Sample2.one_device
           ++ [ {| nr_handle := 0x002A; nr_callback := 1 |};
                {| nr_handle := 0x002A; nr_callback := 2 |} ].
Proof.
  apply (first_registration_shadows_later_ones Sample2.peer 0x002A 1 2
           Sample2.one_device).
  - by eexists.
  - constructor.
Defined.

Lemma Stop_leaves_other_tasks_running_witness :
  let sched := [ Servicing.Caller; Servicing.Caller; Servicing.Caller;
                 Servicing.Caller; Servicing.Task 0; Servicing.Caller ] in
  let ts := [Servicing.Selecting; Servicing.Selecting] in
  Servicing.caller (Servicing.run None sched (Servicing.calling ts))
  = Servicing.Returned None
  /\ exists t rest,
       Servicing.running
         (Servicing.tasks (Servicing.run None sched (Servicing.calling ts)))
       = t :: rest
       /\ (length rest + 2 = length ts)%nat.
Proof.
  intros sched ts. split; [reflexivity|].
  apply (StopFacts.Stop_leaves_other_tasks_running None sched ts).
  - repeat constructor; discriminate.
  - cbn. lia.
  - reflexivity.
Defined.

Lemma Stop_can_always_return_witness :
  exists rest,
    (length rest <= 8)%nat
    /\ Servicing.caller
         (Servicing.run None ([Servicing.Caller; Servicing.Task 0] ++ rest)
            (Servicing.calling [Servicing.Polling]))
       = Servicing.Returned None.
Proof.
  apply (StopFacts.Stop_can_always_return [Servicing.Caller; Servicing.Task 0]
           Servicing.Polling).
  discriminate.
Defined.

Lemma Stop_returned_is_final_witness :
  let sched := [ Servicing.Caller; Servicing.Caller; Servicing.Caller;
                 Servicing.Caller; Servicing.Task 0; Servicing.Caller ] in
  let more := [Servicing.Task 0; Servicing.Task 0; Servicing.Caller] in
  Servicing.run None (sched ++ more) (Servicing.calling [Servicing.Selecting])
  = Servicing.run None sched (Servicing.calling [Servicing.Selecting]).
Proof.
  intros sched more.
  apply (StopFacts.Stop_returned_is_final sched more Servicing.Selecting).
  - discriminate.
  - reflexivity.
Defined.


